(** * insuretecho: record validation, ingestion and risk scoring

    A shallow embedding of [data_cleaning.py] (class [DataCleaner]),
    [risk_engine.py] (class [RiskEngine]) and the constants of [config.py].

    Python values are modelled as the interpreter has them:
    - [float] is IEEE-754 binary64, here the kernel's primitive [float]
      ([PrimFloat]), so [+], [*], [/], [sqrt] and the comparisons are the
      ones CPython executes, NaN and infinities included;
    - [int] is [Z];
    - [str] is [string], read as the sequence of the text's code points,
      each below 256 (text with a code point beyond that is outside the
      model);
    - a [dict] whose iteration order reaches the output is an
      association list in insertion order; a [dict] that is only indexed
      is a [gmap];
    - an exception is a value of [exn], threaded by the monad [exc]. *)

From Stdlib Require Import ZArith List String Ascii Bool Lia.
From Stdlib Require Import Floats Uint63.
From Stdlib Require Import Sorted Permutation.
From Stdlib Require DecimalString DecimalZ.
From stdpp Require Import gmap strings.

Set Warnings "-inexact-float".
Local Open Scope string_scope.
Local Open Scope list_scope.
Local Open Scope Z_scope.

(* ===================================================================== *)
(** * Python text primitives *)
(* ===================================================================== *)

Module PyStr.

(** [str.isspace], which [str.strip] and the [\s] of a pattern use:
    TAB..CR, FS..US and the space, and NEL (133) and NBSP (160). *)
Definition is_space (c : ascii) : bool :=
  let n := Z.of_nat (nat_of_ascii c) in
  ((9 <=? n) && (n <=? 13)) || ((28 <=? n) && (n <=? 32)) || (n =? 133) || (n =? 160).

(** The white space that [float] and [int] skip around a numeral:
    TAB..CR and the space, and NEL and NBSP, which they first replace by
    a space. FS..US are not skipped. *)
Definition is_numeral_space (c : ascii) : bool :=
  let n := Z.of_nat (nat_of_ascii c) in
  ((9 <=? n) && (n <=? 13)) || (n =? 32) || (n =? 133) || (n =? 160).

Definition is_digit (c : ascii) : bool :=
  let n := Z.of_nat (nat_of_ascii c) in (48 <=? n) && (n <=? 57).

Definition digit_val (c : ascii) : Z := Z.of_nat (nat_of_ascii c) - 48.

(** ASCII lower-casing, for the case-insensitive spellings of
    [inf], [infinity] and [nan]. *)
Definition lower (c : ascii) : ascii :=
  let n := nat_of_ascii c in
  if (65 <=? Z.of_nat n) && (Z.of_nat n <=? 90)
  then ascii_of_nat (n + 32) else c.

Fixpoint lstrip (l : list ascii) : list ascii :=
  match l with
  | c :: r => if is_space c then lstrip r else l
  | [] => []
  end.

Definition chars (s : string) : list ascii := list_ascii_of_string s.
Definition of_chars (l : list ascii) : string := string_of_list_ascii l.

(** [s.strip()] *)
Definition strip_chars (l : list ascii) : list ascii :=
  rev (lstrip (rev (lstrip l))).

(** The text of a numeral without the white space around it. *)
Fixpoint lstrip_numeral (l : list ascii) : list ascii :=
  match l with
  | c :: r => if is_numeral_space c then lstrip_numeral r else l
  | [] => []
  end.

Definition strip_numeral (l : list ascii) : list ascii :=
  rev (lstrip_numeral (rev (lstrip_numeral l))).

Definition strip (s : string) : string := of_chars (strip_chars (chars s)).

(** [s.split(sep)[0]]: the text before the first [sep]. *)
Fixpoint before (sep : ascii) (l : list ascii) : list ascii :=
  match l with
  | [] => []
  | c :: r => if Ascii.eqb c sep then [] else c :: before sep r
  end.

Definition split_head (sep : ascii) (s : string) : string :=
  of_chars (before sep (chars s)).

(** [s[:n]] *)
Definition prefix (n : nat) (s : string) : string := String.substring 0 n s.

(** Decimal rendering of a natural number, left-padded with zeros to
    [width] characters (the [%02d] and [%04d] of [strftime]). *)
Fixpoint digits_rev (fuel : nat) (n : Z) : list ascii :=
  match fuel with
  | O => []
  | S f =>
      let d := ascii_of_nat (Z.to_nat (48 + n mod 10)) in
      if n <? 10 then [d] else d :: digits_rev f (n / 10)
  end.

Fixpoint pad (k : nat) (l : list ascii) : list ascii :=
  match k with
  | O => l
  | S k' => "0"%char :: pad k' l
  end.

Definition zpad (width : nat) (n : Z) : string :=
  let ds := rev (digits_rev (S (Z.to_nat (Z.log2 n))) n) in
  of_chars (pad (width - length ds) ds).

End PyStr.

(* ===================================================================== *)
(** * Python floats *)
(* ===================================================================== *)

Module PyFloat.

Local Open Scope float_scope.

(** The quotient [a / b] of two positive integers rounded once to the
    nearest binary64 value, ties to even, with sign [s]. *)
Definition RN_div (s : bool) (a b : positive) : spec_float :=
  let '(q, e, l) := SFdiv_core_binary prec emax (Zpos a) 0 (Zpos b) 0 in
  binary_round_aux prec emax s q e l.

(** [(-1)^s * m * 10^e] as the nearest binary64 value: what [float(str)]
    returns for a decimal numeral. *)
Definition of_decimal (s : bool) (m e : Z) : float :=
  match m with
  | Zpos p =>
      if (0 <=? e)%Z
      then SF2Prim (RN_div s (p * Z.to_pos (10 ^ e)) 1)
      else SF2Prim (RN_div s p (Z.to_pos (10 ^ (- e))))
  | _ => if s then neg_zero else zero
  end.

(** [float(n)] for an [int] below [2^63] in magnitude. *)
Definition of_int (z : Z) : float :=
  if (z <? 0)%Z then - of_uint63 (Uint63.of_Z (- z)) else of_uint63 (Uint63.of_Z z).

(** [a / b] on two [int]s (true division); exact operands below [2^53]. *)
Definition int_true_div (a b : Z) : float := of_int a / of_int b.

(** ** [float(str)] *)

(** digits, each optionally preceded by one underscore; [acc] is the
    numeral read so far and [n] the number of digits read. *)
Fixpoint digit_run (l : list ascii) (acc n : Z) : Z * Z * list ascii :=
  match l with
  | c :: r =>
      if PyStr.is_digit c then digit_run r (10 * acc + PyStr.digit_val c)%Z (n + 1)%Z
      else if Ascii.eqb c "_"
      then match r with
           | d :: r' =>
               if PyStr.is_digit d
               then digit_run r' (10 * acc + PyStr.digit_val d)%Z (n + 1)%Z
               else (acc, n, l)
           | [] => (acc, n, l)
           end
      else (acc, n, l)
  | [] => (acc, n, l)
  end.

(** [digitpart ::= digit (["_"] digit)*] *)
Definition digitpart (l : list ascii) (acc : Z) : option (Z * Z * list ascii) :=
  match l with
  | c :: r =>
      if PyStr.is_digit c
      then Some (digit_run r (10 * acc + PyStr.digit_val c)%Z 1%Z)
      else None
  | [] => None
  end.

Definition sign (l : list ascii) : bool * list ascii :=
  match l with
  | "-"%char :: r => (true, r)
  | "+"%char :: r => (false, r)
  | _ => (false, l)
  end.

(** [exponent ::= ("e" | "E") [sign] digitpart], then the end of the text. *)
Definition exponent (l : list ascii) : option Z :=
  match l with
  | [] => Some 0%Z
  | c :: r =>
      if Ascii.eqb (PyStr.lower c) "e"
      then let '(neg, r1) := sign r in
           match digitpart r1 0%Z with
           | Some (v, _, []) => Some (if neg then (- v)%Z else v)
           | _ => None
           end
      else None
  end.

(** [number ::= [digitpart] "." digitpart | digitpart ["."]]; the result
    is the numeral without its point, the number of digits after the
    point, and the text that follows. *)
Definition number (l : list ascii) : option (Z * Z * list ascii) :=
  match digitpart l 0%Z with
  | Some (i, _, "."%char :: r) =>
      match digitpart r i with
      | Some (m, k, r') => Some (m, k, r')
      | None => Some (i, 0%Z, r)
      end
  | Some (i, _, r) => Some (i, 0%Z, r)
  | None =>
      match l with
      | "."%char :: r => digitpart r 0%Z
      | _ => None
      end
  end.

Definition of_chars (l : list ascii) : option float :=
  let '(neg, body) := sign (PyStr.strip_numeral l) in
  let low := PyStr.of_chars (map PyStr.lower body) in
  if (String.eqb low "inf" || String.eqb low "infinity")%bool
  then Some (if neg then neg_infinity else infinity)
  else if String.eqb low "nan" then Some nan
  else match number body with
       | Some (m, k, r) =>
           match exponent r with
           | Some e => Some (of_decimal neg m (e - k))
           | None => None
           end
       | None => None
       end.

(** [float(s)]: [None] stands for [ValueError]. *)
Definition of_string (s : string) : option float := of_chars (PyStr.chars s).

(** ** [round(x, ndigits)]

    CPython rounds the exact binary value of [x] to [ndigits] decimals,
    ties to even, and returns the binary64 value nearest to that decimal.
    Non-finite values round to themselves. *)

(** [num / den] rounded to the nearest integer, ties to even ([den > 0]). *)
Definition rhe (num den : Z) : Z :=
  let q := (num / den)%Z in
  match (2 * (num mod den) ?= den)%Z with
  | Lt => q
  | Gt => (q + 1)%Z
  | Eq => if Z.even q then q else (q + 1)%Z
  end.

(** [m * 2^e * 10^nd] rounded to the nearest integer, ties to even. *)
Definition scaled (m : positive) (e nd : Z) : Z :=
  if (0 <=? e)%Z then (Zpos m * 2 ^ e * 10 ^ nd)%Z
  else rhe (Zpos m * 10 ^ nd) (2 ^ (- e)).

(** For [ndigits] 2 and 4, as used by the program: a scaled value of
    [2^53] or more means [x] has no digit below [10^-ndigits] left, and
    below it numerator and denominator are exact, so that one division
    rounds once. *)
Definition round (x : float) (nd : Z) : float :=
  match Prim2SF x with
  | S754_finite s m e =>
      let n := scaled m e nd in
      if (n <? 2 ^ 53)%Z
      then let r := of_int n / of_int (10 ^ nd) in if s then - r else r
      else x
  | _ => x
  end.

(** [bool(x)]: a float is falsy exactly when it equals zero. *)
Definition truthy (x : float) : bool := negb (x =? 0).

(** [max(a, b)] and [min(a, b)] of the builtins: the first argument is
    kept unless the second is strictly larger (smaller). *)
Definition max2 (a b : float) : float := if a <? b then b else a.
Definition min2 (a b : float) : float := if b <? a then b else a.

(** [max(xs, default=d)] over a generator of floats. *)
Definition max_default (d : float) (xs : list float) : float :=
  match xs with
  | [] => d
  | x :: r => fold_left max2 r x
  end.

(** [sum(xs)]: accumulation from the left, starting from zero. *)
Definition sum (xs : list float) : float := fold_left PrimFloat.add xs 0.

End PyFloat.

(* ===================================================================== *)
(** * [int(str)] *)
(* ===================================================================== *)

Module PyInt.

(** [int(s)] for a text, in base 10: surrounding whitespace, an optional
    sign, then digits with single underscores between them; [None]
    stands for [ValueError]. *)
Definition of_string (s : string) : option Z :=
  let '(neg, body) := PyFloat.sign (PyStr.strip_numeral (PyStr.chars s)) in
  match PyFloat.digitpart body 0 with
  | Some (v, _, []) => Some (if neg then - v else v)
  | _ => None
  end.

(** [str(n)]: the decimal numeral, with a minus sign when negative. *)
Definition to_string (n : Z) : string :=
  DecimalString.NilEmpty.string_of_int (Z.to_int n).

End PyInt.

(* ===================================================================== *)
(** * Exceptions *)
(* ===================================================================== *)

Inductive exn : Type :=
| ValueError (msg : string)
| TypeError (msg : string)
| AttributeError (msg : string)
| OverflowError (msg : string)
| ZeroDivisionError (msg : string).

(** [str(e)] *)
Definition exn_str (e : exn) : string :=
  match e with
  | ValueError m | TypeError m | AttributeError m | OverflowError m
  | ZeroDivisionError m => m
  end.

Inductive exc (A : Type) : Type :=
| Return (a : A)
| Raise (e : exn).
Arguments Return {A} a.
Arguments Raise {A} e.

Definition bind {A B : Type} (c : exc A) (k : A -> exc B) : exc B :=
  match c with
  | Return a => k a
  | Raise e => Raise e
  end.

Notation "'try!' x := c 'in' k" := (bind c (fun x => k))
  (at level 10, x name, c at level 100, k at level 200).

(** [int(x)] on a float: truncation toward zero; NaN and the infinities
    raise. *)
Definition int_of_float (x : float) : exc Z :=
  match Prim2SF x with
  | S754_nan => Raise (ValueError "cannot convert float NaN to integer")
  | S754_infinity _ => Raise (OverflowError "cannot convert float infinity to integer")
  | S754_zero _ => Return 0
  | S754_finite s m e =>
      let a := if 0 <=? e then Zpos m * 2 ^ e else Zpos m / 2 ^ (- e) in
      Return (if s then - a else a)
  end.

(* ===================================================================== *)
(** * Naive datetimes *)
(* ===================================================================== *)

Module PyDatetime.

Record datetime : Type := mkdt
  { year : Z; month : Z; day : Z; hour : Z; minute : Z; second : Z }.

Definition is_leap (y : Z) : bool :=
  (y mod 4 =? 0) && (negb (y mod 100 =? 0) || (y mod 400 =? 0)).

Definition days_in_month (y m : Z) : Z :=
  if m =? 2 then (if is_leap y then 29 else 28)
  else if (m =? 4) || (m =? 6) || (m =? 9) || (m =? 11) then 30 else 31.

(** The constructor's range checks (it raises [ValueError] otherwise). *)
Definition valid (d : datetime) : bool :=
  (1 <=? year d) && (year d <=? 9999) &&
  (1 <=? month d) && (month d <=? 12) &&
  (1 <=? day d) && (day d <=? days_in_month (year d) (month d)) &&
  (0 <=? hour d) && (hour d <=? 23) &&
  (0 <=? minute d) && (minute d <=? 59) &&
  (0 <=? second d) && (second d <=? 59).

(** *** [datetime.strptime(s, "%Y-%m-%d %H:%M:%S")]

    The format is compiled to the regular expression
    [(\d\d\d\d)-(1[0-2]|0[1-9]|[1-9])-(3[0-1]|[1-2]\d|0[1-9]|[1-9]| [1-9])\s+(2[0-3]|[0-1]\d|\d):([0-5]\d|\d):(6[0-1]|[0-5]\d|\d)]
    which must match the whole text. Every field is a run of digits
    closed by a character that is not a digit, so a field matches when
    its whole run has one of the listed shapes. *)

Fixpoint digit_run (l : list ascii) : list ascii * list ascii :=
  match l with
  | c :: r =>
      if PyStr.is_digit c
      then let '(ds, rest) := digit_run r in (c :: ds, rest)
      else ([], l)
  | [] => ([], [])
  end.

Definition value (ds : list ascii) : Z :=
  fold_left (fun acc c => 10 * acc + PyStr.digit_val c) ds 0.

(** A run of one digit (at least [lo1]) or of two digits (value within
    [lo2 .. hi2]). *)
Definition field (lo1 lo2 hi2 : Z) (l : list ascii) : option (Z * list ascii) :=
  let '(ds, rest) := digit_run l in
  let v := value ds in
  match ds with
  | [_] => if lo1 <=? v then Some (v, rest) else None
  | [_; _] => if (lo2 <=? v) && (v <=? hi2) then Some (v, rest) else None
  | _ => None
  end.

Definition year_field (l : list ascii) : option (Z * list ascii) :=
  let '(ds, rest) := digit_run l in
  match ds with
  | [_; _; _; _] => Some (value ds, rest)
  | _ => None
  end.

(** The day also has the shape of a space followed by one digit [1-9]. *)
Definition day_field (l : list ascii) : option (Z * list ascii) :=
  match l with
  | " "%char :: r =>
      match digit_run r with
      | ([c], rest) => if 1 <=? PyStr.digit_val c then Some (PyStr.digit_val c, rest) else None
      | _ => None
      end
  | _ => field 1 1 31 l
  end.

Definition literal (c : ascii) (l : list ascii) : option (list ascii) :=
  match l with
  | c' :: r => if Ascii.eqb c c' then Some r else None
  | [] => None
  end.

(** [\s+] *)
Definition spaces (l : list ascii) : option (list ascii) :=
  match l with
  | c :: r => if PyStr.is_space c then Some (PyStr.lstrip r) else None
  | [] => None
  end.

Definition obind {A B : Type} (o : option A) (k : A -> option B) : option B :=
  match o with Some a => k a | None => None end.

(** [None] stands for [ValueError]. *)
Definition strptime (s : string) : option datetime :=
  obind (year_field (PyStr.chars s)) (fun '(yr, l) =>
  obind (literal "-" l) (fun l =>
  obind (field 1 1 12 l) (fun '(mo, l) =>
  obind (literal "-" l) (fun l =>
  obind (day_field l) (fun '(dd, l) =>
  obind (spaces l) (fun l =>
  obind (field 0 0 23 l) (fun '(hh, l) =>
  obind (literal ":" l) (fun l =>
  obind (field 0 0 59 l) (fun '(mi, l) =>
  obind (literal ":" l) (fun l =>
  obind (field 0 0 61 l) (fun '(ss, l) =>
  match l with
  | [] => let dt := mkdt yr mo dd hh mi ss in if valid dt then Some dt else None
  | _ => None
  end))))))))))).

(** [dt.strftime("%Y-%m-%d %H:%M:%S")] *)
Definition strftime (d : datetime) : string :=
  (PyStr.zpad 4 (year d) ++ "-" ++ PyStr.zpad 2 (month d) ++ "-" ++ PyStr.zpad 2 (day d)
   ++ " " ++ PyStr.zpad 2 (hour d) ++ ":" ++ PyStr.zpad 2 (minute d) ++ ":"
   ++ PyStr.zpad 2 (second d))%string.

(** [a <= b]: the fields compared in order. *)
Definition cmp (a b : datetime) : comparison :=
  match year a ?= year b with Eq =>
  match month a ?= month b with Eq =>
  match day a ?= day b with Eq =>
  match hour a ?= hour b with Eq =>
  match minute a ?= minute b with Eq => second a ?= second b
  | c => c end | c => c end | c => c end | c => c end | c => c end.

Definition leb (a b : datetime) : bool :=
  match cmp a b with Gt => false | _ => true end.

(** [date.toordinal()]: days since 0001-01-01, counted from 1. *)
Definition days_before_year (y : Z) : Z :=
  let y' := y - 1 in y' * 365 + y' / 4 - y' / 100 + y' / 400.

Fixpoint days_before_month_aux (y : Z) (n : nat) : Z :=
  match n with
  | O => 0
  | S k => days_before_month_aux y k + days_in_month y (Z.of_nat n)
  end.

Definition days_before_month (y m : Z) : Z :=
  days_before_month_aux y (Z.to_nat (m - 1)).

Definition toordinal (d : datetime) : Z :=
  days_before_year (year d) + days_before_month (year d) (month d) + day d.

Definition seconds_of_day (d : datetime) : Z :=
  second d + 60 * minute d + 3600 * hour d.

(** [(a - b).total_seconds()]: a whole number of seconds, exact as a
    float. *)
Definition total_seconds (a b : datetime) : float :=
  PyFloat.of_int ((toordinal a - toordinal b) * 86400 + (seconds_of_day a - seconds_of_day b)).

End PyDatetime.

(* ===================================================================== *)
(** * config.py *)
(* ===================================================================== *)

Module Config.

(** [VALIDATION_THRESHOLDS] *)
Definition max_distance_miles : Z := 50.
Definition min_fare : Z := 0.
Definition max_fare : Z := 500.
Definition min_trip_duration_minutes : Z := 1.
Definition max_trip_duration_minutes : Z := 1440.
Definition min_passenger_count : Z := 1.
Definition max_passenger_count : Z := 8.

Definition VALID_RATE_CODES : list Z := [1; 2; 3; 4; 5].
Definition VALID_PAYMENT_TYPES : list Z := [1; 2; 3; 4; 5].
Definition VALID_STORE_FWD_FLAGS : list string := ["Y"; "N"].

(** [RISK_WEIGHTS] *)
Definition w_density : float := 0.4.
Definition w_late_night : float := 0.3.
Definition w_volatility : float := 0.3.

Definition LATE_NIGHT_HOURS : list Z := [22; 23; 0; 1; 2; 3; 4; 5].

Definition CHUNK_SIZE : Z := 50000.
Definition EXPECTED_ZONE_COUNT : Z := 263.
Definition MAX_ROWS_TO_PROCESS : option Z := None.

End Config.

(** [x in xs] for a list of ints, of strings. *)
Definition in_ints (x : Z) (xs : list Z) : bool := existsb (Z.eqb x) xs.
Definition in_strs (x : string) (xs : list string) : bool := existsb (String.eqb x) xs.

(** A float compared with an [int]: the comparison is exact; the ints
    compared here are small constants, exact as floats. *)
Definition flt_lt_int (x : float) (n : Z) : bool := PrimFloat.ltb x (PyFloat.of_int n).
Definition flt_gt_int (x : float) (n : Z) : bool := PrimFloat.ltb (PyFloat.of_int n) x.

(* ===================================================================== *)
(** * data_cleaning.py: class DataCleaner *)
(* ===================================================================== *)

Module DataCleaner.

Import PyDatetime.

(** A row of [csv.DictReader]: field name to text, or to [None] for a
    field that a short line leaves out. *)
Definition PyVal : Type := option string.
Abbreviation RawRecord := (gmap string PyVal).

(** [row.get(key, "")] *)
Definition row_get (row : RawRecord) (key : string) : PyVal :=
  match row !! key with
  | Some v => v
  | None => Some ""
  end.

(** The zone ids of the standard range, [set(range(1, 264))]. *)
Definition standard_zone_ids : gset Z := list_to_set (seqZ 1 263).



Definition _parse_datetime (date_string : PyVal) : option datetime :=
  match date_string with
  | None => None
  | Some "" => None
  | Some s =>
      let s1 := PyStr.strip s in
      match strptime s1 with
      | Some dt => Some dt
      | None => strptime (PyStr.strip (PyStr.split_head "," s1))
      end
  end.

Definition _parse_float (value : PyVal) : option float :=
  match value with
  | None => None
  | Some "" => None
  | Some s => PyFloat.of_string s
  end.

(** [int(float(value))]: only [ValueError] and [TypeError] are caught. *)
Definition _parse_int (value : PyVal) : exc (option Z) :=
  match value with
  | None => Return None
  | Some "" => Return None
  | Some s =>
      match PyFloat.of_string s with
      | None => Return None
      | Some x =>
          match int_of_float x with
          | Return n => Return (Some n)
          | Raise (ValueError _) => Return None
          | Raise (TypeError _) => Return None
          | Raise e => Raise e
          end
      end
  end.

(** The dictionary [cleaned_record], field by field. *)
Record CleanedRecord : Type := mkCleaned
  { trip_id : Z;
    vendor_id : option Z;
    pickup_datetime : string;
    dropoff_datetime : string;
    passenger_count : Z;
    trip_distance : float;
    ratecode_id : Z;
    store_and_fwd_flag : string;
    pulocation_id : Z;
    dolocation_id : Z;
    payment_type : Z;
    fare_amount : float;
    extra : float;
    mta_tax : float;
    tip_amount : float;
    tolls_amount : float;
    improvement_surcharge : float;
    total_amount : float;
    congestion_surcharge : float;
    trip_duration_minutes : float;
    hour_of_day : Z }.

(** The triple [(is_valid, cleaned_record, exclusion_reason)]. *)
Definition Outcome : Type := bool * option CleanedRecord * option string.

Definition reject (reason : string) : exc Outcome := Return (false, None, Some reason).

(** [x or 0.0] on the result of [_parse_float] *)
Definition or_zero (v : option float) : float :=
  match v with
  | Some x => if PyFloat.truthy x then x else 0%float
  | None => 0%float
  end.

(** [value.strip()], which a [None] does not have. *)
Definition strip_val (v : PyVal) : exc string :=
  match v with
  | Some s => Return (PyStr.strip s)
  | None => Raise (AttributeError "'NoneType' object has no attribute 'strip'")
  end.

(** The body of the [try] block of [_validate_record]. *)
Definition validate_body (zone_ids : gset Z) (row : RawRecord) (row_index : Z) : exc Outcome :=
  let pickup_dt := _parse_datetime (row_get row "tpep_pickup_datetime") in
  let dropoff_dt := _parse_datetime (row_get row "tpep_dropoff_datetime") in
  match pickup_dt, dropoff_dt with
  | Some pickup_dt, Some dropoff_dt =>
    if leb dropoff_dt pickup_dt then reject "dropoff_before_or_equal_pickup" else
    if negb (year pickup_dt =? 2019) || negb (month pickup_dt =? 1)
    then reject "date_out_of_range" else
    let trip_distance := _parse_float (row_get row "trip_distance") in
    let fare_amount := _parse_float (row_get row "fare_amount") in
    let total_amount := _parse_float (row_get row "total_amount") in
    try! passenger_count := _parse_int (row_get row "passenger_count") in
    try! pulocation_id := _parse_int (row_get row "PULocationID") in
    try! dolocation_id := _parse_int (row_get row "DOLocationID") in
    match trip_distance with
    | None => reject "negative_or_null_distance"
    | Some trip_distance =>
    if flt_lt_int trip_distance 0 then reject "negative_or_null_distance" else
    if flt_gt_int trip_distance Config.max_distance_miles then reject "distance_exceeds_max" else
    match fare_amount with
    | None => reject "negative_or_null_fare"
    | Some fare_amount =>
    if flt_lt_int fare_amount Config.min_fare then reject "negative_or_null_fare" else
    if flt_gt_int fare_amount Config.max_fare then reject "fare_exceeds_max" else
    match passenger_count with
    | None => reject "invalid_passenger_count"
    | Some passenger_count =>
    if passenger_count <? Config.min_passenger_count then reject "invalid_passenger_count" else
    if passenger_count >? Config.max_passenger_count then reject "passenger_count_exceeds_max" else
    match pulocation_id with
    | None => reject "invalid_pulocation_id"
    | Some pulocation_id =>
    if negb (bool_decide (pulocation_id ∈ zone_ids)) then reject "invalid_pulocation_id" else
    match dolocation_id with
    | None => reject "invalid_dolocation_id"
    | Some dolocation_id =>
    if negb (bool_decide (dolocation_id ∈ zone_ids)) then reject "invalid_dolocation_id" else
    let trip_duration_minutes :=
      PrimFloat.div (total_seconds dropoff_dt pickup_dt) (PyFloat.of_int 60) in
    if flt_lt_int trip_duration_minutes Config.min_trip_duration_minutes
    then reject "trip_duration_too_short" else
    if flt_gt_int trip_duration_minutes Config.max_trip_duration_minutes
    then reject "trip_duration_exceeds_max" else
    try! ratecode_id := _parse_int (row_get row "RatecodeID") in
    match ratecode_id with
    | None => reject "invalid_ratecode"
    | Some ratecode_id =>
    if negb (in_ints ratecode_id Config.VALID_RATE_CODES) then reject "invalid_ratecode" else
    try! payment_type := _parse_int (row_get row "payment_type") in
    match payment_type with
    | None => reject "invalid_payment_type"
    | Some payment_type =>
    if negb (in_ints payment_type Config.VALID_PAYMENT_TYPES) then reject "invalid_payment_type" else
    try! store_fwd_flag := strip_val (row_get row "store_and_fwd_flag") in
    if negb (in_strs store_fwd_flag Config.VALID_STORE_FWD_FLAGS)
    then reject "invalid_store_fwd_flag" else
    let extra := or_zero (_parse_float (row_get row "extra")) in
    let mta_tax := or_zero (_parse_float (row_get row "mta_tax")) in
    let tip_amount := or_zero (_parse_float (row_get row "tip_amount")) in
    let tolls_amount := or_zero (_parse_float (row_get row "tolls_amount")) in
    let improvement_surcharge := or_zero (_parse_float (row_get row "improvement_surcharge")) in
    let congestion_surcharge := or_zero (_parse_float (row_get row "congestion_surcharge")) in
    let hour_of_day := hour pickup_dt in
    try! vendor := _parse_int (row_get row "VendorID") in
    Return (true,
            Some {| trip_id := row_index;
                    vendor_id := vendor;
                    pickup_datetime := strftime pickup_dt;
                    dropoff_datetime := strftime dropoff_dt;
                    passenger_count := passenger_count;
                    trip_distance := PyFloat.round trip_distance 2;
                    ratecode_id := ratecode_id;
                    store_and_fwd_flag := store_fwd_flag;
                    pulocation_id := pulocation_id;
                    dolocation_id := dolocation_id;
                    payment_type := payment_type;
                    fare_amount := PyFloat.round fare_amount 2;
                    extra := PyFloat.round extra 2;
                    mta_tax := PyFloat.round mta_tax 2;
                    tip_amount := PyFloat.round tip_amount 2;
                    tolls_amount := PyFloat.round tolls_amount 2;
                    improvement_surcharge := PyFloat.round improvement_surcharge 2;
                    total_amount :=
                      match total_amount with
                      | Some t => if PyFloat.truthy t then PyFloat.round t 2 else 0%float
                      | None => 0%float
                      end;
                    congestion_surcharge := PyFloat.round congestion_surcharge 2;
                    trip_duration_minutes := PyFloat.round trip_duration_minutes 2;
                    hour_of_day := hour_of_day |},
            None)
    end end end end end end end
  | _, _ => reject "invalid_datetime_format"
  end.

(** [_validate_record]: the body under [except Exception]. *)
Definition _validate_record (zone_ids : gset Z) (row : RawRecord) (row_index : Z) : Outcome :=
  match validate_body zone_ids row row_index with
  | Return r => r
  | Raise e => (false, None, Some ("processing_error_" ++ PyStr.prefix 30 (exn_str e))%string)
  end.

(** ** Ingestion: [process_csv_chunks] *)

(** [self.stats] *)
Record Stats : Type := mkStats
  { total_processed : Z;
    total_valid : Z;
    total_excluded : Z;
    excluded_by_reason : gmap PyVal Z }.

(** The object's attributes, with the two locals of the loop: the rows
    of the current chunk and the number of chunks reported, and the
    progress lines printed (chunk number, rows in the chunk). *)
Record Cleaner : Type := mkCleaner
  { cleaned_trips : list CleanedRecord;
    excluded_records : list (Z * PyVal);
    stats : Stats;
    chunk : list Outcome;
    chunk_count : Z;
    progress : list (Z * Z) }.

(** [__init__] *)
Definition init : Cleaner :=
  {| cleaned_trips := [];
     excluded_records := [];
     stats := mkStats 0 0 0 ∅;
     chunk := [];
     chunk_count := 0;
     progress := [] |}.

(** One turn of the loop body on [row], after the test of the cap. *)
Definition step (zone_ids : gset Z) (chunk_size : Z) (c : Cleaner) (row_index : Z) (row : RawRecord) : Cleaner :=
  let st := stats c in
  let '(is_valid, cleaned_record, reason) := _validate_record zone_ids row row_index in
  let c1 :=
    if is_valid
    then {| cleaned_trips :=
              cleaned_trips c ++ match cleaned_record with Some r => [r] | None => [] end;
            excluded_records := excluded_records c;
            stats := mkStats (total_processed st + 1) (total_valid st + 1) (total_excluded st)
                             (excluded_by_reason st);
            chunk := chunk c; chunk_count := chunk_count c; progress := progress c |}
    else {| cleaned_trips := cleaned_trips c;
            excluded_records := excluded_records c ++ [(row_index, reason)];
            stats := mkStats (total_processed st + 1) (total_valid st) (total_excluded st + 1)
                             (<[reason := default 0 (excluded_by_reason st !! reason) + 1]>
                                (excluded_by_reason st));
            chunk := chunk c; chunk_count := chunk_count c; progress := progress c |} in
  let chunk' := chunk c1 ++ [(is_valid, cleaned_record, reason)] in
  if Z.of_nat (length chunk') >=? chunk_size
  then {| cleaned_trips := cleaned_trips c1; excluded_records := excluded_records c1;
          stats := stats c1; chunk := [];
          chunk_count := chunk_count c1 + 1;
          progress := progress c1 ++ [(chunk_count c1 + 1, chunk_size)] |}
  else {| cleaned_trips := cleaned_trips c1; excluded_records := excluded_records c1;
          stats := stats c1; chunk := chunk';
          chunk_count := chunk_count c1; progress := progress c1 |}.

(** [MAX_ROWS_TO_PROCESS and row_index > MAX_ROWS_TO_PROCESS] *)
Definition cap_reached (max_rows : option Z) (row_index : Z) : bool :=
  match max_rows with
  | Some n => negb (n =? 0) && (row_index >? n)
  | None => false
  end.

(** The [for] loop over [enumerate(reader, start=1)]. *)
Fixpoint loop (zone_ids : gset Z) (chunk_size : Z) (max_rows : option Z)
    (rows : list RawRecord) (row_index : Z) (c : Cleaner) : Cleaner :=
  match rows with
  | [] => c
  | row :: rest =>
      if cap_reached max_rows row_index then c
      else loop zone_ids chunk_size max_rows rest (row_index + 1)
             (step zone_ids chunk_size c row_index row)
  end.

(** The rows left in the last chunk are reported after the loop. *)
Definition flush (c : Cleaner) : Cleaner :=
  match chunk c with
  | [] => c
  | _ => {| cleaned_trips := cleaned_trips c; excluded_records := excluded_records c;
            stats := stats c; chunk := chunk c;
            chunk_count := chunk_count c + 1;
            progress := progress c ++ [(chunk_count c + 1, Z.of_nat (length (chunk c)))] |}
  end.

(** [process_csv_chunks] on an input file that is missing ([None]: the
    exception is reported and the object left as it was) or is read to
    its end ([Some rows]). A reader that raises in mid-file is
    [process_csv_reader] below. *)
Definition process_csv_chunks (zone_ids : gset Z) (chunk_size : Z) (max_rows : option Z)
    (input : option (list RawRecord)) (c : Cleaner) : Cleaner :=
  match input with
  | Some rows => flush (loop zone_ids chunk_size max_rows rows 1 c)
  | None => c
  end.

(** The loop stops at the cap when one of the rows it is given has an
    index beyond the cap. *)
Definition stops_at_cap (max_rows : option Z) (rows : list RawRecord) : bool :=
  existsb (cap_reached max_rows) (seqZ 1 (Z.of_nat (length rows))).

(** [process_csv_chunks] on a reader that can raise: [rows] are the rows
    the reader yields, and [fails] tells whether it raises when it is
    asked for the row after them (a line that cannot be decoded, for
    instance). The exception ends the loop and is caught and reported
    by [except Exception], which skips the report of the rows left in
    the last chunk. A loop that stops at the cap does not ask the
    reader again. With [fails = false] this is [process_csv_chunks] on
    [Some rows]. *)
Definition process_csv_reader (zone_ids : gset Z) (chunk_size : Z) (max_rows : option Z)
    (rows : list RawRecord) (fails : bool) (c : Cleaner) : Cleaner :=
  let c' := loop zone_ids chunk_size max_rows rows 1 c in
  if fails && negb (stops_at_cap max_rows rows) then c' else flush c'.

(** ** The sinks *)

(** The two files the cleaner writes; [None] is a file that does not
    exist. *)
Record CleanerFiles : Type := mkCleanerFiles
  { CLEANED_TRIPS_CSV : option (list CleanedRecord);
    EXCLUDED_RECORDS_LOG : option (list (Z * PyVal)) }.

(** [write_cleaned_data]: nothing is written when no record is valid. *)
Definition write_cleaned_data (c : Cleaner) (fs : CleanerFiles) : CleanerFiles :=
  match cleaned_trips c with
  | [] => fs
  | trips => {| CLEANED_TRIPS_CSV := Some trips;
                EXCLUDED_RECORDS_LOG := EXCLUDED_RECORDS_LOG fs |}
  end.

(** [write_exclusion_log]: the file is opened for writing, not appending. *)
Definition write_exclusion_log (c : Cleaner) (fs : CleanerFiles) : CleanerFiles :=
  {| CLEANED_TRIPS_CSV := CLEANED_TRIPS_CSV fs;
     EXCLUDED_RECORDS_LOG := Some (excluded_records c) |}.

(** [DataCleaner().run()]: the files after the run and the object. *)
Definition run (zone_ids : gset Z) (chunk_size : Z) (max_rows : option Z)
    (input : option (list RawRecord)) (fs : CleanerFiles) : CleanerFiles * Cleaner :=
  let c := process_csv_chunks zone_ids chunk_size max_rows input init in
  (write_exclusion_log c (write_cleaned_data c fs), c).

End DataCleaner.

(* ===================================================================== *)
(** * Insertion-ordered dictionaries *)
(* ===================================================================== *)

Module PyDict.

Section Dict.
Context {K V : Type} `{EqDecision K}.

Fixpoint get (d : list (K * V)) (k : K) : option V :=
  match d with
  | [] => None
  | (k', v) :: r => if decide (k = k') then Some v else get r k
  end.

(** [d[k] = v]: an existing key keeps its place, a new one goes last. *)
Fixpoint set (d : list (K * V)) (k : K) (v : V) : list (K * V) :=
  match d with
  | [] => [(k, v)]
  | (k', v') :: r => if decide (k = k') then (k', v) :: r else (k', v') :: set r k v
  end.

Definition keys (d : list (K * V)) : list K := map fst d.
Definition values (d : list (K * V)) : list V := map snd d.

End Dict.

End PyDict.

(* ===================================================================== *)
(** * risk_engine.py: class RiskEngine *)
(* ===================================================================== *)

Module RiskEngine.

Import DataCleaner.
Local Open Scope float_scope.

(** [math.sqrt] *)
Definition math_sqrt (x : float) : exc float :=
  if x <? 0 then Raise (ValueError "math domain error") else Return (PrimFloat.sqrt x).

(** [a / b] on two floats: a divisor that is zero raises. *)
Definition float_div (a b : float) : exc float :=
  if b =? 0 then Raise (ZeroDivisionError "float division by zero")
  else Return (a / b).

(** [a / n] for a float and an int: the int is converted to a float
    first, and an int converts to zero only when it is zero. *)
Definition float_div_int (a : float) (n : Z) : exc float :=
  if (n =? 0)%Z then Raise (ZeroDivisionError "float division by zero")
  else Return (a / PyFloat.of_int n).

(** [a / b] on two ints (true division). *)
Definition int_div (a b : Z) : exc float :=
  if (b =? 0)%Z then Raise (ZeroDivisionError "division by zero")
  else Return (PyFloat.int_true_div a b).

(** [_compute_manual_variance]: [(variance, std_dev)]. *)
Definition _compute_manual_variance (values : list float) : exc (float * float) :=
  match values with
  | [] => Return (0, 0)
  | _ =>
      let n := Z.of_nat (length values) in
      try! mean := float_div_int (PyFloat.sum values) n in
      let sum_squared_diff :=
        fold_left (fun acc value => let diff := value - mean in acc + diff * diff) values 0 in
      try! variance := float_div_int sum_squared_diff n in
      try! std_dev := math_sqrt variance in
      Return (variance, std_dev)
  end.

(** The rows of the cleaned file are read back as text; the fields the
    engine converts with [int] and [float] are taken here at the values
    the cleaner wrote. *)

(** The value of [zone_hour_trips[key]]. *)
Record ZoneHourTrips : Type := mkZHT
  { count : Z; total_duration : float; trips : list CleanedRecord }.

Record ZoneHourMetric : Type := mkZHM
  { zh_zone_id : Z;
    zh_hour : Z;
    zh_trip_count : Z;
    avg_trip_duration : float;
    exposure_score : Z }.

(** The first loop of [compute_exposure_density]. *)
Definition zone_hour_trips (cleaned : list CleanedRecord) : list ((Z * Z) * ZoneHourTrips) :=
  fold_left
    (fun d trip =>
       let key := (pulocation_id trip, hour_of_day trip) in
       let cur := default (mkZHT 0 0 []) (PyDict.get d key) in
       PyDict.set d key
         (mkZHT (count cur + 1)%Z
                (total_duration cur + trip_duration_minutes trip)
                (trips cur ++ [trip])))
    cleaned [].

(** The body of the second loop of [compute_exposure_density] for one
    key. *)
Definition zone_hour_metric (zone_id hour : Z) (data : ZoneHourTrips) : exc ZoneHourMetric :=
  let trip_count := count data in
  try! avg_duration :=
    if (trip_count >? 0)%Z then float_div_int (total_duration data) trip_count
    else Return 0 in
  Return (mkZHM zone_id hour trip_count (PyFloat.round avg_duration 2) trip_count).

(** The second loop, over the items of [zone_hour_trips]. *)
Fixpoint exposure_pass (zht : list ((Z * Z) * ZoneHourTrips))
    : exc (list ((Z * Z) * ZoneHourMetric)) :=
  match zht with
  | [] => Return []
  | ((zone_id, hour), data) :: rest =>
      try! m := zone_hour_metric zone_id hour data in
      try! ms := exposure_pass rest in
      Return (((zone_id, hour), m) :: ms)
  end.

(** [compute_exposure_density]: the dictionary [zone_hour_metrics]. *)
Definition compute_exposure_density (cleaned : list CleanedRecord)
    : exc (list ((Z * Z) * ZoneHourMetric)) :=
  exposure_pass (zone_hour_trips cleaned).

Record ZoneRevenueMetric : Type := mkZRM
  { zr_zone_id : Z;
    avg_revenue : float;
    revenue_variance : float;
    revenue_std_dev : float;
    stability_score : float }.

(** The first pass of [compute_revenue_volatility]. *)
Definition zone_fares (cleaned : list CleanedRecord) : list (Z * list float) :=
  fold_left
    (fun d trip =>
       let zone_id := pulocation_id trip in
       PyDict.set d zone_id (default [] (PyDict.get d zone_id) ++ [total_amount trip]))
    cleaned [].

(** The stability score before it is rounded. *)
Definition stability (mean_fare std_dev : float) : exc float :=
  let max_possible_std := if 0 <? mean_fare then mean_fare * 2 else 1 in
  try! ratio := float_div std_dev max_possible_std in
  Return (PyFloat.max2 0 (1 - ratio)).

(** The body of the second pass for one zone. *)
Definition zone_revenue_metric (zone_id : Z) (fares : list float) : exc ZoneRevenueMetric :=
  try! mean_fare := float_div_int (PyFloat.sum fares) (Z.of_nat (length fares)) in
  try! vs := _compute_manual_variance fares in
  let '(variance, std_dev) := vs in
  try! stability_score := stability mean_fare std_dev in
  Return (mkZRM zone_id (PyFloat.round mean_fare 2) (PyFloat.round variance 2)
                (PyFloat.round std_dev 2) (PyFloat.round stability_score 4)).

Fixpoint revenue_pass (zf : list (Z * list float)) : exc (list (Z * ZoneRevenueMetric)) :=
  match zf with
  | [] => Return []
  | (zone_id, fares) :: rest =>
      match fares with
      | [] => revenue_pass rest
      | _ =>
          try! m := zone_revenue_metric zone_id fares in
          try! ms := revenue_pass rest in
          Return ((zone_id, m) :: ms)
      end
  end.

(** [compute_revenue_volatility]: the dictionary [zone_revenue_metrics]. *)
Definition compute_revenue_volatility (cleaned : list CleanedRecord)
    : exc (list (Z * ZoneRevenueMetric)) :=
  revenue_pass (zone_fares cleaned).

Record RiskScore : Type := mkRisk
  { rs_zone_id : Z;
    rs_hour : Z;
    rs_trip_count : Z;
    density_component : float;
    late_night_component : float;
    volatility_component : float;
    risk_score : float }.

(** [max(xs, default=d)] over a generator of ints. *)
Definition max_int_default (d : Z) (xs : list Z) : Z :=
  match xs with
  | [] => d
  | x :: r => fold_left Z.max r x
  end.

Definition max_trip_count (zhm : list ((Z * Z) * ZoneHourMetric)) : Z :=
  max_int_default 1 (map zh_trip_count (PyDict.values zhm)).

(** [max_volatility], after the replacement of a zero by one. *)
Definition max_volatility (zrm : list (Z * ZoneRevenueMetric)) : float :=
  let m := PyFloat.max_default 1 (map revenue_std_dev (PyDict.values zrm)) in
  if m =? 0 then 1 else m.

(** The body of the loop of [compute_risk_scores] for one key. *)
Definition risk_entry (max_tc : Z) (max_vol : float) (zrm : list (Z * ZoneRevenueMetric))
    (zone_id hour : Z) (metrics : ZoneHourMetric) : exc RiskScore :=
  let trip_count := zh_trip_count metrics in
  try! density_normalized :=
    if (max_tc >? 0)%Z then int_div trip_count max_tc else Return 0 in
  let late_night_factor := if in_ints hour Config.LATE_NIGHT_HOURS then 1 else 0 in
  try! volatility_normalized :=
    match PyDict.get zrm zone_id with
    | Some m => if 0 <? max_vol then float_div (revenue_std_dev m) max_vol else Return 0
    | None => Return 0
    end in
  let risk :=
    Config.w_density * density_normalized
    + Config.w_late_night * late_night_factor
    + Config.w_volatility * volatility_normalized in
  let risk := PyFloat.max2 0 (PyFloat.min2 1 risk) in
  Return (mkRisk zone_id hour trip_count
            (PyFloat.round (Config.w_density * density_normalized) 4)
            (PyFloat.round (Config.w_late_night * late_night_factor) 4)
            (PyFloat.round (Config.w_volatility * volatility_normalized) 4)
            (PyFloat.round risk 4)).

(** The loop of [compute_risk_scores], over the items of
    [zone_hour_metrics]. *)
Fixpoint risk_pass (max_tc : Z) (max_vol : float) (zrm : list (Z * ZoneRevenueMetric))
    (zhm : list ((Z * Z) * ZoneHourMetric)) : exc (list ((Z * Z) * RiskScore)) :=
  match zhm with
  | [] => Return []
  | ((zone_id, hour), metrics) :: rest =>
      try! r := risk_entry max_tc max_vol zrm zone_id hour metrics in
      try! rs := risk_pass max_tc max_vol zrm rest in
      Return (((zone_id, hour), r) :: rs)
  end.

(** [compute_risk_scores]: the dictionary [zone_risk_scores]. *)
Definition compute_risk_scores (zhm : list ((Z * Z) * ZoneHourMetric))
    (zrm : list (Z * ZoneRevenueMetric)) : exc (list ((Z * Z) * RiskScore)) :=
  risk_pass (max_trip_count zhm) (max_volatility zrm) zrm zhm.

(** The three collections [run] returns and writes. *)
Record Metrics : Type := mkMetrics
  { zone_hour_metrics : list ((Z * Z) * ZoneHourMetric);
    zone_revenue_metrics : list (Z * ZoneRevenueMetric);
    zone_risk_scores : list ((Z * Z) * RiskScore) }.

Definition compute (cleaned : list CleanedRecord) : exc Metrics :=
  try! zhm := compute_exposure_density cleaned in
  try! zrm := compute_revenue_volatility cleaned in
  try! zrs := compute_risk_scores zhm zrm in
  Return (mkMetrics zhm zrm zrs).

(** The key [f"{zone_id}_{hour}"] under which a bucket is serialized. *)
Definition json_key (key : Z * Z) : string :=
  (PyInt.to_string (fst key) ++ "_" ++ PyInt.to_string (snd key))%string.

(** The loop of [write_metrics_to_json] that fills a dictionary keyed by
    these texts. *)
Definition serialized {V : Type} (d : list ((Z * Z) * V)) : list (string * V) :=
  fold_left (fun acc '(key, metrics) => PyDict.set acc (json_key key) metrics) d [].

(** The three JSON files: the members of each object, in order.
    [json.dump] writes the [int] keys of the revenue metrics as their
    decimal numerals. *)
Record MetricFiles : Type := mkMetricFiles
  { ZONE_HOUR_METRICS_JSON : list (string * ZoneHourMetric);
    ZONE_REVENUE_METRICS_JSON : list (string * ZoneRevenueMetric);
    ZONE_RISK_SCORES_JSON : list (string * RiskScore) }.

(** [write_metrics_to_json] *)
Definition write_metrics_to_json (m : Metrics) : MetricFiles :=
  {| ZONE_HOUR_METRICS_JSON := serialized (zone_hour_metrics m);
     ZONE_REVENUE_METRICS_JSON :=
       map (fun '(zone_id, metrics) => (PyInt.to_string zone_id, metrics))
           (zone_revenue_metrics m);
     ZONE_RISK_SCORES_JSON := serialized (zone_risk_scores m) |}.

(** [load_cleaned_data]: a missing file leaves the list empty. *)
Definition load_cleaned_data (file : option (list CleanedRecord)) : list CleanedRecord :=
  default [] file.

(** [RiskEngine().run()]: the metric files after the run (written as one
    unit, [None] when absent) and the value returned; with no record
    loaded nothing is computed and nothing written. *)
Definition run (cleaned_file : option (list CleanedRecord)) (metric_files : option Metrics)
    : exc (option Metrics * option Metrics) :=
  match load_cleaned_data cleaned_file with
  | [] => Return (metric_files, None)
  | cleaned =>
      try! m := compute cleaned in
      Return (Some m, Some m)
  end.

End RiskEngine.

(* ===================================================================== *)
(** * The two scripts run one after the other *)
(* ===================================================================== *)

Module Pipeline.

(** The files the two scripts leave on disk. *)
Record Files : Type := mkFiles
  { cleaner_files : DataCleaner.CleanerFiles;
    metric_files : option RiskEngine.Metrics }.

(** What one run hands back: the cleaner object, and the engine's return
    value or the exception that ended it. *)
Record Result : Type := mkResult
  { cleaner : DataCleaner.Cleaner;
    engine : exc (option RiskEngine.Metrics) }.

(** [python data_cleaning.py; python risk_engine.py]: the engine reads
    the cleaned file the cleaner left (or the one that was there). *)
Definition run (zone_ids : gset Z) (chunk_size : Z) (max_rows : option Z)
    (input : option (list DataCleaner.RawRecord)) (fs : Files) : Files * Result :=
  let '(cf, c) := DataCleaner.run zone_ids chunk_size max_rows input (cleaner_files fs) in
  match RiskEngine.run (DataCleaner.CLEANED_TRIPS_CSV cf) (metric_files fs) with
  | Return (mf, out) => (mkFiles cf mf, mkResult c (Return out))
  | Raise e => (mkFiles cf (metric_files fs), mkResult c (Raise e))
  end.

End Pipeline.

(* ===================================================================== *)
(** * The rules of the specification, one by one *)
(* ===================================================================== *)

(** The eleven rules in the words of the specification, each evaluated
    on the raw record alone: [Return None] when the record passes the
    rule, [Return (Some reason)] when it fails it. A rule of the
    specification does not fault: a field that cannot be read as what
    the rule asks for fails the rule (a distance or fare that is not a
    number, an integer field that reads as an infinite number, a flag
    that is missing). A rule that needs both timestamps passes a record
    whose timestamps do not parse (rule 1 has failed it already). *)
Module Rules.

Import DataCleaner PyDatetime.

Definition Rule : Type := RawRecord -> exc (option string).

Definition pass : exc (option string) := Return None.
Definition fail (reason : string) : exc (option string) := Return (Some reason).

Definition pickup (row : RawRecord) : option datetime :=
  _parse_datetime (row_get row "tpep_pickup_datetime").
Definition dropoff (row : RawRecord) : option datetime :=
  _parse_datetime (row_get row "tpep_dropoff_datetime").

(** 1. both timestamps parse *)
Definition timestamp_parse : Rule := fun row =>
  match pickup row, dropoff row with
  | Some _, Some _ => pass
  | _, _ => fail "invalid_datetime_format"
  end.

(** 2. the dropoff is strictly after the pickup *)
Definition ordering : Rule := fun row =>
  match pickup row, dropoff row with
  | Some p, Some d => if leb d p then fail "dropoff_before_or_equal_pickup" else pass
  | _, _ => pass
  end.

(** 3. the pickup falls in the target month *)
Definition temporal_window : Rule := fun row =>
  match pickup row with
  | Some p => if (year p =? 2019) && (month p =? 1) then pass else fail "date_out_of_range"
  | None => pass
  end.

(** 4. the distance is a number, not negative, at most the maximum *)
Definition distance : Rule := fun row =>
  match _parse_float (row_get row "trip_distance") with
  | None => fail "negative_or_null_distance"
  | Some x =>
      if PrimFloat.is_nan x then fail "negative_or_null_distance"
      else if flt_lt_int x 0 then fail "negative_or_null_distance"
      else if flt_gt_int x Config.max_distance_miles then fail "distance_exceeds_max"
      else pass
  end.

(** 5. the fare is a number within the configured range *)
Definition fare : Rule := fun row =>
  match _parse_float (row_get row "fare_amount") with
  | None => fail "negative_or_null_fare"
  | Some x =>
      if PrimFloat.is_nan x then fail "negative_or_null_fare"
      else if flt_lt_int x Config.min_fare then fail "negative_or_null_fare"
      else if flt_gt_int x Config.max_fare then fail "fare_exceeds_max"
      else pass
  end.

(** An integer field: the integer that the text gives, none when it
    gives none. *)
Definition integer (v : PyVal) : option Z :=
  match _parse_int v with
  | Return n => n
  | Raise _ => None
  end.

(** 6. the passenger count is an integer within the configured range *)
Definition passengers : Rule := fun row =>
  match integer (row_get row "passenger_count") with
  | None => fail "invalid_passenger_count"
  | Some n =>
      if n <? Config.min_passenger_count then fail "invalid_passenger_count"
      else if n >? Config.max_passenger_count then fail "passenger_count_exceeds_max"
      else pass
  end.

(** 7. the pickup zone, then the dropoff zone, is a known zone id *)
Definition zones (zone_ids : gset Z) : Rule := fun row =>
  let pu := integer (row_get row "PULocationID") in
  let do := integer (row_get row "DOLocationID") in
  match pu with
  | None => fail "invalid_pulocation_id"
  | Some pu =>
      if negb (bool_decide (pu ∈ zone_ids)) then fail "invalid_pulocation_id"
      else match do with
           | None => fail "invalid_dolocation_id"
           | Some do =>
               if negb (bool_decide (do ∈ zone_ids)) then fail "invalid_dolocation_id"
               else pass
           end
  end.

(** 8. the duration in minutes lies within the configured range *)
Definition duration : Rule := fun row =>
  match pickup row, dropoff row with
  | Some p, Some d =>
      let minutes := PrimFloat.div (total_seconds d p) (PyFloat.of_int 60) in
      if flt_lt_int minutes Config.min_trip_duration_minutes then fail "trip_duration_too_short"
      else if flt_gt_int minutes Config.max_trip_duration_minutes
      then fail "trip_duration_exceeds_max"
      else pass
  | _, _ => pass
  end.

(** 9. the rate code is in its closed set *)
Definition rate_code : Rule := fun row =>
  match integer (row_get row "RatecodeID") with
  | None => fail "invalid_ratecode"
  | Some n => if in_ints n Config.VALID_RATE_CODES then pass else fail "invalid_ratecode"
  end.

(** 10. the payment type is in its closed set *)
Definition payment : Rule := fun row =>
  match integer (row_get row "payment_type") with
  | None => fail "invalid_payment_type"
  | Some n => if in_ints n Config.VALID_PAYMENT_TYPES then pass else fail "invalid_payment_type"
  end.

(** 11. the store-and-forward flag, trimmed, is Y or N *)
Definition store_fwd : Rule := fun row =>
  match row_get row "store_and_fwd_flag" with
  | Some f =>
      if in_strs (PyStr.strip f) Config.VALID_STORE_FWD_FLAGS then pass
      else fail "invalid_store_fwd_flag"
  | None => fail "invalid_store_fwd_flag"
  end.

(** The rules in the order of the specification. *)
Definition rules (zone_ids : gset Z) : list Rule :=
  [timestamp_parse; ordering; temporal_window; distance; fare; passengers;
   zones zone_ids; duration; rate_code; payment; store_fwd].

(** Evaluation in order: the first rule that does not pass decides. *)
Fixpoint first_failure (rs : list Rule) (row : RawRecord) : exc (option string) :=
  match rs with
  | [] => Return None
  | r :: rest =>
      try! o := r row in
      match o with
      | Some reason => Return (Some reason)
      | None => first_failure rest row
      end
  end.

(** The record passes every rule before the [i]-th and fails that one
    with [reason]. *)
Definition first_failing (rs : list Rule) (row : RawRecord) (i : nat) (reason : string) : Prop :=
  (forall j r, (j < i)%nat -> nth_error rs j = Some r -> r row = Return None) /\
  (exists r, nth_error rs i = Some r /\ r row = Return (Some reason)).

End Rules.

(* ===================================================================== *)
(** * Sample records *)
(* ===================================================================== *)

Module Samples.

Import DataCleaner.

(** A record that passes every rule. *)
Definition good : RawRecord :=
  list_to_map
    [("VendorID", Some "1");
     ("tpep_pickup_datetime", Some "2019-01-05 08:10:00");
     ("tpep_dropoff_datetime", Some "2019-01-05 08:25:30");
     ("passenger_count", Some "2");
     ("trip_distance", Some "3.2");
     ("RatecodeID", Some "1");
     ("store_and_fwd_flag", Some "N");
     ("PULocationID", Some "10");
     ("DOLocationID", Some "20");
     ("payment_type", Some "1");
     ("fare_amount", Some "12.5");
     ("extra", Some "0.5");
     ("mta_tax", Some "0.5");
     ("tip_amount", Some "2.46");
     ("tolls_amount", Some "0");
     ("improvement_surcharge", Some "0.3");
     ("total_amount", Some "16.26");
     ("congestion_surcharge", Some "")].

(** The cleaned record of [good] at index 1. *)
Definition good_cleaned : CleanedRecord :=
  {| trip_id := 1; vendor_id := Some 1;
     pickup_datetime := "2019-01-05 08:10:00"; dropoff_datetime := "2019-01-05 08:25:30";
     passenger_count := 2; trip_distance := 3.2; ratecode_id := 1;
     store_and_fwd_flag := "N"; pulocation_id := 10; dolocation_id := 20;
     payment_type := 1; fare_amount := 12.5; extra := 0.5; mta_tax := 0.5;
     tip_amount := 2.46; tolls_amount := 0; improvement_surcharge := 0.3;
     total_amount := 16.26; congestion_surcharge := 0;
     trip_duration_minutes := 15.5; hour_of_day := 8 |}.

(** The same trip with a refund booked on it: a negative surcharge and a
    negative total. *)
Definition refund : RawRecord :=
  <["extra" := Some "-0.5"]> (<["total_amount" := Some "-3.456"]> good).

(** The same trip with a fare that is not a number. *)
Definition nan_fare : RawRecord := <["fare_amount" := Some "nan"]> good.

(** A negative fare, a rate code outside its set, and a pickup zone
    written as an infinite number. *)
Definition faulty : RawRecord :=
  <["PULocationID" := Some "inf"]>
    (<["fare_amount" := Some "-5"]> (<["RatecodeID" := Some "9"]> good)).

(** A distance that is not a number, and a negative fare. *)
Definition nan_distance : RawRecord :=
  <["trip_distance" := Some "nan"]> (<["fare_amount" := Some "-5"]> good).

(** A line cut short after the payment type: the flag is missing. *)
Definition short_line : RawRecord := <["store_and_fwd_flag" := None]> good.



(** A cleaned trip with the fields the engine reads. *)
Definition trip (zone hour : Z) (total minutes : float) : CleanedRecord :=
  {| trip_id := 1; vendor_id := Some 1;
     pickup_datetime := ""; dropoff_datetime := "";
     passenger_count := 1; trip_distance := 1; ratecode_id := 1;
     store_and_fwd_flag := "N"; pulocation_id := zone; dolocation_id := zone;
     payment_type := 1; fare_amount := total; extra := 0; mta_tax := 0;
     tip_amount := 0; tolls_amount := 0; improvement_surcharge := 0;
     total_amount := total; congestion_surcharge := 0;
     trip_duration_minutes := minutes; hour_of_day := hour |}.

(** Two trips from zone 1 and one from zone 2 whose total is not a
    number (the text [nan] in the raw record, which [float] accepts and
    no rule checks). *)
Definition trips_with_nan : list CleanedRecord :=
  [trip 1 8 10 12; trip 1 8 20 15; trip 2 9 nan 10].

(** Two trips from one zone whose totals differ by one. *)
Definition trips_close : list CleanedRecord :=
  [trip 1 8 10 12; trip 1 8 11 15].


End Samples.

(* ===================================================================== *)
(** * Views and invariants used in the statements *)
(* ===================================================================== *)

Module Views.

Import DataCleaner.

(** What the loop produces apart from its progress report. *)
Definition results (c : Cleaner) : list CleanedRecord * list (Z * PyVal) * Stats :=
  (cleaned_trips c, excluded_records c, stats c).

(** The counters agree with the two lists at every turn of the loop. *)
Definition counted (c : Cleaner) : Prop :=
  total_valid (stats c) = Z.of_nat (length (cleaned_trips c)) /\
  total_excluded (stats c) = Z.of_nat (length (excluded_records c)) /\
  total_processed (stats c) = total_valid (stats c) + total_excluded (stats c).

(** The zone-hour key of a cleaned trip, and the trips of a list that
    fall under a key. *)
Definition key_of (t : CleanedRecord) : Z * Z := (pulocation_id t, hour_of_day t).

Definition trips_of (key : Z * Z) (l : list CleanedRecord) : list CleanedRecord :=
  List.filter (fun t => bool_decide (key_of t = key)) l.

Definition sumZ (l : list Z) : Z := fold_right Z.add 0 l.

(** [sum(trip_count over all ZoneHourKey)] *)
Definition total_trip_count (zhm : list ((Z * Z) * RiskEngine.ZoneHourMetric)) : Z :=
  sumZ (map RiskEngine.zh_trip_count (PyDict.values zhm)).

(** The specification's words for the revenue statistics: the mean, then
    the sum of the squared deviations divided by the number of values
    (population variance), and its square root. *)
Definition mean_of (values : list float) : float :=
  PrimFloat.div (PyFloat.sum values) (PyFloat.of_int (Z.of_nat (length values))).

Definition population_variance (values : list float) : float :=
  let mean := mean_of values in
  PrimFloat.div
    (PyFloat.sum (map (fun x => PrimFloat.mul (PrimFloat.sub x mean) (PrimFloat.sub x mean)) values))
    (PyFloat.of_int (Z.of_nat (length values))).

(** [max(0, 1 - stddev / max_spread)] with [max_spread = 2 * mean] when
    the mean is positive and 1 otherwise. *)
Definition stability_formula (mean stddev : float) : float :=
  let max_spread := if PrimFloat.ltb 0 mean then PrimFloat.mul mean 2 else 1%float in
  PyFloat.max2 0 (PrimFloat.sub 1 (PrimFloat.div stddev max_spread)).

(** The totals of the trips picked up in a zone, in order. *)
Definition fares_of (zone : Z) (l : list CleanedRecord) : list float :=
  map total_amount (List.filter (fun t => bool_decide (pulocation_id t = zone)) l).

(** [|x - y| < eps] on floats. *)
Definition close_to (x y eps : float) : bool :=
  PrimFloat.ltb (PrimFloat.abs (PrimFloat.sub x y)) eps.

(** The files after [write_cleaned_data] and [write_exclusion_log]. *)
Definition files_after (c : Cleaner) (fs : CleanerFiles) : CleanerFiles :=
  write_exclusion_log c (write_cleaned_data c fs).

(** The engine's part of one run, after the cleaner has left [cf]. *)
Definition engine_part (c : Cleaner) (cf : CleanerFiles) (mf : option RiskEngine.Metrics)
    : Pipeline.Files * Pipeline.Result :=
  match RiskEngine.run (CLEANED_TRIPS_CSV cf) mf with
  | Return (mf', out) => (Pipeline.mkFiles cf mf', Pipeline.mkResult c (Return out))
  | Raise e => (Pipeline.mkFiles cf mf, Pipeline.mkResult c (Raise e))
  end.

(** A binary64 value that carries no minus sign (a NaN carries none). *)
Definition not_negative (sf : spec_float) : bool :=
  match sf with
  | S754_zero s | S754_infinity s | S754_finite s _ _ => negb s
  | S754_nan => true
  end.

(** The money fields other than the fare and the total, with the column
    each is read from. *)
Definition charges : list (string * (CleanedRecord -> float)) :=
  [("extra", extra); ("mta_tax", mta_tax); ("tip_amount", tip_amount);
   ("tolls_amount", tolls_amount); ("improvement_surcharge", improvement_surcharge);
   ("congestion_surcharge", congestion_surcharge)].

(** Whether a rounding location lies strictly between two grid points. *)
Definition inexact (l : location) : bool :=
  match l with loc_Exact => false | loc_Inexact _ => true end.

(** [0 <= x <= w] on floats (false when [x] is not a number). *)
Definition between (x w : float) : bool := PrimFloat.leb 0 x && PrimFloat.leb x w.

(** Every [n / 10^nd] with [0 <= n <= N], as [round] computes it, is at
    most [w]. *)
Definition all_rounded_le (w : float) (nd : Z) (N : nat) : bool :=
  forallb (fun n => PrimFloat.leb (PrimFloat.div (PyFloat.of_int (Z.of_nat n))
                                                 (PyFloat.of_int (10 ^ nd))) w)
          (seq 0 (S N)).

(** Zero or a positive finite number. *)
Definition finite_nonneg (sf : spec_float) : bool :=
  match sf with
  | S754_zero _ | S754_finite false _ _ => true
  | _ => false
  end.

(** The same check as [all_rounded_le], for [a <= n < a + count], with
    the candidate counted in [Z]. *)
Fixpoint all_rounded_le_from (w : float) (nd : Z) (n : Z) (count : nat) : bool :=
  match count with
  | O => true
  | S k =>
      PrimFloat.leb (PrimFloat.div (PyFloat.of_int n) (PyFloat.of_int (10 ^ nd))) w
      && all_rounded_le_from w nd (n + 1) k
  end.

(** Every [n / 10^nd] with [a <= n < a + count], as [round] computes
    it, is at least [w]. *)
Fixpoint all_rounded_ge_from (w : float) (nd : Z) (n : Z) (count : nat) : bool :=
  match count with
  | O => true
  | S k =>
      PrimFloat.leb w (PrimFloat.div (PyFloat.of_int n) (PyFloat.of_int (10 ^ nd)))
      && all_rounded_ge_from w nd (n + 1) k
  end.

(** The rows the loop reaches: all of them, or the first [n] under a
    cap of [n] (a cap of 0 is no cap). *)
Definition rows_read (max_rows : option Z) (rows : list RawRecord) : list RawRecord :=
  match max_rows with
  | Some n => if n =? 0 then rows else firstn (Z.to_nat n) rows
  | None => rows
  end.

(** [enumerate(rows, start=i)] *)
Fixpoint enumerate_from (i : Z) (rows : list RawRecord) : list (Z * RawRecord) :=
  match rows with
  | [] => []
  | row :: rest => (i, row) :: enumerate_from (i + 1) rest
  end.

(** What one numbered row adds to the cleaned trips and to the
    exclusion records. *)
Definition valid_of (zone_ids : gset Z) (p : Z * RawRecord) : list CleanedRecord :=
  match _validate_record zone_ids (snd p) (fst p) with
  | (true, Some r, _) => [r]
  | _ => []
  end.

Definition excluded_of (zone_ids : gset Z) (p : Z * RawRecord) : list (Z * PyVal) :=
  match _validate_record zone_ids (snd p) (fst p) with
  | (false, _, reason) => [(fst p, reason)]
  | _ => []
  end.

(** The number of exclusion records with a given reason. *)
Definition reason_count (reason : PyVal) (l : list (Z * PyVal)) : Z :=
  Z.of_nat (length (List.filter (fun p => bool_decide (snd p = reason)) l)).

(** The column reads as a float that is not a number. *)
Definition reads_nan (row : RawRecord) (column : string) : bool :=
  match _parse_float (row_get row column) with
  | Some x => PrimFloat.is_nan x
  | None => false
  end.

(** Reading the column as an integer faults. *)
Definition int_faults (row : RawRecord) (column : string) : bool :=
  match _parse_int (row_get row column) with
  | Return _ => false
  | Raise _ => true
  end.

(** The column is missing from the row (the line was too short). *)
Definition is_missing (row : RawRecord) (column : string) : bool :=
  match row_get row column with
  | Some _ => false
  | None => true
  end.

(** The value of [compute_exposure_density], which does not raise. *)
Definition exposure_of (cleaned : list CleanedRecord)
    : list ((Z * Z) * RiskEngine.ZoneHourMetric) :=
  map (fun '((zone_id, hour), data) =>
         let trip_count := RiskEngine.count data in
         let avg_duration :=
           if trip_count >? 0
           then PrimFloat.div (RiskEngine.total_duration data) (PyFloat.of_int trip_count)
           else 0%float in
         ((zone_id, hour),
          RiskEngine.mkZHM zone_id hour trip_count (PyFloat.round avg_duration 2) trip_count))
      (RiskEngine.zone_hour_trips cleaned).

(** The value of [risk_entry], which does not raise. *)
Definition risk_entry_of (max_tc : Z) (max_vol : float)
    (zrm : list (Z * RiskEngine.ZoneRevenueMetric))
    (zone_id hour : Z) (metrics : RiskEngine.ZoneHourMetric) : RiskEngine.RiskScore :=
  let trip_count := RiskEngine.zh_trip_count metrics in
  let density_normalized :=
    if max_tc >? 0 then PyFloat.int_true_div trip_count max_tc else 0%float in
  let late_night_factor := if in_ints hour Config.LATE_NIGHT_HOURS then 1%float else 0%float in
  let volatility_normalized :=
    match PyDict.get zrm zone_id with
    | Some m =>
        if PrimFloat.ltb 0 max_vol
        then PrimFloat.div (RiskEngine.revenue_std_dev m) max_vol else 0%float
    | None => 0%float
    end in
  let risk :=
    PrimFloat.add
      (PrimFloat.add (PrimFloat.mul Config.w_density density_normalized)
                     (PrimFloat.mul Config.w_late_night late_night_factor))
      (PrimFloat.mul Config.w_volatility volatility_normalized) in
  let risk := PyFloat.max2 0 (PyFloat.min2 1 risk) in
  RiskEngine.mkRisk zone_id hour trip_count
    (PyFloat.round (PrimFloat.mul Config.w_density density_normalized) 4)
    (PyFloat.round (PrimFloat.mul Config.w_late_night late_night_factor) 4)
    (PyFloat.round (PrimFloat.mul Config.w_volatility volatility_normalized) 4)
    (PyFloat.round risk 4).

(** The value of [compute_risk_scores]. *)
Definition risk_scores_of (zhm : list ((Z * Z) * RiskEngine.ZoneHourMetric))
    (zrm : list (Z * RiskEngine.ZoneRevenueMetric))
    : list ((Z * Z) * RiskEngine.RiskScore) :=
  map (fun '((zone_id, hour), metrics) =>
         ((zone_id, hour),
          risk_entry_of (RiskEngine.max_trip_count zhm) (RiskEngine.max_volatility zrm)
                        zrm zone_id hour metrics))
      zhm.

(** Zero, a positive finite number or plus infinity. *)
Definition nonneg_number (sf : spec_float) : bool :=
  match sf with
  | S754_zero _ | S754_finite false _ _ | S754_infinity false => true
  | _ => false
  end.

(** A text without an underscore. *)
Fixpoint no_underscore (s : string) : bool :=
  match s with
  | EmptyString => true
  | String c r => negb (Ascii.eqb c "_") && no_underscore r
  end.

(** What holds of the chunk bookkeeping at every turn of the loop. *)
Definition chunk_inv (cs : Z) (c : Cleaner) : Prop :=
  chunk_count c = Z.of_nat (length (progress c)) /\
  map fst (progress c) = seqZ 1 (Z.of_nat (length (progress c))) /\
  Forall (fun p => snd p = cs) (progress c) /\
  Z.of_nat (length (chunk c)) < cs /\
  total_processed (stats c) = cs * Z.of_nat (length (progress c)) + Z.of_nat (length (chunk c)).

End Views.

(* ===================================================================== *)
(** * The record validator *)
(* ===================================================================== *)

Module ValidatorFacts.

Import DataCleaner.

Ltac break_match :=
  match goal with
  | |- context [match ?x with _ => _ end] => destruct x eqn:?
  end.

Ltac scrut x :=
  lazymatch x with
  | context [match ?y with _ => _ end] => scrut y
  | negb ?b => scrut b
  | (?a || ?b)%bool => scrut a
  | (?a && ?b)%bool => scrut a
  | _ => destruct x eqn:?
  end.

Ltac break_hyp H :=
  match type of H with
  | context [match ?x with _ => _ end] => scrut x; cbn [negb orb andb] in *
  end.

Lemma row_get_insert_eq (row : RawRecord) k v : row_get (<[k := v]> row) k = v.
Proof. unfold row_get. now rewrite lookup_insert_eq. Qed.

Lemma row_get_insert_ne (row : RawRecord) k k' v :
  k <> k' -> row_get (<[k := v]> row) k' = row_get row k'.
Proof. intros H. unfold row_get. now rewrite lookup_insert_ne. Qed.

(** The body of the validator ends in one of three ways. *)
Lemma validate_body_cases zone_ids row row_index :
  (exists t, validate_body zone_ids row row_index = Return (true, Some t, None)) \/
  (exists r, validate_body zone_ids row row_index = Return (false, None, Some r)) \/
  (exists e, validate_body zone_ids row row_index = Raise e).
Proof.
  unfold validate_body, bind, reject.
  repeat first [ solve [eauto] | break_match ].
Qed.

Lemma validate_record_return zone_ids row row_index out :
  validate_body zone_ids row row_index = Return out ->
  _validate_record zone_ids row row_index = out.
Proof. intros H. unfold _validate_record. now rewrite H. Qed.

Lemma validate_record_valid_inv zone_ids row row_index :
  fst (fst (_validate_record zone_ids row row_index)) = true ->
  exists t, validate_body zone_ids row row_index = Return (true, Some t, None).
Proof.
  unfold _validate_record.
  destruct (validate_body_cases zone_ids row row_index) as [[t H] | [[r H] | [e H]]];
    rewrite H; cbn; intros E; [eauto | discriminate | discriminate].
Qed.

Ltac unfold_rules :=
  unfold Rules.rules; cbn [Rules.first_failure];
  unfold Rules.timestamp_parse, Rules.ordering, Rules.temporal_window, Rules.distance,
    Rules.fare, Rules.passengers, Rules.zones, Rules.duration, Rules.rate_code,
    Rules.payment, Rules.store_fwd, Rules.integer, Rules.pickup, Rules.dropoff,
    Rules.pass, Rules.fail.

Ltac use_number :=
  match goal with
  | Hn : PrimFloat.is_nan ?x = false |- context [PrimFloat.is_nan ?x] => rewrite Hn
  end.

(** When the body returns on a record whose distance and fare are
    numbers, its reason is the one the rules give when they are
    evaluated in the order of the specification. *)
Lemma validate_body_first_failure zone_ids row row_index v rec reason :
  Views.reads_nan row "trip_distance" = false ->
  Views.reads_nan row "fare_amount" = false ->
  validate_body zone_ids row row_index = Return (v, rec, reason) ->
  Rules.first_failure (Rules.rules zone_ids) row = Return reason.
Proof.
  intros Hd Hf H. unfold Views.reads_nan in Hd, Hf.
  unfold_rules.
  unfold validate_body, reject, strip_val in H. unfold bind in *.
  repeat first [ congruence | use_number | break_hyp H ].
Qed.

Lemma first_failing_first_failure rs row i reason :
  Rules.first_failing rs row i reason ->
  Rules.first_failure rs row = Return (Some reason).
Proof.
  revert i. induction rs as [| r rs IH]; intros i [Hbefore (r' & Hnth & Hfail)].
  - destruct i; discriminate.
  - destruct i as [| i]; cbn in Hnth.
    + injection Hnth as <-. cbn. now rewrite Hfail.
    + cbn. rewrite (Hbefore 0%nat r) by (cbn; auto with arith). cbn.
      apply (IH i). split.
      * intros j r0 Hj Hr0. apply (Hbefore (S j)); [lia | exact Hr0].
      * eauto.
Qed.

Lemma processing_error_neq (s reason : string) :
  (match reason with String "p" _ => False | _ => True end) ->
  ("processing_error_" ++ s)%string <> reason.
Proof. intros H E. rewrite <- E in H. exact H. Qed.

Lemma cmp_refl d : PyDatetime.cmp d d = Eq.
Proof. unfold PyDatetime.cmp. now rewrite !Z.compare_refl. Qed.

Lemma leb_refl d : PyDatetime.leb d d = true.
Proof. unfold PyDatetime.leb. now rewrite cmp_refl. Qed.

(** ** The texts 50, 50.01, 2 and 2.9 *)

Lemma parse_50 : _parse_float (Some "50") = Some 50%float.
Proof. vm_compute. reflexivity. Qed.

Lemma parse_50_01 : _parse_float (Some "50.01") = Some 50.01%float.
Proof. vm_compute. reflexivity. Qed.

Lemma dist_50_checks :
  flt_lt_int 50 0 = false /\ flt_gt_int 50 Config.max_distance_miles = false.
Proof. split; vm_compute; reflexivity. Qed.

Lemma dist_50_01_checks :
  flt_lt_int 50.01 0 = false /\ flt_gt_int 50.01 Config.max_distance_miles = true.
Proof. split; vm_compute; reflexivity. Qed.



(** The validator reads the record only through [row_get]. *)
Lemma validate_body_ext zone_ids row1 row2 row_index :
  (forall k, row_get row1 k = row_get row2 k) ->
  validate_body zone_ids row1 row_index = validate_body zone_ids row2 row_index.
Proof. intros H. unfold validate_body. now rewrite !H. Qed.

Lemma validate_record_ext zone_ids row1 row2 row_index :
  (forall k, row_get row1 k = row_get row2 k) ->
  _validate_record zone_ids row1 row_index = _validate_record zone_ids row2 row_index.
Proof.
  intros H. unfold _validate_record. now rewrite (validate_body_ext _ row1 row2).
Qed.

Lemma validate_record_shape zone_ids row row_index :
  (exists t, _validate_record zone_ids row row_index = (true, Some t, None)) \/
  (exists r, _validate_record zone_ids row row_index = (false, None, Some r)).
Proof.
  unfold _validate_record.
  destruct (validate_body_cases zone_ids row row_index) as [[t H] | [[r H] | [e H]]];
    rewrite H; eauto.
Qed.

End ValidatorFacts.

Module ValidatorClaims.

Import DataCleaner ValidatorFacts.

Ltac row_gets :=
  repeat rewrite row_get_insert_eq;
  repeat rewrite row_get_insert_ne by discriminate.

(** C6. For every raw record and source index the validator returns
    exactly one of: valid with a trip and no reason, or not valid with
    no trip and one reason. It returns for every input (it is a total
    function: nothing is raised), and when the body faults with an
    exception [e] the reason is [processing_error_] followed by the
    first 30 characters of the message of [e]. *)
Theorem C6_one_outcome_no_raise zone_ids row row_index :
  ((exists t, _validate_record zone_ids row row_index = (true, Some t, None)) \/
   (exists r, _validate_record zone_ids row row_index = (false, None, Some r))) /\
  (forall e, validate_body zone_ids row row_index = Raise e ->
     _validate_record zone_ids row row_index =
       (false, None, Some ("processing_error_" ++ PyStr.prefix 30 (exn_str e))%string)).
Proof.
  split.
  - unfold _validate_record.
    destruct (validate_body_cases zone_ids row row_index) as [[t H] | [[r H] | [e H]]];
      rewrite H; eauto.
  - intros e H. unfold _validate_record. now rewrite H.
Qed.

(** The fault path of C6 is taken: an integer field written [inf], and
    a line cut short before the store-and-forward flag. *)
Example fault_is_reported :
  _validate_record standard_zone_ids Samples.faulty 7 =
    (false, None, Some "processing_error_cannot convert float infinity ") /\
  _validate_record standard_zone_ids Samples.short_line 8 =
    (false, None, Some "processing_error_'NoneType' object has no attri").
Proof. split; vm_compute; reflexivity. Qed.

(** C2, the code at the failing inputs. The record [Samples.faulty]
    passes rules 1 to 4 and fails rule 5 (fare) and rule 9 (rate code),
    so its first failing rule is rule 5; the code attributes it to
    neither: its pickup zone, written [inf], faults when the integer
    fields are parsed, before rule 4 is looked at, because [_parse_int]
    does not catch the [OverflowError] of [int(float("inf"))]. The
    record [Samples.nan_distance] fails rule 4 (its distance is not a
    number) and rule 5 (fare -5); the code attributes it to rule 5,
    because both comparisons of rule 4 are false on a NaN. The record
    [Samples.short_line] fails rule 11 only (the flag is missing) and is
    reported as a processing error. So the first failing rule does not
    always win. *)
Lemma C2_fault_preempts_first_failing_rule :
  Rules.first_failing (Rules.rules standard_zone_ids) Samples.faulty 4 "negative_or_null_fare" /\
  Rules.rate_code Samples.faulty = Return (Some "invalid_ratecode") /\
  _validate_record standard_zone_ids Samples.faulty 1
  = (false, None, Some "processing_error_cannot convert float infinity ") /\
  Rules.first_failing (Rules.rules standard_zone_ids) Samples.nan_distance 3
    "negative_or_null_distance" /\
  _validate_record standard_zone_ids Samples.nan_distance 1
  = (false, None, Some "negative_or_null_fare") /\
  Rules.first_failing (Rules.rules standard_zone_ids) Samples.short_line 10
    "invalid_store_fwd_flag" /\
  _validate_record standard_zone_ids Samples.short_line 1
  = (false, None, Some "processing_error_'NoneType' object has no attri") /\
  ~ (forall zone_ids row row_index i reason,
       Rules.first_failing (Rules.rules zone_ids) row i reason ->
       _validate_record zone_ids row row_index = (false, None, Some reason)).
Proof.
  assert (Hff : Rules.first_failing (Rules.rules standard_zone_ids) Samples.faulty 4
                  "negative_or_null_fare").
  { split.
    - intros j r Hj Hr.
      do 4 (destruct j as [| j]; [injection Hr as <-; vm_compute; reflexivity |]).
      lia.
    - eexists. split; [reflexivity | vm_compute; reflexivity]. }
  assert (Hrec : _validate_record standard_zone_ids Samples.faulty 1
                 = (false, None, Some "processing_error_cannot convert float infinity "))
    by (vm_compute; reflexivity).
  split; [exact Hff |]. split; [vm_compute; reflexivity |]. split; [exact Hrec |].
  split.
  { split.
    - intros j r Hj Hr.
      do 3 (destruct j as [| j]; [injection Hr as <-; vm_compute; reflexivity |]).
      lia.
    - eexists. split; [reflexivity | vm_compute; reflexivity]. }
  split; [vm_compute; reflexivity |].
  split.
  { split.
    - intros j r Hj Hr.
      do 10 (destruct j as [| j]; [injection Hr as <-; vm_compute; reflexivity |]).
      lia.
    - eexists. split; [reflexivity | vm_compute; reflexivity]. }
  split; [vm_compute; reflexivity |].
  intros Hall. specialize (Hall _ _ 1 _ _ Hff). rewrite Hrec in Hall. discriminate Hall.
Qed.

(** C7. A record whose trip_distance is the maximum, 50, passes the
    distance rule: whatever else it holds it is never reported with a
    distance reason, and [Samples.good] with that distance is valid.
    A record that is valid with distance 50 is excluded with
    [distance_exceeds_max] when the distance is 50.01. A record whose
    dropoff time equals its pickup time is excluded with
    [dropoff_before_or_equal_pickup]. *)
Theorem C7_boundaries zone_ids row_index :
  (forall row,
     Rules.distance (<["trip_distance" := Some "50"]> row) = Return None /\
     (forall out, validate_body zone_ids (<["trip_distance" := Some "50"]> row) row_index = Return out ->
        snd out <> Some "negative_or_null_distance" /\ snd out <> Some "distance_exceeds_max")) /\
  (fst (fst (_validate_record standard_zone_ids (<["trip_distance" := Some "50"]> Samples.good) 1))
   = true) /\
  (forall row,
     fst (fst (_validate_record zone_ids (<["trip_distance" := Some "50"]> row) row_index)) = true ->
     _validate_record zone_ids (<["trip_distance" := Some "50.01"]> row) row_index
     = (false, None, Some "distance_exceeds_max")) /\
  (forall row t,
     Rules.pickup row = Some t -> Rules.dropoff row = Some t ->
     _validate_record zone_ids row row_index = (false, None, Some "dropoff_before_or_equal_pickup")).
Proof.
  destruct dist_50_checks as [H50a H50b]. destruct dist_50_01_checks as [H51a H51b].
  split; [| split; [| split]].
  - intros row. split.
    + unfold Rules.distance. rewrite row_get_insert_eq, parse_50, H50a, H50b. reflexivity.
    + intros [[v rec] reason] H. cbn [snd].
      unfold validate_body, reject, bind in H. revert H. row_gets.
      rewrite parse_50, H50a, H50b. intros H.
      repeat first [ (injection H as <- <- <-; split; discriminate)
                   | discriminate H | break_hyp H ].
  - vm_compute. reflexivity.
  - intros row Hvalid.
    apply validate_record_valid_inv in Hvalid. destruct Hvalid as [t Hvalid].
    apply validate_record_return.
    unfold validate_body, reject, bind in *.
    row_gets. rewrite parse_50_01, H51a, H51b.
    revert Hvalid. row_gets. rewrite parse_50, H50a, H50b.
    intros Hvalid.
    repeat first [ reflexivity | discriminate Hvalid | break_hyp Hvalid ].
  - intros row t Hp Hd. apply validate_record_return.
    unfold Rules.pickup, Rules.dropoff in *. unfold validate_body, reject.
    rewrite Hp, Hd, leb_refl. reflexivity.
Qed.

Lemma C7_boundaries_witness :
  _validate_record standard_zone_ids (<["trip_distance" := Some "50.01"]> Samples.good) 1
  = (false, None, Some "distance_exceeds_max") /\
  _validate_record standard_zone_ids
    (<["tpep_dropoff_datetime" := Some "2019-01-05 08:10:00"]> Samples.good) 1
  = (false, None, Some "dropoff_before_or_equal_pickup").
Proof.
  destruct (C7_boundaries standard_zone_ids 1) as (_ & _ & Hmax & Hsame).
  split.
  - apply Hmax. vm_compute. reflexivity.
  - apply (Hsame _ (PyDatetime.mkdt 2019 1 5 8 10 0)); vm_compute; reflexivity.
Defined.


End ValidatorClaims.

(* ===================================================================== *)
(** * The ingestion loop *)
(* ===================================================================== *)

Module IngestionFacts.

Import DataCleaner ValidatorFacts Views.

Lemma results_step zone_ids cs1 cs2 c1 c2 row_index row :
  results c1 = results c2 ->
  results (step zone_ids cs1 c1 row_index row) = results (step zone_ids cs2 c2 row_index row).
Proof.
  unfold results. intros H. injection H as Ht He Hs.
  unfold step. rewrite Ht, He, Hs.
  destruct (_validate_record zone_ids row row_index) as [[is_valid rec] reason].
  destruct is_valid; cbn;
    repeat match goal with |- context [if ?b then _ else _] => destruct b end; reflexivity.
Qed.

Lemma results_loop zone_ids max_rows cs1 cs2 rows :
  forall row_index c1 c2,
  results c1 = results c2 ->
  results (loop zone_ids cs1 max_rows rows row_index c1)
  = results (loop zone_ids cs2 max_rows rows row_index c2).
Proof.
  induction rows as [| row rows IH]; intros row_index c1 c2 H; cbn [loop].
  - exact H.
  - destruct (cap_reached max_rows row_index); [exact H |].
    apply IH. now apply results_step.
Qed.

Lemma results_flush c : results (flush c) = results c.
Proof. unfold flush. destruct (chunk c); reflexivity. Qed.

Lemma results_process zone_ids max_rows cs1 cs2 input c :
  results (process_csv_chunks zone_ids cs1 max_rows input c)
  = results (process_csv_chunks zone_ids cs2 max_rows input c).
Proof.
  unfold process_csv_chunks. destruct input as [rows |]; [| reflexivity].
  rewrite !results_flush. now apply results_loop.
Qed.

Lemma counted_init : counted init.
Proof. repeat split. Qed.

Lemma counted_step zone_ids cs c row_index row :
  counted c -> counted (step zone_ids cs c row_index row).
Proof.
  intros (Hv & He & Hp). unfold step.
  destruct (validate_record_shape zone_ids row row_index) as [[t H] | [r H]]; rewrite H;
    match goal with |- context [if ?b then _ else _] =>
      destruct b end; unfold counted; cbn; rewrite ?length_app; cbn; lia.
Qed.

Lemma counted_loop zone_ids cs max_rows rows :
  forall row_index c, counted c -> counted (loop zone_ids cs max_rows rows row_index c).
Proof.
  induction rows as [| row rows IH]; intros row_index c H; cbn [loop]; [exact H |].
  destruct (cap_reached max_rows row_index); [exact H |].
  apply IH. now apply counted_step.
Qed.

Lemma counted_flush c : counted c -> counted (flush c).
Proof. unfold flush. destruct (chunk c); auto. Qed.

Lemma counted_process zone_ids cs max_rows input :
  counted (process_csv_chunks zone_ids cs max_rows input init).
Proof.
  unfold process_csv_chunks. destruct input; [| apply counted_init].
  apply counted_flush, counted_loop, counted_init.
Qed.

End IngestionFacts.

Module IngestionClaims.

Import DataCleaner IngestionFacts Views.

(** C8. For every input and every two positive chunk sizes the
    ingestion produces the same ordered list of cleaned trips, the same
    ordered list of exclusion records and the same summary counters;
    only the progress report depends on the chunk size. *)
Theorem C8_chunk_size_irrelevant zone_ids max_rows input cs1 cs2
  (Hcs1 : 0 < cs1) (Hcs2 : 0 < cs2) :
  let c1 := process_csv_chunks zone_ids cs1 max_rows input init in
  let c2 := process_csv_chunks zone_ids cs2 max_rows input init in
  cleaned_trips c1 = cleaned_trips c2 /\
  excluded_records c1 = excluded_records c2 /\
  stats c1 = stats c2.
Proof.
  intros c1 c2.
  pose proof (results_process zone_ids max_rows cs1 cs2 input init) as H.
  unfold results in H. fold c1 c2 in H. injection H as Ht He Hs. auto.
Qed.

Lemma C8_chunk_size_irrelevant_witness :
  let rows := Some [Samples.good; Samples.faulty; Samples.refund] in
  let c1 := process_csv_chunks standard_zone_ids 1 None rows init in
  let c2 := process_csv_chunks standard_zone_ids 50000 None rows init in
  (cleaned_trips c1 = cleaned_trips c2 /\
   excluded_records c1 = excluded_records c2 /\
   stats c1 = stats c2) /\
  progress c1 = [(1, 1); (2, 1); (3, 1)] /\ progress c2 = [(1, 3)].
Proof.
  split.
  - apply (C8_chunk_size_irrelevant standard_zone_ids None
             (Some [Samples.good; Samples.faulty; Samples.refund]) 1 50000); lia.
  - split; vm_compute; reflexivity.
Defined.

End IngestionClaims.

(* ===================================================================== *)
(** * Dictionaries and the exposure aggregation *)
(* ===================================================================== *)

Module PyDictFacts.

Section Facts.
Context {K V : Type} `{EqDecision K}.
Implicit Types (d : list (K * V)) (k : K) (v : V).

Lemma get_set_eq d k v : PyDict.get (PyDict.set d k v) k = Some v.
Proof.
  induction d as [| [k' v'] d IH]; cbn.
  - destruct (decide (k = k)); congruence.
  - destruct (decide (k = k')) as [-> | Hne]; cbn.
    + destruct (decide (k' = k')); congruence.
    + destruct (decide (k = k')); [contradiction | exact IH].
Qed.

Lemma get_set_ne d k k' v : k <> k' -> PyDict.get (PyDict.set d k v) k' = PyDict.get d k'.
Proof.
  intros Hne. induction d as [| [k0 v0] d IH]; cbn.
  - destruct (decide (k' = k)); congruence.
  - destruct (decide (k = k0)) as [-> | Hk]; cbn.
    + destruct (decide (k' = k0)); congruence.
    + destruct (decide (k' = k0)); [reflexivity | exact IH].
Qed.

Lemma get_None d k : PyDict.get d k = None <-> ~ In k (PyDict.keys d).
Proof.
  induction d as [| [k' v'] d IH]; cbn.
  - tauto.
  - destruct (decide (k = k')) as [-> | Hne].
    + split; [discriminate | tauto].
    + rewrite IH. split; [intros H [E | Hin]; [congruence | tauto] | tauto].
Qed.

Lemma keys_set_present d k v :
  In k (PyDict.keys d) -> PyDict.keys (PyDict.set d k v) = PyDict.keys d.
Proof.
  induction d as [| [k' v'] d IH]; cbn; [tauto |].
  intros Hin. destruct (decide (k = k')) as [-> | Hne]; cbn; [reflexivity |].
  f_equal. apply IH. destruct Hin; [congruence | assumption].
Qed.

Lemma keys_set_absent d k v :
  ~ In k (PyDict.keys d) -> PyDict.keys (PyDict.set d k v) = PyDict.keys d ++ [k].
Proof.
  induction d as [| [k' v'] d IH]; cbn; [reflexivity |].
  intros Hin. destruct (decide (k = k')) as [-> | Hne]; cbn; [tauto |].
  f_equal. apply IH. tauto.
Qed.

Lemma NoDup_keys_set d k v :
  List.NoDup (PyDict.keys d) -> List.NoDup (PyDict.keys (PyDict.set d k v)).
Proof.
  intros Hnd. destruct (in_dec (fun a b => decide (a = b)) k (PyDict.keys d)) as [Hin | Hnin].
  - now rewrite keys_set_present.
  - rewrite keys_set_absent by assumption.
    apply List.NoDup_rev in Hnd. rewrite <- (rev_involutive (_ ++ _)).
    apply List.NoDup_rev. rewrite rev_app_distr. cbn. constructor; [| assumption].
    now rewrite <- in_rev.
Qed.

(** The sum of a measure of the values after [d[k] = v]. *)
Lemma sum_set (f : V -> Z) d k v :
  Views.sumZ (map f (PyDict.values (PyDict.set d k v)))
  = Views.sumZ (map f (PyDict.values d))
    - match PyDict.get d k with Some old => f old | None => 0 end + f v.
Proof.
  unfold Views.sumZ, PyDict.values.
  induction d as [| [k' v'] d IH]; cbn.
  - lia.
  - destruct (decide (k = k')) as [-> | Hne]; cbn; [lia |].
    rewrite IH. lia.
Qed.

End Facts.

End PyDictFacts.

Module ExposureFacts.

Import DataCleaner RiskEngine Views PyDictFacts.

Lemma trips_of_snoc key l t :
  trips_of key (l ++ [t]) = trips_of key l ++ (if bool_decide (key_of t = key) then [t] else []).
Proof. unfold trips_of. rewrite List.filter_app. cbn. now destruct (bool_decide _). Qed.

Lemma zone_hour_trips_snoc l t :
  zone_hour_trips (l ++ [t])
  = let d := zone_hour_trips l in
    let cur := default (mkZHT 0 0 []) (PyDict.get d (key_of t)) in
    PyDict.set d (key_of t)
      (mkZHT (count cur + 1) (total_duration cur + trip_duration_minutes t) (trips cur ++ [t])).
Proof. unfold zone_hour_trips. now rewrite fold_left_app. Qed.

(** After the first loop every key holds exactly the trips that fall
    under it, in order, and their number. *)
Lemma zone_hour_trips_spec l :
  List.NoDup (PyDict.keys (zone_hour_trips l)) /\
  (forall key,
     match PyDict.get (zone_hour_trips l) key with
     | Some acc => trips acc = trips_of key l /\ count acc = Z.of_nat (length (trips acc))
                   /\ 1 <= count acc
     | None => trips_of key l = []
     end) /\
  sumZ (map count (PyDict.values (zone_hour_trips l))) = Z.of_nat (length l).
Proof.
  induction l as [| t l IH] using rev_ind.
  - cbn. split; [constructor | split; [reflexivity | reflexivity]].
  - destruct IH as (Hnd & Hget & Hsum).
    rewrite zone_hour_trips_snoc. cbv zeta.
    set (d := zone_hour_trips l) in *.
    split; [now apply NoDup_keys_set |]. split.
    + intros key. rewrite trips_of_snoc.
      destruct (decide (key_of t = key)) as [<- | Hne].
      * rewrite get_set_eq, bool_decide_eq_true_2 by reflexivity. cbn.
        specialize (Hget (key_of t)).
        destruct (PyDict.get d (key_of t)) as [acc |]; cbn.
        -- destruct Hget as (-> & -> & Hpos). rewrite length_app. cbn. split; [reflexivity | lia].
        -- rewrite Hget. cbn. split; [reflexivity | lia].
      * rewrite get_set_ne, bool_decide_eq_false_2 by assumption.
        rewrite app_nil_r. apply Hget.
    + rewrite sum_set, Hsum, length_app. cbn.
      specialize (Hget (key_of t)).
      destruct (PyDict.get d (key_of t)) as [acc |]; cbn; lia.
Qed.

(** The second loop does not raise: the count that divides is tested
    first. *)
Lemma zone_hour_metric_returns zone_id hour data :
  zone_hour_metric zone_id hour data
  = Return (mkZHM zone_id hour (count data)
              (PyFloat.round (if count data >? 0
                              then PrimFloat.div (total_duration data)
                                                 (PyFloat.of_int (count data))
                              else 0%float) 2) (count data)).
Proof.
  unfold zone_hour_metric, float_div_int, bind. cbv zeta.
  destruct (Z.gtb_spec (count data) 0) as [Hpos | Hle]; [| reflexivity].
  destruct (Z.eqb_spec (count data) 0) as [E | _]; [lia | reflexivity].
Qed.

Lemma compute_exposure_density_returns l :
  compute_exposure_density l = Return (exposure_of l).
Proof.
  unfold compute_exposure_density, exposure_of.
  induction (zone_hour_trips l) as [| [[z h] data] d IH]; cbn [exposure_pass map];
    [reflexivity |].
  rewrite zone_hour_metric_returns, IH. reflexivity.
Qed.

Lemma exposure_values l :
  map zh_trip_count (PyDict.values (exposure_of l))
  = map count (PyDict.values (zone_hour_trips l)).
Proof.
  unfold exposure_of, PyDict.values. rewrite !map_map.
  apply map_ext. intros [[z h] data]. reflexivity.
Qed.

Lemma exposure_keys l :
  PyDict.keys (exposure_of l) = PyDict.keys (zone_hour_trips l).
Proof.
  unfold exposure_of, PyDict.keys. rewrite map_map.
  apply map_ext. intros [[z h] data]. reflexivity.
Qed.

Lemma exposure_get l key :
  PyDict.get (exposure_of l) key
  = option_map (fun data => mkZHM (fst key) (snd key) (count data)
                  (PyFloat.round (if count data >? 0
                                  then PrimFloat.div (total_duration data) (PyFloat.of_int (count data))
                                  else 0%float) 2) (count data))
      (PyDict.get (zone_hour_trips l) key).
Proof.
  unfold exposure_of.
  induction (zone_hour_trips l) as [| [[z h] data] d IH]; cbn; [reflexivity |].
  destruct (decide (key = (z, h))) as [-> | Hne]; [reflexivity | exact IH].
Qed.

End ExposureFacts.
Module ExposureClaims.

Import DataCleaner RiskEngine Views PyDictFacts ExposureFacts IngestionFacts.

(** C4. For every list of cleaned trips the exposure aggregation returns
    (it does not raise) and groups the trips by (pickup zone, hour of
    day): the keys are distinct, every trip falls under one of them, the
    trip_count of a key is the number of trips with that zone and hour,
    and the trip counts of all keys add up to the number of trips. For
    the list the ingestion produced, that sum is the counter
    total_valid. *)
Theorem C4_trip_counts_sum_to_total_valid (cleaned : list CleanedRecord) :
  exists zhm,
    compute_exposure_density cleaned = Return zhm /\
    total_trip_count zhm = Z.of_nat (length cleaned) /\
    List.NoDup (PyDict.keys zhm) /\
    (forall t, In t cleaned -> exists m, PyDict.get zhm (key_of t) = Some m) /\
    (forall key m, PyDict.get zhm key = Some m ->
       zh_zone_id m = fst key /\ zh_hour m = snd key /\
       zh_trip_count m = Z.of_nat (length (trips_of key cleaned)) /\ 1 <= zh_trip_count m) /\
    (forall zone_ids chunk_size max_rows input,
       let c := process_csv_chunks zone_ids chunk_size max_rows input init in
       exists zhm',
         compute_exposure_density (cleaned_trips c) = Return zhm' /\
         total_trip_count zhm' = total_valid (stats c)).
Proof.
  assert (Hsum : forall l, total_trip_count (exposure_of l) = Z.of_nat (length l)).
  { intros l. unfold total_trip_count. rewrite exposure_values.
    apply (zone_hour_trips_spec l). }
  destruct (zone_hour_trips_spec cleaned) as (Hnd & Hget & _).
  exists (exposure_of cleaned).
  split; [apply compute_exposure_density_returns |].
  split; [apply Hsum |]. split; [now rewrite exposure_keys |]. split; [| split].
  - intros t Hin. rewrite exposure_get. specialize (Hget (key_of t)).
    destruct (PyDict.get (zone_hour_trips cleaned) (key_of t)) as [acc |]; cbn; [eauto |].
    exfalso. assert (Hin' : In t (trips_of (key_of t) cleaned)).
    { unfold trips_of. apply filter_In. split; [exact Hin |].
      now apply bool_decide_eq_true_2. }
    rewrite Hget in Hin'. exact Hin'.
  - intros key m. rewrite exposure_get. specialize (Hget key).
    destruct (PyDict.get (zone_hour_trips cleaned) key) as [acc |]; cbn; [| discriminate].
    intros E. injection E as <-. cbn. destruct Hget as (Ht & Hc & Hpos).
    rewrite <- Ht. auto.
  - intros zone_ids chunk_size max_rows input. cbv zeta.
    eexists. split; [apply compute_exposure_density_returns |]. rewrite Hsum.
    symmetry. apply (counted_process zone_ids chunk_size max_rows input).
Qed.

End ExposureClaims.

(* ===================================================================== *)
(** * The two scripts in sequence *)
(* ===================================================================== *)

Module PipelineClaims.

Import DataCleaner Views.

(** The files the cleaner leaves, given its object and the files found. *)
Lemma cleaner_run_eq zone_ids chunk_size max_rows input cfs :
  DataCleaner.run zone_ids chunk_size max_rows input cfs
  = (files_after (process_csv_chunks zone_ids chunk_size max_rows input init) cfs,
     process_csv_chunks zone_ids chunk_size max_rows input init).
Proof. reflexivity. Qed.

Lemma files_after_idem c cfs : files_after c (files_after c cfs) = files_after c cfs.
Proof.
  unfold files_after, write_exclusion_log, write_cleaned_data.
  destruct (cleaned_trips c); reflexivity.
Qed.

Lemma files_after_valid c cfs cfs' :
  cleaned_trips c <> [] -> files_after c cfs = files_after c cfs'.
Proof.
  unfold files_after, write_exclusion_log, write_cleaned_data.
  destruct (cleaned_trips c); [congruence | reflexivity].
Qed.

(** The engine either finds nothing to load and leaves the metric files
    alone, or computes the metrics and writes them, or stops on an
    exception; which one does not depend on the metric files found. *)
Lemma engine_run_cases file :
  (RiskEngine.load_cleaned_data file = [] /\
   forall mf, RiskEngine.run file mf = Return (mf, None)) \/
  (exists m, forall mf, RiskEngine.run file mf = Return (Some m, Some m)) \/
  (exists e, forall mf, RiskEngine.run file mf = Raise e).
Proof.
  unfold RiskEngine.run.
  destruct (RiskEngine.load_cleaned_data file) as [| t ts]; [left; auto |].
  right. destruct (RiskEngine.compute (t :: ts)) as [m | e]; cbn; eauto.
Qed.


Lemma pipeline_run_eq zone_ids chunk_size max_rows input cfs mf :
  Pipeline.run zone_ids chunk_size max_rows input (Pipeline.mkFiles cfs mf)
  = engine_part (process_csv_chunks zone_ids chunk_size max_rows input init)
      (files_after (process_csv_chunks zone_ids chunk_size max_rows input init) cfs) mf.
Proof. reflexivity. Qed.

Lemma engine_part_cleaner c cf mf : Pipeline.cleaner (snd (engine_part c cf mf)) = c.
Proof. unfold engine_part. destruct (RiskEngine.run _ mf) as [[? ?] |]; reflexivity. Qed.

Lemma engine_part_files c cf mf : Pipeline.cleaner_files (fst (engine_part c cf mf)) = cf.
Proof. unfold engine_part. destruct (RiskEngine.run _ mf) as [[? ?] |]; reflexivity. Qed.

Lemma engine_part_again c cf mf :
  engine_part c cf (Pipeline.metric_files (fst (engine_part c cf mf))) = engine_part c cf mf.
Proof.
  unfold engine_part.
  destruct (engine_run_cases (CLEANED_TRIPS_CSV cf)) as [[_ H] | [[m H] | [e H]]];
    rewrite (H mf); cbn; rewrite H; reflexivity.
Qed.

Lemma engine_part_result c cf mf mf' :
  RiskEngine.load_cleaned_data (CLEANED_TRIPS_CSV cf) <> [] ->
  snd (engine_part c cf mf') = snd (engine_part c cf mf) /\
  (forall out, Pipeline.engine (snd (engine_part c cf mf)) = Return out ->
     engine_part c cf mf' = engine_part c cf mf).
Proof.
  intros Hload. unfold engine_part.
  destruct (engine_run_cases (CLEANED_TRIPS_CSV cf)) as [[Hnil _] | [[m H] | [e H]]];
    [contradiction | |]; rewrite (H mf), (H mf'); cbn; split; try reflexivity.
  intros out Hout. discriminate Hout.
Qed.

(** C9. The pipeline is deterministic. Its results are a function of the
    input records, the configuration and the files already on disk, and
    running it again on the files the first run left gives the same
    files (cleaned output, exclusion log, metric collections) and the
    same returned values. The cleaner's lists and counters and the
    exclusion log do not depend on the files found on disk at all; when
    at least one record is valid the cleaned file and the returned
    values do not either, nor do the metric files once the engine has
    returned. *)
Theorem C9_rerun_identical zone_ids chunk_size max_rows input (fs : Pipeline.Files) :
  let run := Pipeline.run zone_ids chunk_size max_rows input in
  run (fst (run fs)) = run fs /\
  (forall fs',
     Pipeline.cleaner (snd (run fs')) = Pipeline.cleaner (snd (run fs)) /\
     EXCLUDED_RECORDS_LOG (Pipeline.cleaner_files (fst (run fs')))
     = EXCLUDED_RECORDS_LOG (Pipeline.cleaner_files (fst (run fs))) /\
     (cleaned_trips (Pipeline.cleaner (snd (run fs))) <> [] ->
      snd (run fs') = snd (run fs) /\
      Pipeline.cleaner_files (fst (run fs')) = Pipeline.cleaner_files (fst (run fs)) /\
      (forall out, Pipeline.engine (snd (run fs)) = Return out -> run fs' = run fs))).
Proof.
  cbv zeta. destruct fs as [cfs mf]. rewrite pipeline_run_eq.
  set (c := process_csv_chunks zone_ids chunk_size max_rows input init).
  set (cf := files_after c cfs).
  assert (Hidem : files_after c cf = cf) by apply files_after_idem.
  split.
  - pose proof (engine_part_files c cf mf) as Hf.
    destruct (engine_part c cf mf) as [[cf1 mf1] r1] eqn:E. cbn [fst Pipeline.cleaner_files Pipeline.metric_files] in *. subst cf1.
    rewrite pipeline_run_eq. fold c. rewrite Hidem.
    pose proof (engine_part_again c cf mf) as Ha. rewrite E in Ha. exact Ha.
  - intros [cfs' mf']. rewrite pipeline_run_eq. fold c.
    rewrite !engine_part_cleaner, !engine_part_files.
    split; [reflexivity |]. split; [reflexivity |].
    intros Hne. rewrite (files_after_valid c cfs' cfs Hne). fold cf.
    assert (Hload : RiskEngine.load_cleaned_data (CLEANED_TRIPS_CSV cf) <> []).
    { unfold cf, files_after, write_exclusion_log, write_cleaned_data.
      destruct (cleaned_trips c); [congruence | cbn; discriminate]. }
    destruct (engine_part_result c cf mf mf' Hload) as [Hr Hall].
    split; [exact Hr |]. split; [reflexivity | exact Hall].
Qed.

End PipelineClaims.


(* ===================================================================== *)
(** * Signs of binary64 results *)
(* ===================================================================== *)

Module FloatFacts.

Import Views.

Lemma Prim2SF_zero : Prim2SF 0%float = S754_zero false.
Proof. reflexivity. Qed.

Lemma binary_round_aux_sign m e l :
  not_negative (binary_round_aux prec emax false m e l) = true.
Proof.
  unfold binary_round_aux.
  destruct (shr_fexp prec emax m e l) as [mrs' e'].
  destruct (shr_fexp prec emax _ e' loc_Exact) as [mrs'' e''].
  destruct (shr_m mrs''); [reflexivity | | reflexivity].
  destruct (e'' <=? emax - prec)%Z; reflexivity.
Qed.

Lemma binary_normalize_sign m e :
  (0 <= m)%Z -> not_negative (binary_normalize prec emax m e false) = true.
Proof.
  intros Hm. destruct m as [| p | p]; [reflexivity | | lia].
  unfold binary_normalize, binary_round.
  destruct (shl_align p e _) as [mz ez]. apply binary_round_aux_sign.
Qed.

Lemma SFdiv_sign x y :
  not_negative x = true -> not_negative y = true ->
  not_negative (SFdiv prec emax x y) = true.
Proof.
  destruct x as [[|] | [|] | | [|] mx ex]; destruct y as [[|] | [|] | | [|] my ey];
    cbn; intros Hx Hy; try discriminate; try reflexivity.
  destruct (SFdiv_core_binary prec emax (Zpos mx) ex (Zpos my) ey) as [[mz ez] lz].
  apply binary_round_aux_sign.
Qed.

Lemma of_int_sign z : (0 <= z)%Z -> not_negative (Prim2SF (PyFloat.of_int z)) = true.
Proof.
  intros Hz. unfold PyFloat.of_int.
  destruct (Z.ltb_spec z 0) as [Hlt | _]; [lia |].
  rewrite of_uint63_spec. apply binary_normalize_sign.
  apply Uint63.to_Z_bounded.
Qed.

Lemma not_negative_ltb x : not_negative (Prim2SF x) = true -> PrimFloat.ltb x 0 = false.
Proof.
  rewrite FloatAxioms.ltb_spec, Prim2SF_zero. unfold SFltb.
  destruct (Prim2SF x) as [[|] | [|] | | [|] m e]; cbn; intros H;
    first [reflexivity | discriminate H].
Qed.

(** A value that is not below zero is at least zero, or not a number. *)
Lemma ltb_zero_leb x :
  PrimFloat.ltb x 0 = false -> PrimFloat.leb 0 x = true \/ PrimFloat.is_nan x = true.
Proof.
  unfold PrimFloat.is_nan.
  rewrite FloatAxioms.ltb_spec, FloatAxioms.leb_spec, FloatAxioms.eqb_spec, Prim2SF_zero.
  unfold SFltb, SFleb, SFeqb.
  destruct (Prim2SF x) as [[|] | [|] | | [|] m e]; cbn; intros H;
    first [discriminate H | now left | now right].
Qed.

Lemma rhe_nonneg num den : (0 <= num)%Z -> (0 < den)%Z -> (0 <= PyFloat.rhe num den)%Z.
Proof.
  intros Hn Hd. unfold PyFloat.rhe.
  assert (0 <= num / den)%Z by (apply Z.div_pos; lia).
  destruct (2 * (num mod den) ?= den)%Z; [destruct (Z.even _) | |]; lia.
Qed.

Lemma scaled_nonneg m e nd : (0 <= nd)%Z -> (0 <= PyFloat.scaled m e nd)%Z.
Proof.
  intros Hnd. unfold PyFloat.scaled.
  assert (0 <= 10 ^ nd)%Z by (apply Z.pow_nonneg; lia).
  destruct (Z.leb_spec 0 e) as [He | He].
  - assert (0 <= 2 ^ e)%Z by (apply Z.pow_nonneg; lia). nia.
  - apply rhe_nonneg; [nia | apply Z.pow_pos_nonneg; lia].
Qed.

(** [round] never turns a value that is not below zero into one that is. *)
Lemma round_not_below_zero x nd :
  (0 <= nd)%Z -> PrimFloat.ltb x 0 = false -> PrimFloat.ltb (PyFloat.round x nd) 0 = false.
Proof.
  intros Hnd Hx. unfold PyFloat.round.
  destruct (Prim2SF x) as [s | s | | s m e] eqn:E; try exact Hx.
  destruct (PyFloat.scaled m e nd <? 2 ^ 53)%Z; [| exact Hx].
  destruct s.
  - rewrite FloatAxioms.ltb_spec, E in Hx. discriminate Hx.
  - apply not_negative_ltb.
    rewrite FloatAxioms.div_spec. apply SFdiv_sign; apply of_int_sign.
    + now apply scaled_nonneg.
    + apply Z.pow_nonneg. lia.
Qed.

End FloatFacts.


(* ===================================================================== *)
(** * Bounds on rounded binary64 results *)
(* ===================================================================== *)

Module FloatBounds.

Import Views FloatFacts.

(** ** Binary digits *)

Lemma digits2_pos_bounds p :
  2 ^ (Zpos (digits2_pos p) - 1) <= Zpos p < 2 ^ Zpos (digits2_pos p).
Proof.
  induction p as [p IH | p IH |]; cbn [digits2_pos].
  - rewrite Pos2Z.inj_succ, (Pos2Z.inj_xI p).
    replace (Z.succ (Zpos (digits2_pos p)) - 1) with (Z.succ (Zpos (digits2_pos p) - 1)) by lia.
    rewrite !Z.pow_succ_r by lia.
    revert IH. generalize (2 ^ (Zpos (digits2_pos p) - 1)) (2 ^ Zpos (digits2_pos p)). lia.
  - rewrite Pos2Z.inj_succ, (Pos2Z.inj_xO p).
    replace (Z.succ (Zpos (digits2_pos p)) - 1) with (Z.succ (Zpos (digits2_pos p) - 1)) by lia.
    rewrite !Z.pow_succ_r by lia.
    revert IH. generalize (2 ^ (Zpos (digits2_pos p) - 1)) (2 ^ Zpos (digits2_pos p)). lia.
  - cbn. lia.
Qed.

Lemma Zdigits2_bounds m : 0 < m -> 2 ^ (Zdigits2 m - 1) <= m < 2 ^ Zdigits2 m.
Proof. destruct m as [| p | p]; [lia | | lia]. intros _. apply digits2_pos_bounds. Qed.

Lemma Zdigits2_nonneg m : 0 <= Zdigits2 m.
Proof. destruct m; cbn; lia. Qed.

Lemma Zdigits2_le m k : 0 <= m -> 0 <= k -> m < 2 ^ k -> Zdigits2 m <= k.
Proof.
  intros Hm Hk Hlt. destruct (Z.eq_dec m 0) as [-> | Hne]; [exact Hk |].
  destruct (Zdigits2_bounds m ltac:(lia)) as [Hlo _].
  destruct (Z.le_gt_cases (Zdigits2 m) k) as [H | H]; [exact H | exfalso].
  assert (2 ^ k <= 2 ^ (Zdigits2 m - 1)) by (apply Z.pow_le_mono_r; lia). lia.
Qed.

Lemma Zdigits2_ge m k : 0 < m -> 2 ^ (k - 1) <= m -> k <= Zdigits2 m.
Proof.
  intros Hm Hge. destruct (Zdigits2_bounds m Hm) as [_ Hhi].
  pose proof (Zdigits2_nonneg m).
  destruct (Z.le_gt_cases k (Zdigits2 m)) as [H' | H']; [exact H' | exfalso].
  assert (2 ^ Zdigits2 m <= 2 ^ (k - 1)) by (apply Z.pow_le_mono_r; lia). lia.
Qed.

(** ** Shifting a mantissa to the right *)

Lemma iter_pos_nat {A : Type} (f : A -> A) p x :
  SpecFloat.iter_pos f p x = Nat.iter (Pos.to_nat p) f x.
Proof.
  revert x. induction p as [p IH | p IH |]; intros x; cbn [SpecFloat.iter_pos].
  - rewrite !IH, <- Nat.iter_succ_r, <- Nat.iter_add. f_equal. lia.
  - rewrite !IH, <- Nat.iter_add. f_equal. lia.
  - reflexivity.
Qed.

(** One shift halves the mantissa; what is cut off is remembered, so the
    smallest grid point not below the value is halved and rounded up. *)
Lemma shr_1_le mrs K :
  0 <= shr_m mrs ->
  shr_m mrs + Z.b2z (shr_r mrs || shr_s mrs) <= 2 * K ->
  0 <= shr_m (shr_1 mrs) /\
  2 * shr_m (shr_1 mrs) <= shr_m mrs /\
  shr_m (shr_1 mrs) + Z.b2z (shr_r (shr_1 mrs) || shr_s (shr_1 mrs)) <= K.
Proof.
  destruct mrs as [m r s]. cbn [shr_m shr_r shr_s].
  destruct m as [| [p | p |] | p]; intros Hm Hle; [| | | | lia];
    cbn [shr_1 shr_m shr_r shr_s];
    try rewrite (Pos2Z.inj_xI p) in *; try rewrite (Pos2Z.inj_xO p) in *;
    destruct r, s; cbn [orb Z.b2z] in *; lia.
Qed.

Lemma shr_iter_le n : forall mrs K,
  0 <= shr_m mrs ->
  shr_m mrs + Z.b2z (shr_r mrs || shr_s mrs) <= K * 2 ^ Z.of_nat n ->
  0 <= shr_m (Nat.iter n shr_1 mrs) /\
  shr_m (Nat.iter n shr_1 mrs) * 2 ^ Z.of_nat n <= shr_m mrs /\
  shr_m (Nat.iter n shr_1 mrs)
  + Z.b2z (shr_r (Nat.iter n shr_1 mrs) || shr_s (Nat.iter n shr_1 mrs)) <= K.
Proof.
  induction n as [| n IH]; intros mrs K Hm Hle.
  - cbn [Nat.iter nat_rect] in *. change (2 ^ Z.of_nat 0) with 1 in *. lia.
  - rewrite Nat2Z.inj_succ, Z.pow_succ_r in * by lia.
    destruct (IH mrs (2 * K) Hm ltac:(lia)) as (H0 & Hlow & Hup).
    change (Nat.iter (S n) shr_1 mrs) with (shr_1 (Nat.iter n shr_1 mrs)).
    destruct (shr_1_le _ K H0 Hup) as (H0' & Hlow' & Hup').
    split; [exact H0' |]. split; [| exact Hup'].
    assert (0 <= 2 ^ Z.of_nat n) by (apply Z.pow_nonneg; lia). nia.
Qed.

Lemma rne_bounds mrs :
  shr_m mrs <= round_nearest_even (shr_m mrs) (loc_of_shr_record mrs)
  <= shr_m mrs + Z.b2z (shr_r mrs || shr_s mrs).
Proof.
  destruct mrs as [m [|] [|]]; cbn; try destruct (Z.even m); lia.
Qed.

Lemma shr_record_of_loc_m m l : shr_m (shr_record_of_loc m l) = m.
Proof. destruct l as [| []]; reflexivity. Qed.

Lemma shr_record_of_loc_inexact m l :
  (shr_r (shr_record_of_loc m l) || shr_s (shr_record_of_loc m l))%bool = inexact l.
Proof. destruct l as [| []]; reflexivity. Qed.

Lemma fexp_eq e : fexp prec emax e = Z.max (e - 53) (-1074).
Proof. reflexivity. Qed.

(** With a mantissa at least as fine as the format, [shr_fexp] shifts it
    onto the grid of the format. *)
Lemma shr_fexp_spec mx ex lx :
  ex <= fexp prec emax (Zdigits2 mx + ex) ->
  shr_fexp prec emax mx ex lx
  = (Nat.iter (Z.to_nat (fexp prec emax (Zdigits2 mx + ex) - ex)) shr_1
       (shr_record_of_loc mx lx),
     fexp prec emax (Zdigits2 mx + ex)).
Proof.
  intros Hex. unfold shr_fexp, shr.
  destruct (fexp prec emax (Zdigits2 mx + ex) - ex) as [| p | p] eqn:En.
  - cbn. f_equal. lia.
  - rewrite iter_pos_nat. cbn [Z.to_nat]. f_equal. lia.
  - lia.
Qed.

(** A mantissa already on or above the grid is left where it is. *)
Lemma shr_fexp_id m e :
  fexp prec emax (Zdigits2 m + e) <= e ->
  shr_fexp prec emax m e loc_Exact = (Build_shr_record m false false, e).
Proof.
  intros H. unfold shr_fexp, shr.
  destruct (fexp prec emax (Zdigits2 m + e) - e) as [| p | p] eqn:En; [reflexivity | lia | reflexivity].
Qed.

(** ** Comparison of two positive finite numbers *)

Lemma SFleb_finite m1 e1 m2 e2 :
  SFleb (S754_finite false m1 e1) (S754_finite false m2 e2) = true
  <-> e1 < e2 \/ (e1 = e2 /\ Zpos m1 <= Zpos m2).
Proof.
  unfold SFleb, SFcompare.
  change (PosDef.Pos.compare_cont Eq m1 m2) with (Pos.compare m1 m2).
  destruct (Z.compare_spec e1 e2) as [E | E | E];
    [destruct (Pos.compare_spec m1 m2) as [E' | E' | E'] | |];
    split; intros H; try reflexivity; try discriminate H; try lia.
Qed.

(** ** The rounding step never passes a representable bound *)

(** [binary_round_aux], applied to a value that is at most the normal
    number [mB * 2^eB], returns a number that is at most that. The value
    is [mx * 2^ex] when the location is exact and lies strictly between
    that and [(mx + 1) * 2^ex] otherwise. *)
Lemma round_aux_le mx ex lx (mB : positive) eB :
  0 <= mx ->
  ex <= fexp prec emax (Zdigits2 mx + ex) ->
  ex <= eB -> -1074 <= eB <= 971 ->
  2 ^ 52 <= Zpos mB < 2 ^ 53 ->
  mx + Z.b2z (inexact lx) <= Zpos mB * 2 ^ (eB - ex) ->
  SFleb (binary_round_aux prec emax false mx ex lx) (S754_finite false mB eB) = true.
Proof.
  intros Hmx Hex HexB HeB HmB Hval.
  assert (Hb : 0 <= Z.b2z (inexact lx) <= 1) by (destruct (inexact lx); cbn; lia).
  unfold binary_round_aux. rewrite (shr_fexp_spec mx ex lx Hex).
  rewrite fexp_eq in Hex.
  set (e1 := fexp prec emax (Zdigits2 mx + ex)) in *.
  assert (He1def : e1 = Z.max (Zdigits2 mx + ex - 53) (-1074)) by reflexivity.
  clearbody e1.
  assert (He1 : e1 <= eB).
  { rewrite He1def. apply Z.max_lub; [| lia].
    destruct (Z.eq_dec mx 0) as [-> | Hne]; [cbn; lia |].
    destruct (Zdigits2_bounds mx ltac:(lia)) as [Hlo _].
    assert (Hp : 0 < 2 ^ (eB - ex)) by (apply Z.pow_pos_nonneg; lia).
    assert (Hlt : 2 ^ (Zdigits2 mx - 1) < 2 ^ (53 + (eB - ex))).
    { rewrite Z.pow_add_r by lia. nia. }
    apply Z.pow_lt_mono_r_iff in Hlt; lia. }
  set (n := Z.to_nat (e1 - ex)).
  assert (Hn : Z.of_nat n = e1 - ex) by (unfold n; rewrite Z2Nat.id; lia).
  assert (Hpn : 0 < 2 ^ Z.of_nat n) by (apply Z.pow_pos_nonneg; lia).
  destruct (shr_iter_le n (shr_record_of_loc mx lx) (Zpos mB * 2 ^ (eB - e1)))
    as (H0 & Hlow & Hup).
  { now rewrite shr_record_of_loc_m. }
  { rewrite shr_record_of_loc_m, shr_record_of_loc_inexact, Hn, <- Z.mul_assoc,
      <- Z.pow_add_r by lia.
    replace (eB - e1 + (e1 - ex)) with (eB - ex) by lia. exact Hval. }
  rewrite shr_record_of_loc_m in Hlow.
  set (mrs' := Nat.iter n shr_1 (shr_record_of_loc mx lx)) in *.
  pose proof (rne_bounds mrs') as Hrne.
  assert (Hb' : Z.b2z (shr_r mrs' || shr_s mrs') <= 1)
    by (destruct (shr_r mrs' || shr_s mrs')%bool; cbn; lia).
  set (m1 := round_nearest_even (shr_m mrs') (loc_of_shr_record mrs')) in *.
  clearbody m1.
  assert (Hm53 : shr_m mrs' < 2 ^ 53).
  { destruct (Z.eq_dec mx 0) as [E0 | Hne]; [nia |].
    destruct (Zdigits2_bounds mx ltac:(lia)) as [_ Hhi].
    assert (Hle : 2 ^ Zdigits2 mx <= 2 ^ (53 + Z.of_nat n)) by (apply Z.pow_le_mono_r; lia).
    rewrite Z.pow_add_r in Hle by lia. nia. }
  destruct (Z.eq_dec m1 (2 ^ 53)) as [E53 | Hne53].
  - assert (He1lt : e1 < eB).
    { destruct (Z.eq_dec e1 eB) as [E | E]; [exfalso | lia].
      rewrite E, Z.sub_diag in Hup. change (2 ^ 0) with 1 in Hup. lia. }
    rewrite E53.
    replace (shr_fexp prec emax (2 ^ 53) e1 loc_Exact)
      with (Build_shr_record (2 ^ 52) false false, e1 + 1).
    2:{ unfold shr_fexp, shr. change (Zdigits2 (2 ^ 53)) with 54. rewrite fexp_eq.
        replace (Z.max (54 + e1 - 53) (-1074) - e1) with 1 by lia. reflexivity. }
    cbn [shr_m]. change (2 ^ 52) with (Zpos (2 ^ 52)).
    change (emax - prec) with 971.
    destruct (Z.leb_spec (e1 + 1) 971) as [_ | Hbad]; [| lia].
    apply SFleb_finite. change (Zpos (2 ^ 52)) with (2 ^ 52). lia.
  - rewrite shr_fexp_id.
    2:{ rewrite fexp_eq. assert (Zdigits2 m1 <= 53) by (apply Zdigits2_le; lia). lia. }
    cbn [shr_m]. destruct m1 as [| p | p]; [reflexivity | | lia].
    change (emax - prec) with 971.
    destruct (Z.leb_spec e1 971) as [_ | Hbad]; [| lia].
    apply SFleb_finite.
    destruct (Z.eq_dec e1 eB) as [E | E]; [right | lia].
    rewrite E, Z.sub_diag in Hup. change (2 ^ 0) with 1 in Hup. lia.
Qed.

(** ** Valid numbers and their values *)

Ltac pow_consts :=
  change (2 ^ 53) with 9007199254740992 in *;
  change (2 ^ 52) with 4503599627370496 in *.

Lemma bounded_bounds m e :
  bounded prec emax m e = true ->
  Zpos m < 2 ^ 53 /\ -1074 <= e <= 971 /\ (-1074 < e -> 2 ^ 52 <= Zpos m).
Proof.
  unfold bounded, canonical_mantissa. rewrite fexp_eq. change (emax - prec) with 971.
  intros H. apply Bool.andb_true_iff in H. destruct H as [Hc He].
  apply Z.eqb_eq in Hc. apply Z.leb_le in He.
  destruct (digits2_pos_bounds m) as [Hlo Hhi].
  set (d := Zpos (digits2_pos m)) in *.
  assert (Hd : d <= 53) by lia.
  assert (2 ^ d <= 2 ^ 53) by (apply Z.pow_le_mono_r; lia).
  split; [lia |]. split; [lia |].
  intros Hgt. replace (d - 1) with 52 in Hlo by lia. exact Hlo.
Qed.

Lemma Prim2SF_bounded x s m e :
  Prim2SF x = S754_finite s m e -> bounded prec emax m e = true.
Proof. intros E. pose proof (Prim2SF_valid x) as H. rewrite E in H. exact H. Qed.

(** The order of two valid positive numbers is the order of their values. *)
Lemma SFleb_value m1 e1 m2 e2 :
  bounded prec emax m1 e1 = true -> bounded prec emax m2 e2 = true ->
  SFleb (S754_finite false m1 e1) (S754_finite false m2 e2) = true ->
  e1 <= e2 /\ Zpos m1 <= Zpos m2 * 2 ^ (e2 - e1).
Proof.
  intros H1 H2 Hle. apply bounded_bounds in H1, H2. apply SFleb_finite in Hle.
  destruct H1 as (Hm1 & He1 & _), H2 as (Hm2 & He2 & Hn2).
  destruct Hle as [Hlt | [-> Hm]].
  - split; [lia |]. specialize (Hn2 ltac:(lia)).
    assert (Hp : 2 ^ 1 <= 2 ^ (e2 - e1)) by (apply Z.pow_le_mono_r; lia).
    change (2 ^ 1) with 2 in Hp. pow_consts. nia.
  - split; [lia |]. rewrite Z.sub_diag. change (2 ^ 0) with 1. lia.
Qed.

(** ** Division *)

Lemma SFdiv_core_spec m1 e1 m2 e2 :
  let e' := Z.min (fexp prec emax (Zdigits2 (Zpos m1) + e1 - (Zdigits2 (Zpos m2) + e2)))
                  (e1 - e2) in
  let m' := Zpos m1 * 2 ^ (e1 - e2 - e') in
  SFdiv_core_binary prec emax (Zpos m1) e1 (Zpos m2) e2
  = (m' / Zpos m2, e', new_location (Zpos m2) (m' mod Zpos m2)).
Proof.
  cbv zeta. unfold SFdiv_core_binary. cbv zeta.
  change IntDef.Z.min with Z.min. change IntDef.Z.shiftl with Z.shiftl.
  change IntDef.Z.div_eucl with Z.div_eucl.
  set (e' := Z.min _ (e1 - e2)).
  assert (Hs : 0 <= e1 - e2 - e') by (unfold e'; lia).
  set (s := e1 - e2 - e') in *.
  replace (match s with 0 => Zpos m1 | Zpos _ => Z.shiftl (Zpos m1) s | Zneg _ => 0 end)
    with (Zpos m1 * 2 ^ s).
  2:{ destruct s as [| p | p] eqn:Es; [change (2 ^ 0) with 1; lia | | lia].
      now rewrite Z.shiftl_mul_pow2 by lia. }
  unfold Z.div, Z.modulo. now destruct (Z.div_eucl (Zpos m1 * 2 ^ s) (Zpos m2)).
Qed.



(** ** Multiplication by a normal constant *)


(** ** Integers as floats *)

Lemma pos_iter_xO d : forall p, Zpos (Pos.iter xO p d) = Zpos p * 2 ^ Zpos d.
Proof.
  induction d as [| d IH] using Pos.peano_ind; intros p.
  - cbn [Pos.iter]. rewrite (Pos2Z.inj_xO p). change (2 ^ 1) with 2. lia.
  - rewrite Pos.iter_succ, (Pos2Z.inj_xO (Pos.iter xO p d)), IH, Pos2Z.inj_succ,
      Z.pow_succ_r by lia. lia.
Qed.

(** A normal mantissa with an exact location is returned as it is. *)
Lemma binary_round_aux_exact s (m : positive) e :
  2 ^ 52 <= Zpos m < 2 ^ 53 -> -1074 <= e <= 971 ->
  binary_round_aux prec emax s (Zpos m) e loc_Exact = S754_finite s m e.
Proof.
  intros Hm He.
  assert (Hd : Zdigits2 (Zpos m) = 53).
  { apply Z.le_antisymm; [apply Zdigits2_le; lia | apply Zdigits2_ge; [lia | exact (proj1 Hm)]]. }
  unfold binary_round_aux.
  rewrite shr_fexp_id by (rewrite fexp_eq, Hd; lia).
  cbn [shr_m shr_r shr_s loc_of_shr_record round_nearest_even].
  rewrite shr_fexp_id by (rewrite fexp_eq, Hd; lia).
  cbn [shr_m]. change (emax - prec) with 971.
  destruct (Z.leb_spec e 971); [reflexivity | lia].
Qed.


(** [float(z)] is exact for a positive [z] below [2^53]. *)
Lemma of_int_pos z :
  0 < z < 2 ^ 53 ->
  exists m, Prim2SF (PyFloat.of_int z) = S754_finite false m (Zdigits2 z - 53) /\
            Zpos m = z * 2 ^ (53 - Zdigits2 z) /\ 2 ^ 52 <= Zpos m < 2 ^ 53.
Proof.
  intros Hz. unfold PyFloat.of_int.
  destruct (Z.ltb_spec z 0) as [Hneg | _]; [lia |].
  rewrite of_uint63_spec, Uint63.of_Z_spec, Z.mod_small.
  2:{ change wB with 9223372036854775808. pow_consts. lia. }
  destruct z as [| p | p]; [lia | | lia].
  cbn [binary_normalize Zdigits2]. unfold binary_round.
  destruct (digits2_pos_bounds p) as [Hlo Hhi].
  assert (Hd53 : Zdigits2 (Zpos p) <= 53) by (apply Zdigits2_le; lia).
  cbn [Zdigits2] in Hd53.
  set (d := Zpos (digits2_pos p)) in *.
  assert (Hd1 : 1 <= d) by (unfold d; lia).
  rewrite fexp_eq. replace (Z.max (d + 0 - 53) (-1074)) with (d - 53) by lia.
  assert (Hal : exists mz, shl_align p 0 (d - 53) = (mz, d - 53)
                           /\ Zpos mz = Zpos p * 2 ^ (53 - d)).
  { unfold shl_align. destruct (d - 53 - 0) as [| q | q] eqn:E.
    - exists p. split; [f_equal; lia |].
      replace (53 - d) with 0 by lia. change (2 ^ 0) with 1. lia.
    - lia.
    - exists (Pos.iter xO p q). split; [reflexivity |].
      rewrite pos_iter_xO. f_equal. f_equal. lia. }
  destruct Hal as (mz & -> & Hmz).
  assert (Hrange : 2 ^ 52 <= Zpos mz < 2 ^ 53).
  { rewrite Hmz.
    assert (H52 : 2 ^ 52 = 2 ^ (d - 1) * 2 ^ (53 - d))
      by (rewrite <- Z.pow_add_r by lia; f_equal; lia).
    assert (H53 : 2 ^ 53 = 2 ^ d * 2 ^ (53 - d))
      by (rewrite <- Z.pow_add_r by lia; f_equal; lia).
    assert (0 < 2 ^ (53 - d)) by (apply Z.pow_pos_nonneg; lia).
    rewrite H52, H53. nia. }
  exists mz. rewrite binary_round_aux_exact by (try exact Hrange; lia). auto.
Qed.


(** ** The same bounds on primitive floats *)

Lemma Prim2SF_one : Prim2SF 1%float = S754_finite false 4503599627370496 (-52).
Proof. reflexivity. Qed.

Lemma leb_zero_finite_nonneg x :
  finite_nonneg (Prim2SF x) = true -> PrimFloat.leb 0 x = true.
Proof.
  rewrite FloatAxioms.leb_spec, Prim2SF_zero.
  destruct (Prim2SF x) as [s | s | | [|] m e]; cbn; intros H;
    first [reflexivity | discriminate H].
Qed.

Lemma between_intro x w :
  finite_nonneg (Prim2SF x) = true -> PrimFloat.leb x w = true -> between x w = true.
Proof.
  intros Hx Hle. unfold between. now rewrite (leb_zero_finite_nonneg x Hx), Hle.
Qed.

(** A rounded result that carries no minus sign and is at most a finite
    number is zero or a positive finite number. *)
Lemma finite_nonneg_of_le r mB eB :
  not_negative r = true -> SFleb r (S754_finite false mB eB) = true ->
  finite_nonneg r = true.
Proof.
  destruct r as [[|] | [|] | | [|] m e]; cbn; intros Hs Hle;
    first [reflexivity | discriminate Hs | discriminate Hle].
Qed.




(** ** Rounding to decimals *)

Lemma rhe_le n d N : 0 < d -> 2 * n < (2 * N + 1) * d -> PyFloat.rhe n d <= N.
Proof.
  intros Hd Hn. unfold PyFloat.rhe.
  pose proof (Z.div_mod n d ltac:(lia)) as Hdm.
  pose proof (Z.mod_pos_bound n d Hd) as Hmod.
  destruct (Z.compare_spec (2 * (n mod d)) d) as [E | E | E];
    [destruct (Z.even (n / d)) | |]; nia.
Qed.

(** [round(x, nd) <= w] when [0 <= x <= w], for a constant [w] below one
    for which the finitely many candidates have been checked. *)
Lemma round_le_const x w mw ew nd N :
  Prim2SF w = S754_finite false mw ew -> ew < 0 -> 0 <= nd ->
  2 * Zpos mw * 10 ^ nd < (2 * Z.of_nat N + 1) * 2 ^ (- ew) ->
  Z.of_nat N < 2 ^ 53 ->
  all_rounded_le w nd N = true ->
  finite_nonneg (Prim2SF x) = true -> PrimFloat.leb x w = true ->
  finite_nonneg (Prim2SF (PyFloat.round x nd)) = true /\
  PrimFloat.leb (PyFloat.round x nd) w = true.
Proof.
  intros Ew Hew Hnd Hcheck HN Hall Hx Hle.
  unfold PyFloat.round.
  destruct (Prim2SF x) as [s | s | | [|] m e] eqn:Ex; try discriminate Hx.
  - rewrite Ex. split; [reflexivity | exact Hle].
  - pose proof Hle as Hle'. rewrite FloatAxioms.leb_spec, Ex, Ew in Hle'.
    destruct (SFleb_value _ _ _ _ (Prim2SF_bounded x _ _ _ Ex) (Prim2SF_bounded w _ _ _ Ew) Hle')
      as [He Hval].
    assert (H0 : 0 <= PyFloat.scaled m e nd) by now apply scaled_nonneg.
    assert (HleN : PyFloat.scaled m e nd <= Z.of_nat N).
    { unfold PyFloat.scaled. destruct (Z.leb_spec 0 e) as [Hbad | _]; [lia |].
      assert (Hp : 0 < 2 ^ (- e)) by (apply Z.pow_pos_nonneg; lia).
      apply rhe_le; [exact Hp |].
      assert (Hsplit : 2 ^ (- e) = 2 ^ (- ew) * 2 ^ (ew - e))
        by (rewrite <- Z.pow_add_r by lia; f_equal; lia).
      assert (H10 : 0 < 10 ^ nd) by (apply Z.pow_pos_nonneg; lia).
      assert (Hpe : 0 < 2 ^ (ew - e)) by (apply Z.pow_pos_nonneg; lia).
      rewrite Hsplit. nia. }
    destruct (Z.ltb_spec (PyFloat.scaled m e nd) (2 ^ 53)) as [_ | Hbad]; [| lia].
    set (n := PyFloat.scaled m e nd) in *.
    assert (Hr : PrimFloat.leb (PyFloat.of_int n / PyFloat.of_int (10 ^ nd)) w = true).
    { unfold all_rounded_le in Hall. rewrite List.forallb_forall in Hall.
      specialize (Hall (Z.to_nat n)). rewrite Z2Nat.id in Hall by lia.
      apply Hall. apply List.in_seq. lia. }
    split; [| exact Hr].
    rewrite FloatAxioms.leb_spec, Ew in Hr.
    refine (finite_nonneg_of_le _ _ _ _ Hr).
    rewrite FloatAxioms.div_spec. apply SFdiv_sign; apply of_int_sign; [lia |].
    apply Z.pow_nonneg. lia.
Qed.

(** ** The order on zero and the positive finite numbers *)

Lemma SFltb_finite m1 e1 m2 e2 :
  SFltb (S754_finite false m1 e1) (S754_finite false m2 e2) = true
  <-> e1 < e2 \/ (e1 = e2 /\ Zpos m1 < Zpos m2).
Proof.
  unfold SFltb, SFcompare.
  change (PosDef.Pos.compare_cont Eq m1 m2) with (Pos.compare m1 m2).
  destruct (Z.compare_spec e1 e2) as [E | E | E];
    [destruct (Pos.compare_spec m1 m2) as [E' | E' | E'] | |];
    split; intros H; try reflexivity; try discriminate H; try lia.
Qed.

Lemma leb_refl_fn x : finite_nonneg (Prim2SF x) = true -> PrimFloat.leb x x = true.
Proof.
  rewrite FloatAxioms.leb_spec.
  destruct (Prim2SF x) as [s | s | | [|] m e]; intros H; try discriminate H; [reflexivity |].
  apply SFleb_finite. right. lia.
Qed.

Lemma leb_trans_fn a b c :
  finite_nonneg (Prim2SF a) = true -> finite_nonneg (Prim2SF b) = true ->
  finite_nonneg (Prim2SF c) = true ->
  PrimFloat.leb a b = true -> PrimFloat.leb b c = true -> PrimFloat.leb a c = true.
Proof.
  rewrite !FloatAxioms.leb_spec.
  destruct (Prim2SF a) as [sa | sa | | [|] ma ea]; intros Ha; try discriminate Ha;
  destruct (Prim2SF b) as [sb | sb | | [|] mb eb]; intros Hb; try discriminate Hb;
  destruct (Prim2SF c) as [sc | sc | | [|] mc ec]; intros Hc; try discriminate Hc;
    intros Hab Hbc; try reflexivity; try discriminate Hab; try discriminate Hbc.
  apply SFleb_finite in Hab, Hbc. apply SFleb_finite. lia.
Qed.

(** [max(a, b)] is one of the two and not below either. *)
Lemma max2_fn a b :
  finite_nonneg (Prim2SF a) = true -> finite_nonneg (Prim2SF b) = true ->
  finite_nonneg (Prim2SF (PyFloat.max2 a b)) = true /\
  PrimFloat.leb a (PyFloat.max2 a b) = true /\ PrimFloat.leb b (PyFloat.max2 a b) = true.
Proof.
  intros Ha Hb. unfold PyFloat.max2.
  destruct (PrimFloat.ltb a b) eqn:Hlt.
  - split; [exact Hb |]. split; [| now apply leb_refl_fn].
    rewrite FloatAxioms.ltb_spec in Hlt. rewrite FloatAxioms.leb_spec.
    unfold SFltb in Hlt. unfold SFleb. now destruct (SFcompare _ _) as [[| |] |].
  - split; [exact Ha |]. split; [now apply leb_refl_fn |].
    rewrite FloatAxioms.ltb_spec in Hlt. rewrite FloatAxioms.leb_spec.
    destruct (Prim2SF a) as [sa | sa | | [|] ma ea]; try discriminate Ha;
    destruct (Prim2SF b) as [sb | sb | | [|] mb eb]; try discriminate Hb;
      try reflexivity; try discriminate Hlt.
    apply SFleb_finite.
    assert (Hn : ~ (ea < eb \/ (ea = eb /\ Zpos ma < Zpos mb))).
    { intros H. apply SFltb_finite in H. congruence. }
    lia.
Qed.

Lemma fold_max2_fn r : forall x,
  finite_nonneg (Prim2SF x) = true ->
  (forall y, In y r -> finite_nonneg (Prim2SF y) = true) ->
  finite_nonneg (Prim2SF (fold_left PyFloat.max2 r x)) = true /\
  (forall y, In y (x :: r) -> PrimFloat.leb y (fold_left PyFloat.max2 r x) = true).
Proof.
  induction r as [| z r IH]; intros x Hx Hr; cbn [fold_left].
  - split; [exact Hx |]. intros y [<- | []]. now apply leb_refl_fn.
  - destruct (max2_fn x z Hx (Hr z (or_introl eq_refl))) as (Hm & Hxm & Hzm).
    destruct (IH (PyFloat.max2 x z) Hm (fun y Hy => Hr y (or_intror Hy))) as (HF & Hall).
    split; [exact HF |].
    assert (Hmax : PrimFloat.leb (PyFloat.max2 x z) (fold_left PyFloat.max2 r (PyFloat.max2 x z))
                   = true) by (apply Hall; now left).
    intros y [<- | [<- | Hy]].
    + exact (leb_trans_fn _ _ _ Hx Hm HF Hxm Hmax).
    + exact (leb_trans_fn _ _ _ (Hr _ (or_introl eq_refl)) Hm HF Hzm Hmax).
    + apply Hall. now right.
Qed.

(** ** Square roots, finiteness and clamping *)

Lemma sqrt_not_below_zero x : PrimFloat.ltb (PrimFloat.sqrt x) 0 = false.
Proof.
  rewrite FloatAxioms.ltb_spec, FloatAxioms.sqrt_spec, Prim2SF_zero. unfold SF64sqrt, SFsqrt.
  destruct (Prim2SF x) as [s | [|] | | [|] m e]; try reflexivity.
  destruct (SFsqrt_core_binary prec emax (Zpos m) e) as [[mz ez] lz].
  pose proof (binary_round_aux_sign mz ez lz) as Hs.
  destruct (binary_round_aux prec emax false mz ez lz) as [[|] | [|] | | [|] m' e'];
    first [reflexivity | discriminate Hs].
Qed.



(** ** The three constants of the risk score *)



Lemma round4_le_one x :
  finite_nonneg (Prim2SF x) = true -> PrimFloat.leb x 1 = true ->
  between (PyFloat.round x 4) 1 = true.
Proof.
  intros Hx Hle.
  assert (Hw : Prim2SF 1%float = S754_finite false 4503599627370496 (-52)) by (vm_compute; reflexivity).
  assert (Hc : 2 * Zpos 4503599627370496 * 10 ^ 4 < (2 * Z.of_nat 10000 + 1) * 2 ^ (- (-52)))
    by (vm_compute; reflexivity).
  assert (HN : Z.of_nat 10000 < 2 ^ 53) by (vm_compute; reflexivity).
  assert (Hall : all_rounded_le 1%float 4 10000 = true) by (vm_compute; reflexivity).
  destruct (round_le_const x _ _ _ 4 _ Hw ltac:(lia) ltac:(lia) Hc HN Hall Hx Hle) as [Hf Hr].
  now apply between_intro.
Qed.

End FloatBounds.

(* ===================================================================== *)
(** * The divisors of the engine *)
(* ===================================================================== *)

Module DivisorFacts.

Import DataCleaner RiskEngine Views FloatFacts FloatBounds.

Lemma shr_1_ge mrs :
  0 <= shr_m mrs -> 0 <= shr_m (shr_1 mrs) /\ shr_m mrs <= 2 * shr_m (shr_1 mrs) + 1.
Proof.
  destruct mrs as [m r s]. cbn [shr_m].
  destruct m as [| [p | p |] | p]; intros Hm; [| | | | lia]; cbn [shr_1 shr_m];
    try rewrite (Pos2Z.inj_xI p); try rewrite (Pos2Z.inj_xO p); lia.
Qed.

Lemma shr_iter_ge n : forall mrs,
  0 <= shr_m mrs ->
  0 <= shr_m (Nat.iter n shr_1 mrs) /\
  shr_m mrs < (shr_m (Nat.iter n shr_1 mrs) + 1) * 2 ^ Z.of_nat n.
Proof.
  induction n as [| n IH]; intros mrs Hm.
  - cbn [Nat.iter nat_rect]. change (2 ^ Z.of_nat 0) with 1. lia.
  - rewrite Nat2Z.inj_succ, Z.pow_succ_r by lia.
    change (Nat.iter (S n) shr_1 mrs) with (shr_1 (Nat.iter n shr_1 mrs)).
    destruct (IH mrs Hm) as [H0 Hlt].
    destruct (shr_1_ge _ H0) as [H1 Hle].
    split; [exact H1 |].
    assert (Hp : 0 < 2 ^ Z.of_nat n) by (apply Z.pow_pos_nonneg; lia). nia.
Qed.

(** A value that is at least one step of the grid it is rounded to is
    not rounded to zero. *)
Lemma round_aux_not_zero s mx ex :
  0 < mx -> ex <= fexp prec emax (Zdigits2 mx + ex) ->
  2 ^ (fexp prec emax (Zdigits2 mx + ex) - ex) <= mx ->
  match binary_round_aux prec emax s mx ex loc_Exact with
  | S754_finite _ _ _ | S754_infinity _ => True
  | _ => False
  end.
Proof.
  intros Hmx Hex Hge.
  unfold binary_round_aux. rewrite (shr_fexp_spec mx ex loc_Exact Hex).
  rewrite fexp_eq in Hex, Hge.
  set (e1 := fexp prec emax (Zdigits2 mx + ex)) in *.
  assert (He1def : e1 = Z.max (Zdigits2 mx + ex - 53) (-1074)) by reflexivity.
  rewrite <- He1def in Hex, Hge. clearbody e1.
  set (n := Z.to_nat (e1 - ex)).
  assert (Hn : Z.of_nat n = e1 - ex) by (unfold n; rewrite Z2Nat.id; lia).
  assert (Hpn : 0 < 2 ^ Z.of_nat n) by (apply Z.pow_pos_nonneg; lia).
  destruct (shr_iter_ge n (shr_record_of_loc mx loc_Exact)) as [H0 Hlt].
  { rewrite shr_record_of_loc_m. lia. }
  destruct (shr_iter_le n (shr_record_of_loc mx loc_Exact) mx) as (_ & Hlow & _).
  { rewrite shr_record_of_loc_m. lia. }
  { rewrite shr_record_of_loc_m, shr_record_of_loc_inexact. cbn [inexact Z.b2z]. nia. }
  rewrite shr_record_of_loc_m in Hlt, Hlow. rewrite Hn in Hlt, Hlow.
  set (mrs' := Nat.iter n shr_1 (shr_record_of_loc mx loc_Exact)) in *.
  assert (Ha : 1 <= shr_m mrs') by nia.
  pose proof (rne_bounds mrs') as Hrne.
  assert (Hb' : Z.b2z (shr_r mrs' || shr_s mrs') <= 1)
    by (destruct (shr_r mrs' || shr_s mrs')%bool; cbn; lia).
  assert (Hm53 : shr_m mrs' < 2 ^ 53).
  { destruct (Zdigits2_bounds mx Hmx) as [_ Hhi].
    assert (Hle : 2 ^ Zdigits2 mx <= 2 ^ (53 + (e1 - ex))) by (apply Z.pow_le_mono_r; lia).
    rewrite Z.pow_add_r in Hle by lia. rewrite Hn in Hpn. nia. }
  set (m1 := round_nearest_even (shr_m mrs') (loc_of_shr_record mrs')) in *.
  clearbody m1.
  destruct (Z.eq_dec m1 (2 ^ 53)) as [E53 | Hne53].
  - rewrite E53.
    replace (shr_fexp prec emax (2 ^ 53) e1 loc_Exact)
      with (Build_shr_record (2 ^ 52) false false, e1 + 1).
    2:{ unfold shr_fexp, shr. change (Zdigits2 (2 ^ 53)) with 54. rewrite fexp_eq.
        replace (Z.max (54 + e1 - 53) (-1074) - e1) with 1 by lia. reflexivity. }
    cbn [shr_m]. change (2 ^ 52) with (Zpos (2 ^ 52)).
    destruct (e1 + 1 <=? emax - prec); exact I.
  - rewrite shr_fexp_id.
    2:{ rewrite fexp_eq. assert (Zdigits2 m1 <= 53) by (apply Zdigits2_le; lia). lia. }
    cbn [shr_m]. destruct m1 as [| p | p]; [lia | | lia].
    destruct (e1 <=? emax - prec); exact I.
Qed.

(** Twice a positive number is not zero. *)
Lemma double_not_zero x :
  PrimFloat.ltb 0 x = true -> PrimFloat.eqb (x * 2)%float 0 = false.
Proof.
  intros Hpos. rewrite FloatAxioms.ltb_spec, Prim2SF_zero in Hpos.
  rewrite FloatAxioms.eqb_spec, Prim2SF_zero, FloatAxioms.mul_spec. unfold SF64mul.
  change (Prim2SF 2) with (S754_finite false 4503599627370496 (-51)).
  destruct (Prim2SF x) as [s | [|] | | [|] m e] eqn:Ex; try discriminate Hpos;
    [reflexivity |].
  cbn [SFmul xorb].
  destruct (bounded_bounds _ _ (Prim2SF_bounded x _ _ _ Ex)) as (Hm & He & _).
  assert (Hprod : 2 ^ 52 <= Zpos (m * 4503599627370496)).
  { rewrite Pos2Z.inj_mul. pow_consts. lia. }
  assert (Hd : 53 <= Zdigits2 (Zpos (m * 4503599627370496)))
    by (apply Zdigits2_ge; [lia | exact Hprod]).
  assert (H := round_aux_not_zero false (Zpos (m * 4503599627370496)) (e + -51)).
  rewrite fexp_eq in H.
  set (d := Zdigits2 (Zpos (m * 4503599627370496))) in *.
  assert (Hlo : 2 ^ (d - 1) <= Zpos (m * 4503599627370496)).
  { apply (Zdigits2_bounds (Zpos (m * 4503599627370496))). lia. }
  specialize (H ltac:(lia) ltac:(lia)).
  assert (Hgrid : 2 ^ (Z.max (d + (e + -51) - 53) (-1074) - (e + -51))
                  <= Zpos (m * 4503599627370496)).
  { destruct (Z.max_spec (d + (e + -51) - 53) (-1074)) as [[_ ->] | [_ ->]].
    - apply Z.le_trans with (2 ^ 52); [apply Z.pow_le_mono_r; lia | exact Hprod].
    - apply Z.le_trans with (2 ^ (d - 1)); [apply Z.pow_le_mono_r; lia | exact Hlo]. }
  specialize (H Hgrid).
  destruct (binary_round_aux prec emax false (Zpos (m * 4503599627370496)) (e + -51) loc_Exact)
    as [s' | [|] | | [|] m' e']; first [reflexivity | contradiction].
Qed.

Lemma of_int_not_zero n : 0 < n < 2 ^ 53 -> PyFloat.truthy (PyFloat.of_int n) = true.
Proof.
  intros Hn. unfold PyFloat.truthy. rewrite FloatAxioms.eqb_spec, Prim2SF_zero.
  destruct (of_int_pos n Hn) as (m & -> & _). reflexivity.
Qed.

End DivisorFacts.


(* ===================================================================== *)
(** * The revenue statistics *)
(* ===================================================================== *)

Module RevenueFacts.

Import DataCleaner RiskEngine Views PyDictFacts FloatFacts FloatBounds.

Lemma fold_left_map_add (f : float -> float) l a :
  fold_left (fun acc x => PrimFloat.add acc (f x)) l a = fold_left PrimFloat.add (map f l) a.
Proof. revert a. induction l as [| x l IH]; intros a; cbn; [reflexivity | apply IH]. Qed.

Lemma float_div_int_length (a : float) (values : list float) :
  values <> [] ->
  float_div_int a (Z.of_nat (length values))
  = Return (PrimFloat.div a (PyFloat.of_int (Z.of_nat (length values)))).
Proof.
  intros Hne. unfold float_div_int.
  destruct (Z.eqb_spec (Z.of_nat (length values)) 0) as [E | _]; [| reflexivity].
  destruct values; [congruence | cbn [length] in E; lia].
Qed.

(** The loop of [_compute_manual_variance] computes the population
    variance as the specification words it. *)
Lemma manual_variance_spec values :
  values <> [] ->
  _compute_manual_variance values =
    bind (math_sqrt (population_variance values))
         (fun std_dev => Return (population_variance values, std_dev)).
Proof.
  intros Hne. unfold _compute_manual_variance.
  destruct values as [| v vs]; [congruence |].
  set (l := v :: vs) in *. cbv zeta.
  rewrite (float_div_int_length _ l Hne). cbn [bind].
  rewrite (float_div_int_length _ l Hne). cbn [bind].
  unfold population_variance, mean_of, PyFloat.sum.
  rewrite (fold_left_map_add
             (fun x => PrimFloat.mul
                         (PrimFloat.sub x (PrimFloat.div (fold_left PrimFloat.add l 0%float)
                                             (PyFloat.of_int (Z.of_nat (length l)))))
                         (PrimFloat.sub x (PrimFloat.div (fold_left PrimFloat.add l 0%float)
                                             (PyFloat.of_int (Z.of_nat (length l))))))).
  reflexivity.
Qed.

(** ** The variance is not below zero *)

Lemma mul_self_sign d : not_negative (Prim2SF (d * d)%float) = true.
Proof.
  rewrite FloatAxioms.mul_spec. unfold SF64mul.
  destruct (Prim2SF d) as [[|] | [|] | | [|] m e]; try reflexivity;
    cbn [SFmul xorb]; apply binary_round_aux_sign.
Qed.

Lemma add_sign a b :
  not_negative (Prim2SF a) = true -> not_negative (Prim2SF b) = true ->
  not_negative (Prim2SF (a + b)%float) = true.
Proof.
  rewrite FloatAxioms.add_spec. unfold SF64add.
  destruct (Prim2SF a) as [[|] | [|] | | [|] ma ea]; intros Ha; try discriminate Ha;
  destruct (Prim2SF b) as [[|] | [|] | | [|] mb eb]; intros Hb; try discriminate Hb;
    try reflexivity.
  cbn [SFadd cond_Zopp]. apply binary_normalize_sign. lia.
Qed.

Lemma sum_squares_sign mean values : forall acc,
  not_negative (Prim2SF acc) = true ->
  not_negative
    (Prim2SF (fold_left (fun acc value => acc + (value - mean) * (value - mean))%float
                        values acc)) = true.
Proof.
  induction values as [| v values IH]; intros acc Hacc; cbn [fold_left]; [exact Hacc |].
  apply IH. apply add_sign; [exact Hacc | apply mul_self_sign].
Qed.

Lemma population_variance_sign values :
  PrimFloat.ltb (population_variance values) 0 = false.
Proof.
  unfold population_variance, PyFloat.sum.
  rewrite <- (fold_left_map_add
                (fun x => PrimFloat.mul (PrimFloat.sub x (mean_of values))
                                        (PrimFloat.sub x (mean_of values)))).
  apply not_negative_ltb. rewrite FloatAxioms.div_spec. apply SFdiv_sign.
  - apply sum_squares_sign. reflexivity.
  - apply of_int_sign. lia.
Qed.

(** So the square root is defined, and the function returns. *)
Lemma manual_variance_value values :
  values <> [] ->
  _compute_manual_variance values
  = Return (population_variance values, PrimFloat.sqrt (population_variance values)).
Proof.
  intros Hne. rewrite (manual_variance_spec values Hne).
  unfold math_sqrt, bind. now rewrite population_variance_sign.
Qed.


(** The divisor of the stability score is never zero: twice a positive
    mean is not zero, not even for the smallest positive number. *)
Lemma stability_spec mean std : stability mean std = Return (stability_formula mean std).
Proof.
  unfold stability, stability_formula, float_div, bind. cbv zeta.
  destruct (PrimFloat.ltb 0 mean) eqn:Hpos.
  - rewrite (DivisorFacts.double_not_zero _ Hpos). reflexivity.
  - reflexivity.
Qed.

(** The metric of a zone with fares, in the words of the
    specification. *)
Lemma zone_revenue_metric_spec zone fares :
  fares <> [] ->
  zone_revenue_metric zone fares
  = bind (math_sqrt (population_variance fares))
      (fun std_dev =>
         Return (mkZRM zone (PyFloat.round (mean_of fares) 2)
                   (PyFloat.round (population_variance fares) 2)
                   (PyFloat.round std_dev 2)
                   (PyFloat.round (stability_formula (mean_of fares) std_dev) 4))).
Proof.
  intros Hne. unfold zone_revenue_metric.
  rewrite (float_div_int_length _ fares Hne). cbn [bind].
  rewrite (manual_variance_spec fares Hne). unfold bind.
  destruct (math_sqrt (population_variance fares)) as [std_dev |]; [| reflexivity].
  rewrite stability_spec. reflexivity.
Qed.

Lemma zone_revenue_metric_value zone fares :
  fares <> [] ->
  zone_revenue_metric zone fares
  = Return (mkZRM zone (PyFloat.round (mean_of fares) 2)
              (PyFloat.round (population_variance fares) 2)
              (PyFloat.round (PrimFloat.sqrt (population_variance fares)) 2)
              (PyFloat.round (stability_formula (mean_of fares)
                                (PrimFloat.sqrt (population_variance fares))) 4)).
Proof.
  intros Hne. rewrite (zone_revenue_metric_spec zone fares Hne).
  unfold math_sqrt, bind. now rewrite population_variance_sign.
Qed.

(** A zone without fares would divide by zero: the test [if not fares]
    of the second pass is what keeps the division away from it. *)
Lemma zone_revenue_metric_empty zone :
  zone_revenue_metric zone [] = Raise (ZeroDivisionError "float division by zero").
Proof. reflexivity. Qed.

Lemma fares_of_snoc zone l t :
  fares_of zone (l ++ [t])
  = fares_of zone l ++ (if bool_decide (pulocation_id t = zone) then [total_amount t] else []).
Proof.
  unfold fares_of. rewrite List.filter_app, map_app. cbn.
  now destruct (bool_decide _).
Qed.

Lemma zone_fares_snoc l t :
  zone_fares (l ++ [t])
  = let d := zone_fares l in
    PyDict.set d (pulocation_id t)
      (default [] (PyDict.get d (pulocation_id t)) ++ [total_amount t]).
Proof. unfold zone_fares. now rewrite fold_left_app. Qed.

(** After the first pass every zone holds the totals of its trips. *)
Lemma zone_fares_spec l zone :
  match PyDict.get (zone_fares l) zone with
  | Some fares => fares = fares_of zone l /\ fares <> []
  | None => fares_of zone l = []
  end.
Proof.
  induction l as [| t l IH] using rev_ind; [reflexivity |].
  rewrite zone_fares_snoc, fares_of_snoc. cbv zeta.
  destruct (decide (pulocation_id t = zone)) as [<- | Hne].
  - rewrite get_set_eq, bool_decide_eq_true_2 by reflexivity.
    destruct (PyDict.get (zone_fares l) (pulocation_id t)) as [fares |]; cbn.
    + destruct IH as [-> _]. split; [reflexivity |]. now destruct (fares_of _ l).
    + rewrite IH. split; [reflexivity | discriminate].
  - rewrite get_set_ne, bool_decide_eq_false_2 by assumption.
    rewrite app_nil_r. exact IH.
Qed.

Lemma revenue_pass_get zf zrm zone m :
  revenue_pass zf = Return zrm ->
  PyDict.get zrm zone = Some m ->
  exists fares, fares <> [] /\ zone_revenue_metric zone fares = Return m /\
                In (zone, fares) zf.
Proof.
  revert zrm. induction zf as [| [z fares] zf IH]; intros zrm Hpass Hget; cbn in Hpass.
  - injection Hpass as <-. discriminate.
  - destruct fares as [| f fs].
    + destruct (IH _ Hpass Hget) as (fares & ? & ? & ?). exists fares. cbn. auto.
    + unfold bind in Hpass.
      destruct (zone_revenue_metric z (f :: fs)) as [m0 |] eqn:Em; [| discriminate].
      destruct (revenue_pass zf) as [ms |]; [| discriminate].
      injection Hpass as <-. cbn in Hget.
      destruct (decide (zone = z)) as [-> | Hne].
      * injection Hget as <-. exists (f :: fs). cbn. split; [discriminate | auto].
      * destruct (IH _ eq_refl Hget) as (fares & ? & ? & ?). exists fares. cbn. auto.
Qed.

Lemma dict_In_get {V : Type} (d : list (Z * V)) k v :
  List.NoDup (PyDict.keys d) -> In (k, v) d -> PyDict.get d k = Some v.
Proof.
  induction d as [| [k' v'] d IH]; cbn; [tauto |].
  intros Hnd [E | Hin].
  - injection E as -> ->. destruct (decide (k = k)); congruence.
  - apply NoDup_cons_iff in Hnd. destruct Hnd as [Hnin Hnd].
    destruct (decide (k = k')) as [-> | Hne]; [| now apply IH].
    exfalso. apply Hnin. unfold PyDict.keys. apply in_map_iff. exists (k', v). auto.
Qed.

Lemma zone_fares_nodup l : List.NoDup (PyDict.keys (zone_fares l)).
Proof.
  induction l as [| t l IH] using rev_ind; [constructor |].
  rewrite zone_fares_snoc. cbv zeta. now apply NoDup_keys_set.
Qed.

Lemma revenue_pass_returns zf : exists zrm, revenue_pass zf = Return zrm.
Proof.
  induction zf as [| [z fares] zf [zrm IH]]; cbn [revenue_pass]; [eauto |].
  destruct fares as [| f fs]; [eauto |].
  rewrite zone_revenue_metric_value by discriminate.
  unfold bind. rewrite IH. eauto.
Qed.

(** A zone with fares gets its metric. *)
Lemma revenue_pass_complete zf : forall zrm z fares,
  revenue_pass zf = Return zrm -> PyDict.get zf z = Some fares -> fares <> [] ->
  exists zm, PyDict.get zrm z = Some zm /\ zone_revenue_metric z fares = Return zm.
Proof.
  induction zf as [| [z0 f0] zf IH]; intros zrm z fares Hpass Hget Hne; cbn in Hget;
    [discriminate |].
  cbn [revenue_pass] in Hpass.
  destruct (decide (z = z0)) as [-> | Hz].
  - injection Hget as ->. destruct fares as [| f fs]; [contradiction |].
    unfold bind in Hpass.
    destruct (zone_revenue_metric z0 (f :: fs)) as [zm |] eqn:Em; [| discriminate].
    destruct (revenue_pass zf) as [ms |]; [| discriminate].
    injection Hpass as <-. exists zm. cbn. destruct (decide (z0 = z0)); [auto | contradiction].
  - destruct f0 as [| f fs]; [exact (IH _ _ _ Hpass Hget Hne) |].
    unfold bind in Hpass.
    destruct (zone_revenue_metric z0 (f :: fs)) as [zm0 |]; [| discriminate].
    destruct (revenue_pass zf) as [ms |] eqn:Ems; [| discriminate].
    injection Hpass as <-. cbn. destruct (decide (z = z0)); [contradiction |].
    exact (IH _ _ _ eq_refl Hget Hne).
Qed.

(** A zone without a trip has no entry. *)
Lemma revenue_pass_none zf : forall zrm z,
  revenue_pass zf = Return zrm -> PyDict.get zf z = None -> PyDict.get zrm z = None.
Proof.
  induction zf as [| [z0 f0] zf IH]; intros zrm z Hpass Hget; cbn [revenue_pass] in Hpass.
  - injection Hpass as <-. reflexivity.
  - cbn in Hget. destruct (decide (z = z0)) as [-> | Hz]; [discriminate |].
    destruct f0 as [| f fs]; [exact (IH _ _ Hpass Hget) |].
    unfold bind in Hpass.
    destruct (zone_revenue_metric z0 (f :: fs)) as [zm0 |]; [| discriminate].
    destruct (revenue_pass zf) as [ms |] eqn:Ems; [| discriminate].
    injection Hpass as <-. cbn. destruct (decide (z = z0)); [contradiction |].
    exact (IH _ _ eq_refl Hget).
Qed.

End RevenueFacts.
Module RevenueClaims.

Import DataCleaner RiskEngine Views PyDictFacts RevenueFacts.

(** C3. The revenue statistics of a zone are the population variance of
    its totals, by two passes.  On the code: the values [10, 10, 10]
    give variance 0, standard deviation 0 and stability 1, and a zone
    with these totals is stored with them; the values [0, 10, 20] give
    mean 10, the variance 200/3 (within 0.01 of 66.67) and a standard
    deviation within 0.001 of 8.165, and a zone with these totals is
    stored with mean 10, variance 66.67, standard deviation 8.16 and
    stability 0.5918; the empty list gives (0, 0) and no exception.
    For every list that is not empty the function returns the sum of
    the squared deviations from the mean divided by the number of
    values, and its square root; the stability score is
    max(0, 1 - stddev / max_spread) with max_spread twice the mean when
    the mean is positive and 1 otherwise, and it never raises.  For
    every list of cleaned trips the second step returns; a zone without
    a trip has no entry, and a zone with trips has one, whose four
    statistics are the mean of the zone's totals, the variance and the
    standard deviation that [_compute_manual_variance] returns on them,
    and the score [stability] returns on that mean and that standard
    deviation, rounded to 2, 2, 2 and 4 places. *)
Theorem C3_population_variance_two_pass :
  (_compute_manual_variance [10; 10; 10] = Return (0, 0) /\
   float_div_int (PyFloat.sum [10; 10; 10]) 3 = Return 10 /\
   stability 10 0 = Return 1 /\
   (forall z, zone_revenue_metric z [10; 10; 10] = Return (mkZRM z 10 0 0 1)) /\
   compute_revenue_volatility
     [Samples.trip 7 8 10 12; Samples.trip 7 9 10 15; Samples.trip 7 8 10 30]
   = Return [(7%Z, mkZRM 7 10 0 0 1)])%float /\
  (float_div_int (PyFloat.sum [0; 10; 20]) 3 = Return 10 /\
   (exists variance std_dev,
      _compute_manual_variance [0; 10; 20] = Return (variance, std_dev) /\
      variance = 200 / 3 /\
      close_to variance 66.67 0.01 = true /\
      close_to std_dev 8.165 0.001 = true) /\
   (forall z, zone_revenue_metric z [0; 10; 20] = Return (mkZRM z 10 66.67 8.16 0.5918)) /\
   compute_revenue_volatility
     [Samples.trip 7 8 0 12; Samples.trip 3 9 10 15; Samples.trip 7 9 10 15;
      Samples.trip 3 9 10 15; Samples.trip 7 8 20 30; Samples.trip 3 1 10 9]
   = Return [(7%Z, mkZRM 7 10 66.67 8.16 0.5918); (3%Z, mkZRM 3 10 0 0 1)])%float /\
  _compute_manual_variance [] = Return (0, 0)%float /\
  (forall values, values <> [] ->
     _compute_manual_variance values
     = Return (population_variance values, PrimFloat.sqrt (population_variance values))) /\
  (forall mean std_dev, stability mean std_dev = Return (stability_formula mean std_dev)) /\
  (forall cleaned,
     exists zrm,
       compute_revenue_volatility cleaned = Return zrm /\
       forall zone,
         (fares_of zone cleaned = [] -> PyDict.get zrm zone = None) /\
         (fares_of zone cleaned <> [] ->
          exists m mean_fare variance std_dev stability_score,
            PyDict.get zrm zone = Some m /\
            float_div_int (PyFloat.sum (fares_of zone cleaned))
                          (Z.of_nat (length (fares_of zone cleaned))) = Return mean_fare /\
            mean_fare = mean_of (fares_of zone cleaned) /\
            _compute_manual_variance (fares_of zone cleaned) = Return (variance, std_dev) /\
            variance = population_variance (fares_of zone cleaned) /\
            stability mean_fare std_dev = Return stability_score /\
            zr_zone_id m = zone /\
            avg_revenue m = PyFloat.round mean_fare 2 /\
            revenue_variance m = PyFloat.round variance 2 /\
            revenue_std_dev m = PyFloat.round std_dev 2 /\
            RiskEngine.stability_score m = PyFloat.round stability_score 4)).
Proof.
  split; [| split; [| split; [| split; [| split]]]].
  - split; [vm_compute; reflexivity |]. split; [vm_compute; reflexivity |].
    split; [vm_compute; reflexivity |]. split; [| vm_compute; reflexivity].
    intros z. rewrite zone_revenue_metric_value by discriminate.
    vm_compute. reflexivity.
  - split; [vm_compute; reflexivity |]. split; [| split].
    + eexists _, _. split; [vm_compute; reflexivity |].
      split; [vm_compute; reflexivity |]. split; vm_compute; reflexivity.
    + intros z. rewrite zone_revenue_metric_value by discriminate.
      vm_compute. reflexivity.
    + vm_compute. reflexivity.
  - reflexivity.
  - exact manual_variance_value.
  - exact stability_spec.
  - intros cleaned. unfold compute_revenue_volatility.
    destruct (revenue_pass_returns (zone_fares cleaned)) as [zrm Hzrm].
    exists zrm. split; [exact Hzrm |]. intros zone.
    pose proof (zone_fares_spec cleaned zone) as Hspec.
    destruct (PyDict.get (zone_fares cleaned) zone) as [fares |] eqn:Hget.
    + destruct Hspec as [-> Hne]. split; [intros E; contradiction |]. intros _.
      destruct (revenue_pass_complete _ _ _ _ Hzrm Hget Hne) as (m & Hm & Hval).
      rewrite zone_revenue_metric_value in Hval by assumption.
      injection Hval as <-.
      eexists _, _, _, _, _. split; [exact Hm |].
      split; [apply float_div_int_length; assumption |].
      split; [reflexivity |].
      split; [apply manual_variance_value; assumption |].
      split; [reflexivity |].
      split; [apply stability_spec |].
      repeat split.
    + split; [intros _; exact (revenue_pass_none _ _ _ Hzrm Hget) |].
      intros Hne. contradiction.
Qed.

End RevenueClaims.

(* ===================================================================== *)
(** * More on the validator and its parsers *)
(* ===================================================================== *)

Module ValidatorMore.

Import DataCleaner PyDatetime ValidatorFacts Views FloatFacts FloatBounds.

Lemma strptime_valid s d : strptime s = Some d -> valid d = true.
Proof.
  unfold strptime, obind. intros H.
  repeat match type of H with
         | context [match ?x with _ => _ end] => destruct x eqn:?; try discriminate H
         end.
  injection H as <-. assumption.
Qed.

Lemma parse_datetime_valid v d : _parse_datetime v = Some d -> valid d = true.
Proof.
  unfold _parse_datetime. destruct v as [[| c s] |]; try discriminate.
  destruct (strptime (PyStr.strip (String c s))) as [d' |] eqn:E.
  - intros H. injection H as <-. exact (strptime_valid _ _ E).
  - apply strptime_valid.
Qed.

Lemma valid_ranges d :
  valid d = true ->
  1 <= year d <= 9999 /\ 1 <= month d <= 12 /\ 1 <= day d <= days_in_month (year d) (month d) /\
  0 <= hour d <= 23 /\ 0 <= minute d <= 59 /\ 0 <= second d <= 59.
Proof.
  unfold valid. rewrite !Bool.andb_true_iff, !Z.leb_le. tauto.
Qed.

Lemma in_ints_In x xs : in_ints x xs = true -> In x xs.
Proof.
  unfold in_ints. rewrite existsb_exists. intros (y & Hin & E).
  apply Z.eqb_eq in E. now subst.
Qed.

Lemma in_strs_In x xs : in_strs x xs = true -> In x xs.
Proof.
  unfold in_strs. rewrite existsb_exists. intros (y & Hin & E).
  apply String.eqb_eq in E. now subst.
Qed.

(** [float] and [int] do not skip the separators FS..US, which [strip]
    removes: a number followed by U+001F does not parse, one between
    spaces or no-break spaces does. *)
Example separators_are_not_numeral_space :
  let us := String (Ascii.ascii_of_nat 31) EmptyString in
  let nbsp := String (Ascii.ascii_of_nat 160) EmptyString in
  PyStr.strip (String.append "12.5" us) = "12.5"%string /\
  _parse_float (Some (String.append "12.5" us)) = None /\
  _parse_int (Some (String.append "12" us)) = Return None /\
  PyInt.of_string (String.append "12" us) = None /\
  _parse_float (Some (String.append nbsp (String.append "12.5" " "))) = Some 12.5%float /\
  PyInt.of_string (String.append nbsp (String.append "12" " ")) = Some 12.
Proof. cbv zeta. repeat split; vm_compute; reflexivity. Qed.

(** What the body has checked when it returns a record. *)
Lemma validate_body_fields zone_ids row row_index t :
  validate_body zone_ids row row_index = Return (true, Some t, None) ->
  trip_id t = row_index /\
  (exists p d,
     _parse_datetime (row_get row "tpep_pickup_datetime") = Some p /\
     _parse_datetime (row_get row "tpep_dropoff_datetime") = Some d /\
     pickup_datetime t = strftime p /\ dropoff_datetime t = strftime d /\
     hour_of_day t = hour p /\ leb d p = false /\
     (year p =? 2019) = true /\ (month p =? 1) = true) /\
  (passenger_count t <? Config.min_passenger_count) = false /\
  (passenger_count t >? Config.max_passenger_count) = false /\
  bool_decide (pulocation_id t ∈ zone_ids) = true /\
  bool_decide (dolocation_id t ∈ zone_ids) = true /\
  in_ints (ratecode_id t) Config.VALID_RATE_CODES = true /\
  in_ints (payment_type t) Config.VALID_PAYMENT_TYPES = true /\
  in_strs (store_and_fwd_flag t) Config.VALID_STORE_FWD_FLAGS = true /\
  (exists x,
     _parse_float (row_get row "trip_distance") = Some x /\
     flt_lt_int x 0 = false /\ flt_gt_int x Config.max_distance_miles = false /\
     trip_distance t = PyFloat.round x 2).
Proof.
  intros H. unfold validate_body, reject, bind in H.
  repeat first [ discriminate H | injection H as <- | break_hyp H ].
  cbn. split; [reflexivity |].
  split; [do 2 eexists; repeat (split; [first [reflexivity | eassumption] |]); eassumption |].
  repeat (split; [assumption |]).
  eexists. repeat (split; [first [reflexivity | eassumption] |]). reflexivity.
Qed.

Lemma validate_record_some zone_ids row row_index t :
  snd (fst (_validate_record zone_ids row row_index)) = Some t ->
  validate_body zone_ids row row_index = Return (true, Some t, None).
Proof.
  unfold _validate_record. intros Hsome.
  destruct (validate_body_cases zone_ids row row_index) as [[t' H] | [[r H] | [e H]]];
    rewrite H in Hsome; cbn in Hsome; [| discriminate | discriminate].
  injection Hsome as ->. exact H.
Qed.

(** A number that is neither below 0 nor above a positive finite bound,
    and is a number at all, is zero or positive and at most the bound. *)
Lemma within_checks x w mw ew :
  Prim2SF w = S754_finite false mw ew ->
  PrimFloat.is_nan x = false ->
  PrimFloat.ltb x 0 = false -> PrimFloat.ltb w x = false ->
  finite_nonneg (Prim2SF x) = true /\ PrimFloat.leb x w = true.
Proof.
  intros Ew. unfold PrimFloat.is_nan.
  rewrite FloatAxioms.eqb_spec, !FloatAxioms.ltb_spec, FloatAxioms.leb_spec, Prim2SF_zero, Ew.
  destruct (Prim2SF x) as [s | [|] | | [|] m e]; cbn; intros Hn H0 Hw;
    try discriminate Hn; try discriminate H0; try discriminate Hw;
    try (split; reflexivity).
  split; [reflexivity |]. apply SFleb_finite.
  assert (Hnot : ~ (ew < e \/ (ew = e /\ Zpos mw < Zpos m))).
  { intros Hlt. apply SFltb_finite in Hlt. unfold SFltb in Hlt. cbn in Hlt.
    rewrite Hlt in Hw. discriminate Hw. }
  lia.
Qed.

Lemma all_rounded_le_from_spec w nd count : forall a,
  all_rounded_le_from w nd a count = true ->
  forall n, a <= n < a + Z.of_nat count ->
  PrimFloat.leb (PyFloat.of_int n / PyFloat.of_int (10 ^ nd)) w = true.
Proof.
  induction count as [| k IH]; intros a Hall n Hn; [lia |].
  cbn [all_rounded_le_from] in Hall. apply Bool.andb_true_iff in Hall.
  destruct Hall as [Hhere Hrest].
  destruct (Z.eq_dec n a) as [-> | Hne]; [exact Hhere |].
  apply (IH (a + 1) Hrest). lia.
Qed.

(** The check counted in [Z] gives the check of [all_rounded_le]. *)
Lemma all_rounded_le_from_all w nd N :
  all_rounded_le_from w nd 0 (S N) = true -> all_rounded_le w nd N = true.
Proof.
  intros Hall. unfold all_rounded_le. apply List.forallb_forall. intros n Hn.
  apply List.in_seq in Hn.
  apply (all_rounded_le_from_spec w nd (S N) 0 Hall). lia.
Qed.

(** The candidates of [round(x, 2)] up to the distance and fare maxima. *)
Lemma round2_le_50 x :
  finite_nonneg (Prim2SF x) = true -> PrimFloat.leb x 50 = true ->
  between (PyFloat.round x 2) 50 = true.
Proof.
  intros Hx Hle.
  assert (Hw : Prim2SF 50%float = S754_finite false 7036874417766400 (-47))
    by (vm_compute; reflexivity).
  assert (Hc : 2 * Zpos 7036874417766400 * 10 ^ 2 < (2 * Z.of_nat (Z.to_nat 5000) + 1) * 2 ^ 47)
    by (vm_compute; reflexivity).
  assert (HN : Z.of_nat (Z.to_nat 5000) < 2 ^ 53) by (vm_compute; reflexivity).
  assert (Hall : all_rounded_le 50 2 (Z.to_nat 5000) = true)
    by (apply all_rounded_le_from_all; vm_compute; reflexivity).
  destruct (round_le_const x _ _ _ 2 _ Hw ltac:(lia) ltac:(lia) Hc HN Hall Hx Hle) as [Hf Hr].
  now apply between_intro.
Qed.

Lemma round2_le_500 x :
  finite_nonneg (Prim2SF x) = true -> PrimFloat.leb x 500 = true ->
  between (PyFloat.round x 2) 500 = true.
Proof.
  intros Hx Hle.
  assert (Hw : Prim2SF 500%float = S754_finite false 8796093022208000 (-44))
    by (vm_compute; reflexivity).
  assert (Hc : 2 * Zpos 8796093022208000 * 10 ^ 2 < (2 * Z.of_nat (Z.to_nat 50000) + 1) * 2 ^ 44)
    by (vm_compute; reflexivity).
  assert (HN : Z.of_nat (Z.to_nat 50000) < 2 ^ 53) by (vm_compute; reflexivity).
  assert (Hall : all_rounded_le 500 2 (Z.to_nat 50000) = true)
    by (apply all_rounded_le_from_all; vm_compute; reflexivity).
  destruct (round_le_const x _ _ _ 2 _ Hw ltac:(lia) ltac:(lia) Hc HN Hall Hx Hle) as [Hf Hr].
  now apply between_intro.
Qed.

(** What the body stores in the money fields of the record it returns. *)
Lemma validate_body_money zone_ids row row_index t :
  validate_body zone_ids row row_index = Return (true, Some t, None) ->
  exists fare,
    _parse_float (row_get row "fare_amount") = Some fare /\
    flt_lt_int fare Config.min_fare = false /\
    flt_gt_int fare Config.max_fare = false /\
    fare_amount t = PyFloat.round fare 2 /\
    total_amount t =
      match _parse_float (row_get row "total_amount") with
      | Some total => if PyFloat.truthy total then PyFloat.round total 2 else 0%float
      | None => 0%float
      end /\
    (forall column field, In (column, field) charges ->
       field t = PyFloat.round (or_zero (_parse_float (row_get row column))) 2).
Proof.
  intros H. unfold validate_body, reject, bind in H.
  repeat first [ discriminate H | injection H as <- | break_hyp H ].
  eexists. split; [reflexivity |]. split; [assumption |]. split; [assumption |].
  split; [reflexivity |]. split; [reflexivity |].
  intros column field Hin. unfold charges in Hin. cbn [In] in Hin.
  repeat (destruct Hin as [E | Hin]; [injection E as <- <-; reflexivity |]).
  contradiction.
Qed.

(** The fare of a returned record, when it is a number, is stored within
    the configured range. *)
Lemma stored_fare_within f :
  PrimFloat.is_nan f = false ->
  flt_lt_int f Config.min_fare = false -> flt_gt_int f Config.max_fare = false ->
  between (PyFloat.round f 2) 500 = true.
Proof.
  intros Hnan Hlo Hhi.
  assert (E0 : PyFloat.of_int 0 = 0%float) by (vm_compute; reflexivity).
  assert (E500 : PyFloat.of_int Config.max_fare = 500%float) by (vm_compute; reflexivity).
  assert (H500 : Prim2SF 500%float = S754_finite false 8796093022208000 (-44))
    by (vm_compute; reflexivity).
  unfold flt_lt_int, flt_gt_int, Config.min_fare in Hlo, Hhi.
  rewrite E0 in Hlo. rewrite E500 in Hhi.
  destruct (within_checks f 500 _ _ H500 Hnan Hlo Hhi) as [Hfn Hle].
  now apply round2_le_500.
Qed.

End ValidatorMore.

(* ===================================================================== *)
(** * The money fields of a cleaned record *)
(* ===================================================================== *)

Module MoneyClaims.

Import DataCleaner Views ValidatorFacts FloatFacts ValidatorMore.

(** C1, counterexample. A record with a refund booked on it (the charge
    [extra] at -0.5 and the total at -3.456) is returned as valid, with
    [extra] -0.5 and [total_amount] -3.46, both below zero. *)
Lemma C1_negative_charges_are_kept :
  let refund := _validate_record standard_zone_ids Samples.refund 1 in
  fst (fst refund) = true /\
  option_map extra (snd (fst refund)) = Some (-0.5)%float /\
  option_map total_amount (snd (fst refund)) = Some (-3.46)%float /\
  PrimFloat.leb 0 (-0.5) = false /\
  PrimFloat.leb 0 (-3.46) = false.
Proof.
  cbv zeta.
  split; [vm_compute; reflexivity |]. split; [vm_compute; reflexivity |].
  split; [vm_compute; reflexivity |]. split; vm_compute; reflexivity.
Qed.

(** C1, amended. Every record the validator returns as valid has a fare
    that is the parsed fare rounded to 2 decimal places and that, for a
    fare that reads as a number, lies between 0 and the configured
    maximum.  The total and the six secondary charges are stored as
    parsed and rounded to 2 decimal places (0 when the column is absent,
    empty or zero), whatever their sign.  And no partially valid record
    is returned as valid: a record whose distance and fare read as
    numbers and that is returned as valid passes every rule of the
    list. *)
Theorem C1_money_fields_of_valid_record zone_ids row row_index t :
  snd (fst (_validate_record zone_ids row row_index)) = Some t ->
  (exists fare,
     _parse_float (row_get row "fare_amount") = Some fare /\
     fare_amount t = PyFloat.round fare 2 /\
     (PrimFloat.is_nan fare = false ->
      PrimFloat.leb 0 (fare_amount t) = true /\
      PrimFloat.leb (fare_amount t) (PyFloat.of_int Config.max_fare) = true)) /\
  total_amount t =
    match _parse_float (row_get row "total_amount") with
    | Some total => if PyFloat.truthy total then PyFloat.round total 2 else 0%float
    | None => 0%float
    end /\
  (forall column field, In (column, field) charges ->
     field t = PyFloat.round (or_zero (_parse_float (row_get row column))) 2) /\
  (reads_nan row "trip_distance" = false -> reads_nan row "fare_amount" = false ->
   Rules.first_failure (Rules.rules zone_ids) row = Return None).
Proof.
  intros Hsome. apply validate_record_some in Hsome.
  destruct (validate_body_money _ _ _ _ Hsome)
    as (fare & Hparse & Hlt & Hgt & Hfare & Htotal & Hch).
  split; [| split; [exact Htotal | split; [exact Hch |]]].
  - exists fare. split; [exact Hparse |]. split; [exact Hfare |]. intros Hnan.
    pose proof (stored_fare_within fare Hnan Hlt Hgt) as Hb.
    unfold between in Hb. apply Bool.andb_true_iff in Hb. rewrite Hfare.
    replace (PyFloat.of_int Config.max_fare) with 500%float by (vm_compute; reflexivity).
    exact Hb.
  - intros Hd Hf. exact (validate_body_first_failure _ _ _ _ _ _ Hd Hf Hsome).
Qed.

Lemma C1_money_fields_of_valid_record_witness :
  (PrimFloat.leb 0 (fare_amount Samples.good_cleaned) = true /\
   PrimFloat.leb (fare_amount Samples.good_cleaned) (PyFloat.of_int Config.max_fare) = true) /\
  Rules.first_failure (Rules.rules standard_zone_ids) Samples.good = Return None.
Proof.
  destruct (C1_money_fields_of_valid_record standard_zone_ids Samples.good 1 Samples.good_cleaned)
    as ((fare & Hparse & _ & Hfare) & _ & _ & Hrules); [vm_compute; reflexivity |].
  vm_compute in Hparse. injection Hparse as <-.
  split; [apply Hfare | apply Hrules]; vm_compute; reflexivity.
Defined.

(** The case the statement above leaves aside: both comparisons of the
    fare check are false on a NaN, so a fare written [nan] is let
    through although the fare rule fails it. *)
Example nan_fare_is_let_through :
  fst (fst (_validate_record standard_zone_ids Samples.nan_fare 1)) = true /\
  Rules.fare Samples.nan_fare = Return (Some "negative_or_null_fare").
Proof. split; vm_compute; reflexivity. Qed.

End MoneyClaims.

(* ===================================================================== *)
(** * The risk scores *)
(* ===================================================================== *)

Module RiskFacts.

Import DataCleaner RiskEngine Views PyDictFacts ExposureFacts RevenueFacts.
Import FloatFacts FloatBounds.

Section Dict.
Context {K V : Type} `{EqDecision K}.
Implicit Types (d : list (K * V)) (k : K) (v : V).

Lemma in_set d k v k' v' :
  In (k', v') (PyDict.set d k v) -> (k' = k /\ v' = v) \/ In (k', v') d.
Proof.
  induction d as [| [k0 v0] d IH]; cbn.
  - intros [E | []]. injection E as <- <-. now left.
  - destruct (decide (k = k0)) as [-> | Hne]; cbn.
    + intros [E | Hin]; [injection E as <- <-; now left | right; now right].
    + intros [E | Hin]; [right; now left |].
      destruct (IH Hin) as [Heq | Hin']; [now left | right; now right].
Qed.

Lemma get_In d k v : PyDict.get d k = Some v -> In (k, v) d.
Proof.
  induction d as [| [k0 v0] d IH]; cbn; [discriminate |].
  destruct (decide (k = k0)) as [-> | Hne].
  - intros E. injection E as <-. now left.
  - intros Hget. right. now apply IH.
Qed.

End Dict.

(** ** The trip counts and their maximum *)

Lemma zone_hour_trips_counts l key data :
  In (key, data) (zone_hour_trips l) -> 1 <= count data <= Z.of_nat (length l).
Proof.
  revert key data. induction l as [| t l IH] using rev_ind; intros key data.
  - intros [].
  - rewrite zone_hour_trips_snoc. cbv zeta. rewrite length_app. cbn [length].
    intros Hin. apply in_set in Hin. destruct Hin as [[-> ->] | Hin].
    + cbn [count].
      destruct (PyDict.get (zone_hour_trips l) (key_of t)) as [acc |] eqn:Eg; cbn.
      * apply get_In in Eg. specialize (IH _ _ Eg). lia.
      * lia.
    + specialize (IH _ _ Hin). lia.
Qed.

Lemma exposure_counts l key m :
  In (key, m) (exposure_of l) ->
  1 <= zh_trip_count m <= Z.of_nat (length l).
Proof.
  unfold exposure_of. intros Hin. apply in_map_iff in Hin.
  destruct Hin as ([[z h] data] & E & Hin). injection E as <- <-. cbn.
  exact (zone_hour_trips_counts _ _ _ Hin).
Qed.

Lemma fold_max_ge r : forall x,
  In (fold_left Z.max r x) (x :: r) /\
  (forall y, In y (x :: r) -> y <= fold_left Z.max r x).
Proof.
  induction r as [| z r IH]; intros x; cbn [fold_left].
  - split; [now left |]. intros y [<- | []]. lia.
  - destruct (IH (Z.max x z)) as [Hin Hge]. split.
    + destruct Hin as [E | Hin]; [| right; now right].
      rewrite <- E. destruct (Z.max_spec x z) as [[_ ->] | [_ ->]]; [right; now left | now left].
    + intros y Hy.
      assert (Z.max x z <= fold_left Z.max r (Z.max x z)) by (apply Hge; now left).
      destruct Hy as [<- | [<- | Hy]]; [lia | lia | apply Hge; now right].
Qed.

(** The denominator of the density is the largest trip count (1 when
    there is no key at all). *)
Lemma max_trip_count_spec zhm :
  (forall key m, In (key, m) zhm -> zh_trip_count m <= max_trip_count zhm) /\
  (zhm = [] /\ max_trip_count zhm = 1 \/
   exists key m, In (key, m) zhm /\ zh_trip_count m = max_trip_count zhm).
Proof.
  unfold max_trip_count, max_int_default, PyDict.values.
  destruct zhm as [| [k0 m0] zhm]; cbn [map snd].
  - split; [intros key m [] | now left].
  - destruct (fold_max_ge (map zh_trip_count (map snd zhm)) (zh_trip_count m0)) as [Hin Hge].
    split.
    + intros key m Hkm. apply Hge.
      change (In (zh_trip_count m) (map zh_trip_count (map snd ((k0, m0) :: zhm)))).
      apply in_map. apply (in_map snd _ (key, m)). exact Hkm.
    + right.
      change (In (fold_left Z.max (map zh_trip_count (map snd zhm)) (zh_trip_count m0))
                 (map zh_trip_count (map snd ((k0, m0) :: zhm)))) in Hin.
      apply in_map_iff in Hin. destruct Hin as (m & Em & Hin).
      apply in_map_iff in Hin. destruct Hin as ([key m'] & Es & Hin). cbn in Es. subst m'.
      exists key, m. split; [exact Hin | exact Em].
Qed.

(** ** The standard deviations and their maximum *)

Lemma revenue_pass_In zf : forall zrm z zm,
  revenue_pass zf = Return zrm -> In (z, zm) zrm ->
  exists fares, zone_revenue_metric z fares = Return zm.
Proof.
  induction zf as [| [z0 fares] zf IH]; intros zrm z zm Hpass Hin; cbn in Hpass.
  - injection Hpass as <-. destruct Hin.
  - destruct fares as [| f fs]; [exact (IH _ _ _ Hpass Hin) |].
    unfold bind in Hpass.
    destruct (zone_revenue_metric z0 (f :: fs)) as [m0 |] eqn:Em; [| discriminate].
    destruct (revenue_pass zf) as [ms |]; [| discriminate].
    injection Hpass as <-. destruct Hin as [E | Hin].
    + injection E as <- <-. eauto.
    + exact (IH _ _ _ eq_refl Hin).
Qed.

(** A stored standard deviation is never below zero. *)
Lemma std_dev_not_below_zero z fares zm :
  zone_revenue_metric z fares = Return zm ->
  PrimFloat.ltb (revenue_std_dev zm) 0 = false.
Proof.
  destruct fares as [| f fs]; [discriminate |].
  rewrite zone_revenue_metric_value by discriminate.
  intros E. injection E as <-. cbn [revenue_std_dev].
  apply round_not_below_zero; [lia | apply sqrt_not_below_zero].
Qed.


(** ** The order on the numbers that are not below zero *)






Lemma finite_nonneg_number sf : finite_nonneg sf = true -> nonneg_number sf = true.
Proof. now destruct sf as [s | [|] | | [|] m e]. Qed.











Lemma ltb_zero_cases x :
  PrimFloat.ltb 0 x = true ->
  (exists m e, Prim2SF x = S754_finite false m e) \/ Prim2SF x = S754_infinity false.
Proof.
  rewrite FloatAxioms.ltb_spec, Prim2SF_zero.
  destruct (Prim2SF x) as [s | [|] | | [|] m e]; cbn; intros H;
    first [discriminate H | now right | left; eauto].
Qed.

(** A float above zero is not equal to zero. *)
Lemma ltb_zero_not_eqb x : PrimFloat.ltb 0 x = true -> PrimFloat.eqb x 0 = false.
Proof.
  intros H. rewrite FloatAxioms.eqb_spec, Prim2SF_zero.
  destruct (ltb_zero_cases x H) as [(m & e & ->) | ->]; reflexivity.
Qed.



(** ** One entry of the risk scores *)





(** The loop of the third step does not raise: each divisor is tested
    before it divides. *)
Lemma risk_entry_returns max_tc max_vol zrm zone hour metrics :
  risk_entry max_tc max_vol zrm zone hour metrics
  = Return (risk_entry_of max_tc max_vol zrm zone hour metrics).
Proof.
  unfold risk_entry, risk_entry_of, int_div, float_div. cbv zeta.
  assert (Hd : (if max_tc >? 0
                then if max_tc =? 0
                     then Raise (ZeroDivisionError "division by zero")
                     else Return (PyFloat.int_true_div (zh_trip_count metrics) max_tc)
                else Return 0%float)
               = Return (if max_tc >? 0
                         then PyFloat.int_true_div (zh_trip_count metrics) max_tc
                         else 0%float)).
  { destruct (Z.gtb_spec max_tc 0) as [Hpos | Hle]; [| reflexivity].
    destruct (Z.eqb_spec max_tc 0) as [E | _]; [lia | reflexivity]. }
  rewrite Hd. cbn [bind].
  destruct (PyDict.get zrm zone) as [zm |]; [| reflexivity].
  destruct (PrimFloat.ltb 0 max_vol) eqn:Hpos; [| reflexivity].
  rewrite (ltb_zero_not_eqb _ Hpos). reflexivity.
Qed.

Lemma risk_pass_returns max_tc max_vol zrm zhm :
  risk_pass max_tc max_vol zrm zhm
  = Return (map (fun '((zone_id, hour), metrics) =>
                   ((zone_id, hour), risk_entry_of max_tc max_vol zrm zone_id hour metrics))
                zhm).
Proof.
  induction zhm as [| [[z h] metrics] zhm IH]; cbn [risk_pass map]; [reflexivity |].
  rewrite risk_entry_returns, IH. reflexivity.
Qed.

Lemma compute_risk_scores_returns zhm zrm :
  compute_risk_scores zhm zrm = Return (risk_scores_of zhm zrm).
Proof. unfold compute_risk_scores, risk_scores_of. apply risk_pass_returns. Qed.

(** The three steps in sequence; none of them raises. *)
Lemma compute_eq cleaned :
  compute cleaned
  = bind (compute_revenue_volatility cleaned)
      (fun zrm => Return (mkMetrics (exposure_of cleaned) zrm
                            (risk_scores_of (exposure_of cleaned) zrm))).
Proof.
  unfold compute. rewrite compute_exposure_density_returns. cbn [bind].
  destruct (compute_revenue_volatility cleaned) as [zrm |]; [| reflexivity].
  cbn [bind]. rewrite compute_risk_scores_returns. reflexivity.
Qed.

Lemma compute_returns cleaned :
  exists zrm,
    compute_revenue_volatility cleaned = Return zrm /\
    compute cleaned
    = Return (mkMetrics (exposure_of cleaned) zrm (risk_scores_of (exposure_of cleaned) zrm)).
Proof.
  destruct (revenue_pass_returns (zone_fares cleaned)) as [zrm Hzrm].
  exists zrm. split; [exact Hzrm |]. rewrite compute_eq.
  unfold compute_revenue_volatility. rewrite Hzrm. reflexivity.
Qed.


End RiskFacts.
Module RiskClaims.

Import DataCleaner RiskEngine Views RiskFacts FloatBounds.




End RiskClaims.

(* ===================================================================== *)
(** * The ingestion loop in closed form *)
(* ===================================================================== *)

Module IngestionClosed.

Import DataCleaner ValidatorFacts Views.

(** The part of the object the loop body reads and writes apart from
    the chunk bookkeeping. *)
Lemma step_adds zone_ids cs c i row :
  cleaned_trips (step zone_ids cs c i row) = cleaned_trips c ++ valid_of zone_ids (i, row) /\
  excluded_records (step zone_ids cs c i row)
  = excluded_records c ++ excluded_of zone_ids (i, row) /\
  total_processed (stats (step zone_ids cs c i row)) = total_processed (stats c) + 1.
Proof.
  unfold step, valid_of, excluded_of. cbn [fst snd].
  destruct (validate_record_shape zone_ids row i) as [[t H] | [r H]]; rewrite H;
    match goal with |- context [if ?b then _ else _] => destruct b end;
    cbn; rewrite ?app_nil_r; auto.
Qed.

Lemma loop_no_cap zone_ids cs rows : forall i c,
  loop zone_ids cs (Some 0) rows i c = loop zone_ids cs None rows i c.
Proof.
  induction rows as [| row rows IH]; intros i c; cbn [loop cap_reached]; [reflexivity |].
  cbn. apply IH.
Qed.

Lemma loop_cap zone_ids cs n rows : forall i c,
  n <> 0 ->
  loop zone_ids cs (Some n) rows i c
  = loop zone_ids cs None (firstn (Z.to_nat (n - i + 1)) rows) i c.
Proof.
  induction rows as [| row rows IH]; intros i c Hn; cbn [loop].
  - now rewrite firstn_nil.
  - unfold cap_reached. destruct (Z.eqb_spec n 0) as [E | _]; [contradiction |]. cbn [negb andb].
    destruct (Z.gtb_spec i n) as [Hgt | Hle].
    + replace (Z.to_nat (n - i + 1)) with 0%nat by lia. reflexivity.
    + replace (Z.to_nat (n - i + 1)) with (S (Z.to_nat (n - (i + 1) + 1))) by lia.
      cbn [firstn loop cap_reached]. now apply IH.
Qed.

Lemma loop_rows_read zone_ids cs max_rows rows c :
  loop zone_ids cs max_rows rows 1 c
  = loop zone_ids cs None (rows_read max_rows rows) 1 c.
Proof.
  unfold rows_read. destruct max_rows as [n |]; [| reflexivity].
  destruct (Z.eqb_spec n 0) as [-> | Hn]; [apply loop_no_cap |].
  rewrite loop_cap by assumption. do 2 f_equal. lia.
Qed.

Lemma loop_closed zone_ids cs rows : forall i c,
  let c' := loop zone_ids cs None rows i c in
  cleaned_trips c' = cleaned_trips c ++ flat_map (valid_of zone_ids) (enumerate_from i rows) /\
  excluded_records c'
  = excluded_records c ++ flat_map (excluded_of zone_ids) (enumerate_from i rows) /\
  total_processed (stats c') = total_processed (stats c) + Z.of_nat (length rows).
Proof.
  induction rows as [| row rows IH]; intros i c; cbv zeta; cbn [loop cap_reached].
  - cbn. rewrite !app_nil_r. split; [reflexivity | split; [reflexivity | lia]].
  - destruct (IH (i + 1) (step zone_ids cs c i row)) as (Ht & He & Hp).
    destruct (step_adds zone_ids cs c i row) as (Ht' & He' & Hp').
    cbv zeta in Ht, He, Hp. rewrite Ht, He, Hp, Ht', He', Hp'.
    cbn [enumerate_from flat_map length]. rewrite <- !app_assoc.
    split; [reflexivity | split; [reflexivity | lia]].
Qed.

Lemma flush_same c :
  cleaned_trips (flush c) = cleaned_trips c /\
  excluded_records (flush c) = excluded_records c /\ stats (flush c) = stats c.
Proof. unfold flush. destruct (chunk c); auto. Qed.

Lemma process_closed zone_ids cs max_rows rows :
  let c := process_csv_chunks zone_ids cs max_rows (Some rows) init in
  let read := enumerate_from 1 (rows_read max_rows rows) in
  cleaned_trips c = flat_map (valid_of zone_ids) read /\
  excluded_records c = flat_map (excluded_of zone_ids) read /\
  total_processed (stats c) = Z.of_nat (length (rows_read max_rows rows)).
Proof.
  cbv zeta. unfold process_csv_chunks.
  destruct (flush_same (loop zone_ids cs max_rows rows 1 init)) as (-> & -> & ->).
  rewrite loop_rows_read.
  destruct (loop_closed zone_ids cs (rows_read max_rows rows) 1 init) as (Ht & He & Hp).
  cbv zeta in Ht, He, Hp. rewrite Ht, He, Hp. cbn. auto.
Qed.

(** ** Row numbers *)

Lemma enumerate_from_fst rows : forall i,
  map fst (enumerate_from i rows) = seqZ i (Z.of_nat (length rows)).
Proof.
  induction rows as [| row rows IH]; intros i; cbn [enumerate_from map length fst].
  - reflexivity.
  - rewrite IH, Nat2Z.inj_succ, (seqZ_cons i) by lia. do 2 f_equal; lia.
Qed.

Lemma valid_of_id zone_ids p t : In t (valid_of zone_ids p) -> trip_id t = fst p.
Proof.
  unfold valid_of, _validate_record.
  destruct (validate_body zone_ids (snd p) (fst p)) as [[[v rec] reason] |] eqn:Eb;
    [| intros []].
  destruct v; [| intros []]. destruct rec as [r |]; [| intros []].
  intros [<- | []].
  unfold validate_body, reject, bind in Eb.
  repeat first [ discriminate Eb | injection Eb as <- | break_hyp Eb ].
  reflexivity.
Qed.

(** Each numbered row goes to exactly one of the two lists. *)
Lemma one_of_two zone_ids p :
  (exists t, valid_of zone_ids p = [t] /\ trip_id t = fst p /\ excluded_of zone_ids p = []) \/
  (exists r, valid_of zone_ids p = [] /\ excluded_of zone_ids p = [(fst p, Some r)]).
Proof.
  destruct (validate_record_shape zone_ids (snd p) (fst p)) as [[t H] | [r H]].
  - left. exists t. pose proof (valid_of_id zone_ids p t) as Hid.
    unfold valid_of, excluded_of in *. rewrite H in *. split; [reflexivity |].
    split; [apply Hid; now left | reflexivity].
  - right. exists r. unfold valid_of, excluded_of. rewrite H. auto.
Qed.

(** The row numbers of the two lists: each list in increasing order,
    and together the numbers of the rows read, each once. *)
Lemma ids_partition zone_ids rows : forall i,
  let l := enumerate_from i rows in
  let A := map trip_id (flat_map (valid_of zone_ids) l) in
  let B := map fst (flat_map (excluded_of zone_ids) l) in
  Forall (fun x => i <= x) A /\ Forall (fun x => i <= x) B /\
  StronglySorted Z.lt A /\ StronglySorted Z.lt B /\
  Permutation (A ++ B) (seqZ i (Z.of_nat (length rows))).
Proof.
  induction rows as [| row rows IH]; intros i; cbv zeta.
  - cbn. repeat split; constructor.
  - destruct (IH (i + 1)) as (HA & HB & HsA & HsB & Hperm). cbv zeta in *.
    cbn [enumerate_from flat_map length]. rewrite Nat2Z.inj_succ, (seqZ_cons i) by lia.
    replace (Z.pred (Z.succ (Z.of_nat (length rows)))) with (Z.of_nat (length rows)) by lia.
    replace (Z.succ i) with (i + 1) by lia.
    set (A' := map trip_id (flat_map (valid_of zone_ids) (enumerate_from (i + 1) rows))) in *.
    set (B' := map fst (flat_map (excluded_of zone_ids) (enumerate_from (i + 1) rows))) in *.
    assert (HA' : Forall (fun x => i <= x) A') by (eapply Forall_impl; [exact HA | cbn; lia]).
    assert (HB' : Forall (fun x => i <= x) B') by (eapply Forall_impl; [exact HB | cbn; lia]).
    assert (HAlt : Forall (Z.lt i) A') by (eapply Forall_impl; [exact HA | cbn; lia]).
    assert (HBlt : Forall (Z.lt i) B') by (eapply Forall_impl; [exact HB | cbn; lia]).
    destruct (one_of_two zone_ids (i, row)) as [(t & Hv & Hid & He) | (r & Hv & He)];
      rewrite Hv, He; cbn [app map fst] in *.
    + rewrite Hid. fold A' B'.
      split; [constructor; [lia | exact HA'] |]. split; [exact HB' |].
      split; [constructor; assumption |]. split; [exact HsB |].
      now constructor.
    + fold A' B'.
      split; [exact HA' |]. split; [constructor; [lia | exact HB'] |].
      split; [exact HsA |]. split; [constructor; assumption |].
      rewrite <- Permutation_middle. now constructor.
Qed.

(** ** The counts by reason *)

Lemma reason_count_snoc reason l i r :
  reason_count reason (l ++ [(i, r)])
  = reason_count reason l + (if bool_decide (r = reason) then 1 else 0).
Proof.
  unfold reason_count. rewrite List.filter_app, length_app. cbn [List.filter snd].
  destruct (bool_decide (r = reason)); cbn; lia.
Qed.

Lemma reasons_step zone_ids cs c i row :
  (forall reason, default 0 (excluded_by_reason (stats c) !! reason)
                  = reason_count reason (excluded_records c)) ->
  forall reason, default 0 (excluded_by_reason (stats (step zone_ids cs c i row)) !! reason)
                 = reason_count reason (excluded_records (step zone_ids cs c i row)).
Proof.
  intros Hinv reason. unfold step.
  destruct (validate_record_shape zone_ids row i) as [[t H] | [r H]]; rewrite H;
    match goal with |- context [if ?b then _ else _] => destruct b end;
    cbn [stats excluded_records excluded_by_reason]; try apply Hinv;
    rewrite reason_count_snoc;
    (destruct (decide (Some r = reason)) as [<- | Hne];
     [ rewrite lookup_insert_eq, bool_decide_eq_true_2 by reflexivity; cbn; rewrite Hinv; lia
     | rewrite lookup_insert_ne, bool_decide_eq_false_2 by assumption; rewrite Hinv; lia ]).
Qed.

Lemma reasons_loop zone_ids cs max_rows rows : forall i c,
  (forall reason, default 0 (excluded_by_reason (stats c) !! reason)
                  = reason_count reason (excluded_records c)) ->
  forall reason,
    default 0 (excluded_by_reason (stats (loop zone_ids cs max_rows rows i c)) !! reason)
    = reason_count reason (excluded_records (loop zone_ids cs max_rows rows i c)).
Proof.
  induction rows as [| row rows IH]; intros i c Hinv; cbn [loop]; [exact Hinv |].
  destruct (cap_reached max_rows i); [exact Hinv |].
  apply IH. now apply reasons_step.
Qed.

Lemma reasons_process zone_ids cs max_rows input reason :
  let c := process_csv_chunks zone_ids cs max_rows input init in
  default 0 (excluded_by_reason (stats c) !! reason) = reason_count reason (excluded_records c).
Proof.
  cbv zeta. unfold process_csv_chunks. destruct input as [rows |]; [| reflexivity].
  destruct (flush_same (loop zone_ids cs max_rows rows 1 init)) as (_ & -> & ->).
  apply reasons_loop. intros r. reflexivity.
Qed.

Lemma rows_read_length max_rows rows :
  Z.of_nat (length (rows_read max_rows rows))
  = match max_rows with
    | Some n => if n =? 0 then Z.of_nat (length rows)
                else Z.max 0 (Z.min n (Z.of_nat (length rows)))
    | None => Z.of_nat (length rows)
    end.
Proof.
  unfold rows_read. destruct max_rows as [n |]; [| reflexivity].
  destruct (n =? 0); [reflexivity |]. rewrite length_firstn. lia.
Qed.

End IngestionClosed.

Module IngestionExtras.

Import DataCleaner ValidatorFacts IngestionFacts IngestionClosed Views.

(** The ingestion loop is a filter over the numbered rows it reads: the
    cleaned trips are the records of the valid rows, in input order, the
    exclusion records are the numbers and reasons of the others, in
    input order, and the three counters are the number of rows read and
    the lengths of the two lists. A missing input file is an empty
    input. *)
Theorem ingestion_is_a_filter zone_ids chunk_size max_rows input :
  let c := process_csv_chunks zone_ids chunk_size max_rows input init in
  let read := enumerate_from 1 (rows_read max_rows (default [] input)) in
  cleaned_trips c = flat_map (valid_of zone_ids) read /\
  excluded_records c = flat_map (excluded_of zone_ids) read /\
  total_processed (stats c) = Z.of_nat (length read) /\
  total_valid (stats c) = Z.of_nat (length (cleaned_trips c)) /\
  total_excluded (stats c) = Z.of_nat (length (excluded_records c)) /\
  total_processed (stats c) = total_valid (stats c) + total_excluded (stats c).
Proof.
  cbv zeta.
  destruct (counted_process zone_ids chunk_size max_rows input) as (Hv & He & Hp).
  assert (Hlen : forall rows i, length (enumerate_from i rows) = length rows).
  { induction rows as [| r rows IH]; intros i; cbn; [reflexivity | now rewrite IH]. }
  destruct input as [rows |]; cbn [default].
  - destruct (process_closed zone_ids chunk_size max_rows rows) as (Ht & Hx & Hn).
    cbv zeta in Ht, Hx, Hn. rewrite Hlen. auto 6.
  - unfold rows_read. destruct max_rows as [n |]; [destruct (n =? 0) |];
      rewrite ?firstn_nil; cbn; auto 6.
Qed.

(** The cap on the rows: with [MAX_ROWS_TO_PROCESS = n] the loop
    processes the first [n] rows (none when [n] is negative), except
    that a cap of 0, like no cap at all, processes every row. *)
Theorem row_cap_counts zone_ids chunk_size max_rows rows :
  total_processed (stats (process_csv_chunks zone_ids chunk_size max_rows (Some rows) init))
  = match max_rows with
    | Some n => if n =? 0 then Z.of_nat (length rows)
                else Z.max 0 (Z.min n (Z.of_nat (length rows)))
    | None => Z.of_nat (length rows)
    end.
Proof.
  destruct (process_closed zone_ids chunk_size max_rows rows) as (_ & _ & Hn).
  cbv zeta in Hn. rewrite Hn. apply rows_read_length.
Qed.

(** Row numbers: the trip ids of the cleaned trips and the indices of
    the exclusion records are each strictly increasing, and together
    they are the numbers 1 to total_processed, each exactly once. *)
Theorem row_numbers_partition zone_ids chunk_size max_rows input :
  let c := process_csv_chunks zone_ids chunk_size max_rows input init in
  StronglySorted Z.lt (map trip_id (cleaned_trips c)) /\
  StronglySorted Z.lt (map fst (excluded_records c)) /\
  Permutation (map trip_id (cleaned_trips c) ++ map fst (excluded_records c))
              (seqZ 1 (total_processed (stats c))).
Proof.
  cbv zeta. destruct input as [rows |].
  - destruct (process_closed zone_ids chunk_size max_rows rows) as (Ht & Hx & Hn).
    cbv zeta in Ht, Hx, Hn. rewrite Ht, Hx, Hn.
    destruct (ids_partition zone_ids (rows_read max_rows rows) 1) as (_ & _ & HsA & HsB & Hp).
    auto.
  - cbn. repeat split; constructor.
Qed.

(** The breakdown by reason: for every reason the counter kept in
    [excluded_by_reason] (0 when the reason has no entry) is the number
    of exclusion records with that reason. *)
Theorem reason_counters_match_log zone_ids chunk_size max_rows input reason :
  let c := process_csv_chunks zone_ids chunk_size max_rows input init in
  default 0 (excluded_by_reason (stats c) !! reason) = reason_count reason (excluded_records c).
Proof. apply reasons_process. Qed.

End IngestionExtras.

(* ===================================================================== *)
(** * The progress report of the chunks *)
(* ===================================================================== *)

Module ChunkFacts.

Import DataCleaner ValidatorFacts Views.

Lemma seqZ_snoc n : 0 <= n -> seqZ 1 (n + 1) = seqZ 1 n ++ [n + 1].
Proof.
  intros Hn. rewrite seqZ_app by lia. f_equal. replace (1 + n) with (n + 1) by lia.
  reflexivity.
Qed.

Lemma chunk_inv_init cs : 0 < cs -> chunk_inv cs init.
Proof. intros H. unfold chunk_inv. cbn. repeat split; [constructor | lia | lia]. Qed.

Lemma chunk_inv_step zone_ids cs c i row :
  chunk_inv cs c -> chunk_inv cs (step zone_ids cs c i row).
Proof.
  intros (Hc & Hn & Hall & Hlt & Hp). unfold step, chunk_inv.
  destruct (validate_record_shape zone_ids row i) as [[t H] | [r H]]; rewrite H;
    cbv beta iota zeta; cbn [chunk chunk_count progress stats total_processed];
    rewrite length_app; cbn [length];
    (match goal with
     | |- context [Z.geb ?a ?b] => destruct (Z.geb_spec a b) as [Hfull | Hnot]
     end;
     cbn [chunk chunk_count progress stats total_processed];
     [ rewrite !length_app, !map_app; cbn [length map fst];
       rewrite Nat2Z.inj_add, seqZ_snoc, Hn, Hc by lia;
       split; [reflexivity |]; split; [reflexivity |];
       split; [apply Forall_app; split; [exact Hall | now constructor] |];
       split; [cbn; lia | cbn [length]; lia]
     | rewrite length_app; cbn [length];
       split; [exact Hc |]; split; [exact Hn |]; split; [exact Hall |]; lia ]).
Qed.

Lemma chunk_inv_loop zone_ids cs max_rows rows : forall i c,
  chunk_inv cs c -> chunk_inv cs (loop zone_ids cs max_rows rows i c).
Proof.
  induction rows as [| row rows IH]; intros i c H; cbn [loop]; [exact H |].
  destruct (cap_reached max_rows i); [exact H |].
  apply IH. now apply chunk_inv_step.
Qed.

End ChunkFacts.

Module ChunkExtras.

Import DataCleaner ValidatorFacts Views ChunkFacts IngestionFacts.

(** The progress report, for a positive chunk size, on a reader that
    may raise in mid-file: the chunks are numbered 1, 2, ... without a
    gap, and every reported chunk has [CHUNK_SIZE] rows except possibly
    the last, which has between 1 and [CHUNK_SIZE - 1] rows.  When the
    reader ends without raising, or the loop has stopped at the row
    cap, the run is that of [process_csv_chunks] and the reported rows
    add up to the number of rows processed.  When the reader raises,
    the handler skips the report of the rows left in the last chunk:
    every reported chunk is full and the reported rows fall short of
    the rows processed by the rows left, which are fewer than
    [CHUNK_SIZE]; the lists and counters are the same as without the
    exception.  A missing input file reports no chunk and processes no
    row. *)
Theorem chunks_report_every_row_once zone_ids chunk_size max_rows rows fails :
  0 < chunk_size ->
  let c := process_csv_reader zone_ids chunk_size max_rows rows fails init in
  chunk_count c = Z.of_nat (length (progress c)) /\
  map fst (progress c) = seqZ 1 (chunk_count c) /\
  (exists full last,
     progress c = full ++ last /\
     Forall (fun p => snd p = chunk_size) full /\
     (last = [] \/ exists n size, last = [(n, size)] /\ 1 <= size < chunk_size)) /\
  (fails && negb (stops_at_cap max_rows rows) = false ->
   c = process_csv_chunks zone_ids chunk_size max_rows (Some rows) init /\
   sumZ (map snd (progress c)) = total_processed (stats c)) /\
  (fails && negb (stops_at_cap max_rows rows) = true ->
   Forall (fun p => snd p = chunk_size) (progress c) /\
   Z.of_nat (length (chunk c)) < chunk_size /\
   sumZ (map snd (progress c)) = total_processed (stats c) - Z.of_nat (length (chunk c)) /\
   results c = results (process_csv_chunks zone_ids chunk_size max_rows (Some rows) init)) /\
  progress (process_csv_chunks zone_ids chunk_size max_rows None init) = [] /\
  total_processed (stats (process_csv_chunks zone_ids chunk_size max_rows None init)) = 0.
Proof.
  intros Hcs. cbv zeta.
  assert (Hsum : forall l : list (Z * Z),
             Forall (fun p => snd p = chunk_size) l ->
             sumZ (map snd l) = chunk_size * Z.of_nat (length l)).
  { induction l as [| p l IH]; intros Hl; [cbn; lia |].
    pose proof (Forall_inv Hl) as Hp. pose proof (Forall_inv_tail Hl) as Hl'.
    cbn [map sumZ fold_right length]. cbn beta in Hp.
    unfold sumZ in IH. rewrite (IH Hl'), Hp. lia. }
  assert (Hinv : chunk_inv chunk_size (loop zone_ids chunk_size max_rows rows 1 init))
    by (apply chunk_inv_loop; now apply chunk_inv_init).
  unfold process_csv_reader, process_csv_chunks. cbv zeta.
  set (c := loop zone_ids chunk_size max_rows rows 1 init) in *.
  destruct Hinv as (Hc & Hn & Hall & Hlt & Hp).
  assert (Hflush :
    chunk_count (flush c) = Z.of_nat (length (progress (flush c))) /\
    map fst (progress (flush c)) = seqZ 1 (chunk_count (flush c)) /\
    (exists full last,
       progress (flush c) = full ++ last /\
       Forall (fun p => snd p = chunk_size) full /\
       (last = [] \/ exists n size, last = [(n, size)] /\ 1 <= size < chunk_size)) /\
    sumZ (map snd (progress (flush c))) = total_processed (stats (flush c))).
  { unfold flush. destruct (chunk c) as [| o os] eqn:Ech.
    - rewrite Hc. split; [reflexivity |]. split; [exact Hn |].
      split; [exists (progress c), []; rewrite app_nil_r; auto |].
      rewrite (Hsum _ Hall), Hp. cbn. lia.
    - cbn [chunk_count progress stats]. rewrite length_app, map_app. cbn [length map fst].
      rewrite Nat2Z.inj_add. change (Z.of_nat 1) with 1.
      split; [lia |]. split.
      { rewrite Hc, seqZ_snoc, Hn by lia. reflexivity. }
      split.
      { exists (progress c), [(chunk_count c + 1, Z.of_nat (length (o :: os)))].
        split; [reflexivity |]. split; [exact Hall |]. right.
        do 2 eexists. split; [reflexivity |]. cbn [length] in *. lia. }
      rewrite map_app. unfold sumZ. rewrite fold_right_app. cbn [map snd fold_right].
      fold (sumZ (map snd (progress c))) in *.
      assert (Hfold : forall (l : list Z) a, fold_right Z.add a l = sumZ l + a).
      { induction l as [| x l IH]; intros a; cbn; [lia |]. unfold sumZ in *. rewrite IH. lia. }
      rewrite Hfold, (Hsum _ Hall), Hp. cbn [length]. lia. }
  destruct (fails && negb (stops_at_cap max_rows rows)) eqn:Eraise.
  - split; [exact Hc |]. split; [rewrite Hc; exact Hn |].
    split; [exists (progress c), []; rewrite app_nil_r; auto |].
    split; [discriminate |]. split; [| split; reflexivity].
    intros _. split; [exact Hall |]. split; [exact Hlt |].
    split; [rewrite (Hsum _ Hall), Hp; lia |].
    symmetry. apply results_flush.
  - destruct Hflush as (H1 & H2 & H3 & H4).
    split; [exact H1 |]. split; [exact H2 |]. split; [exact H3 |].
    split; [intros _; split; [reflexivity | exact H4] |].
    split; [discriminate | split; reflexivity].
Qed.

Lemma chunks_report_every_row_once_witness :
  progress (process_csv_reader standard_zone_ids 2 None
              [Samples.good; Samples.faulty; Samples.refund] false init)
  = [(1, 2); (2, 1)] /\
  sumZ (map snd (progress (process_csv_reader standard_zone_ids 2 None
                             [Samples.good; Samples.faulty; Samples.refund] false init)))
  = 3 /\
  progress (process_csv_reader standard_zone_ids 2 None
              [Samples.good; Samples.faulty; Samples.refund] true init)
  = [(1, 2)] /\
  sumZ (map snd (progress (process_csv_reader standard_zone_ids 2 None
                             [Samples.good; Samples.faulty; Samples.refund] true init)))
  = 3 - 1.
Proof.
  split; [vm_compute; reflexivity |]. split; [| split; [vm_compute; reflexivity |]].
  - destruct (chunks_report_every_row_once standard_zone_ids 2 None
                [Samples.good; Samples.faulty; Samples.refund] false)
      as (_ & _ & _ & Hok & _); [lia |].
    destruct (Hok eq_refl) as [_ Hsum]. rewrite Hsum. vm_compute. reflexivity.
  - destruct (chunks_report_every_row_once standard_zone_ids 2 None
                [Samples.good; Samples.faulty; Samples.refund] true)
      as (_ & _ & _ & _ & Hfail & _); [lia |].
    destruct (Hfail eq_refl) as (_ & _ & Hsum & _). rewrite Hsum. vm_compute. reflexivity.
Defined.

End ChunkExtras.
Module ValidatorExtras.

Import DataCleaner PyDatetime ValidatorFacts Views FloatFacts FloatBounds ValidatorMore.

(** The fields of a record returned as valid: its trip id is the row
    index; the passenger count is within 1..8; both zones are known
    zone ids; rate code, payment type and store-and-forward flag are in
    their closed sets; the two stored timestamps are the formatted
    parsed timestamps, both valid calendar times, the pickup in January
    2019 and the dropoff not at or before it; and hour_of_day is the
    pickup hour, within 0..23. *)
Theorem valid_record_field_ranges zone_ids row row_index t :
  snd (fst (_validate_record zone_ids row row_index)) = Some t ->
  trip_id t = row_index /\
  1 <= passenger_count t <= 8 /\
  pulocation_id t ∈ zone_ids /\ dolocation_id t ∈ zone_ids /\
  In (ratecode_id t) [1; 2; 3; 4; 5] /\
  In (payment_type t) [1; 2; 3; 4; 5] /\
  In (store_and_fwd_flag t) ["Y"; "N"] /\
  0 <= hour_of_day t <= 23 /\
  exists p d,
    _parse_datetime (row_get row "tpep_pickup_datetime") = Some p /\
    _parse_datetime (row_get row "tpep_dropoff_datetime") = Some d /\
    pickup_datetime t = strftime p /\ dropoff_datetime t = strftime d /\
    valid p = true /\ valid d = true /\
    year p = 2019 /\ month p = 1 /\ hour_of_day t = hour p /\
    PyDatetime.leb d p = false.
Proof.
  intros Hsome. apply validate_record_some in Hsome.
  destruct (validate_body_fields _ _ _ _ Hsome)
    as (Hid & (p & d & Hp & Hd & Hps & Hds & Hh & Hord & Hy & Hm)
        & Hpc1 & Hpc2 & Hpu & Hdo & Hrc & Hpt & Hsf & _).
  pose proof (parse_datetime_valid _ _ Hp) as Hvp.
  pose proof (parse_datetime_valid _ _ Hd) as Hvd.
  destruct (valid_ranges _ Hvp) as (_ & _ & _ & Hhour & _).
  apply Z.eqb_eq in Hy, Hm. apply Z.ltb_ge in Hpc1.
  rewrite Z.gtb_ltb in Hpc2. apply Z.ltb_ge in Hpc2.
  apply bool_decide_eq_true_1 in Hpu, Hdo.
  apply in_ints_In in Hrc, Hpt. apply in_strs_In in Hsf.
  unfold Config.min_passenger_count, Config.max_passenger_count in *.
  split; [exact Hid |]. split; [lia |]. split; [exact Hpu |]. split; [exact Hdo |].
  split; [exact Hrc |]. split; [exact Hpt |]. split; [exact Hsf |].
  split; [rewrite Hh; exact Hhour |].
  exists p, d. auto 12.
Qed.

Lemma valid_record_field_ranges_witness :
  1 <= passenger_count Samples.good_cleaned <= 8 /\
  0 <= hour_of_day Samples.good_cleaned <= 23.
Proof.
  destruct (valid_record_field_ranges standard_zone_ids Samples.good 1 Samples.good_cleaned)
    as (_ & Hpc & _ & _ & _ & _ & _ & Hh & _); [vm_compute; reflexivity |].
  split; assumption.
Defined.

(** The distance and the fare of a record returned as valid are the
    parsed values rounded to 2 decimals, and unless the text was [nan]
    the stored distance lies within [0, 50] and the stored fare within
    [0, 500]: rounding does not carry a value past the maximum. *)
Theorem valid_record_distance_and_fare_bounds zone_ids row row_index t :
  snd (fst (_validate_record zone_ids row row_index)) = Some t ->
  (exists x,
     _parse_float (row_get row "trip_distance") = Some x /\
     trip_distance t = PyFloat.round x 2 /\
     (PrimFloat.is_nan x = false -> between (trip_distance t) 50 = true)) /\
  (exists f,
     _parse_float (row_get row "fare_amount") = Some f /\
     fare_amount t = PyFloat.round f 2 /\
     (PrimFloat.is_nan f = false -> between (fare_amount t) 500 = true)).
Proof.
  intros Hsome. apply validate_record_some in Hsome.
  assert (E0 : PyFloat.of_int 0 = 0%float) by (vm_compute; reflexivity).
  assert (E50 : PyFloat.of_int Config.max_distance_miles = 50%float) by (vm_compute; reflexivity).
  assert (E500 : PyFloat.of_int Config.max_fare = 500%float) by (vm_compute; reflexivity).
  assert (H50 : Prim2SF 50%float = S754_finite false 7036874417766400 (-47))
    by (vm_compute; reflexivity).
  assert (H500 : Prim2SF 500%float = S754_finite false 8796093022208000 (-44))
    by (vm_compute; reflexivity).
  split.
  - destruct (validate_body_fields _ _ _ _ Hsome)
      as (_ & _ & _ & _ & _ & _ & _ & _ & _ & (x & Hx & Hlo & Hhi & Hr)).
    exists x. split; [exact Hx |]. split; [exact Hr |]. intros Hnan.
    unfold flt_lt_int, flt_gt_int in Hlo, Hhi. rewrite E0 in Hlo. rewrite E50 in Hhi.
    destruct (within_checks x 50 _ _ H50 Hnan Hlo Hhi) as [Hf Hle].
    rewrite Hr. now apply round2_le_50.
  - destruct (validate_body_money _ _ _ _ Hsome)
      as (f & Hf & Hlo & Hhi & Hr & _).
    exists f. split; [exact Hf |]. split; [exact Hr |]. intros Hnan.
    unfold flt_lt_int, flt_gt_int, Config.min_fare in Hlo, Hhi.
    rewrite E0 in Hlo. rewrite E500 in Hhi.
    destruct (within_checks f 500 _ _ H500 Hnan Hlo Hhi) as [Hfn Hle].
    rewrite Hr. now apply round2_le_500.
Qed.

Lemma valid_record_distance_and_fare_bounds_witness :
  between (trip_distance Samples.good_cleaned) 50 = true /\
  between (fare_amount Samples.good_cleaned) 500 = true.
Proof.
  destruct (valid_record_distance_and_fare_bounds standard_zone_ids Samples.good 1
              Samples.good_cleaned) as [(x & Hx & _ & Hd) (f & Hf & _ & Hfa)];
    [vm_compute; reflexivity |].
  vm_compute in Hx. injection Hx as <-. vm_compute in Hf. injection Hf as <-.
  split; [apply Hd | apply Hfa]; vm_compute; reflexivity.
Defined.

(** [_parse_int] raises only for a text that reads as an infinite
    number, and then always ([OverflowError] is not among the exceptions
    it catches); a text that reads as NaN gives [None], and every other
    number gives an integer. *)
Theorem parse_int_raises_only_on_infinity v :
  (forall e, _parse_int v = Raise e ->
     e = OverflowError "cannot convert float infinity to integer" /\
     exists s x sgn, v = Some s /\ PyFloat.of_string s = Some x /\
                     Prim2SF x = S754_infinity sgn) /\
  (forall s x, v = Some s -> s <> "" -> PyFloat.of_string s = Some x ->
     match Prim2SF x with
     | S754_infinity _ =>
         _parse_int v = Raise (OverflowError "cannot convert float infinity to integer")
     | S754_nan => _parse_int v = Return None
     | _ => exists n, _parse_int v = Return (Some n)
     end).
Proof.
  split.
  - intros e. unfold _parse_int, int_of_float.
    destruct v as [[| c s] |]; try discriminate.
    destruct (PyFloat.of_string (String c s)) as [x |] eqn:Ex; [| discriminate].
    destruct (Prim2SF x) as [sg | sg | | sg m ex] eqn:Ep; try discriminate.
    intros H. injection H as <-. split; [reflexivity |]. eauto 6.
  - intros s x -> Hne Hx. unfold _parse_int, int_of_float.
    destruct s as [| c s]; [contradiction |]. rewrite Hx.
    destruct (Prim2SF x) as [sg | sg | | sg m ex]; eauto.
Qed.

End ValidatorExtras.

(* ===================================================================== *)
(** * The duration of a valid trip *)
(* ===================================================================== *)

Module DurationFacts.

Import DataCleaner PyDatetime ValidatorFacts Views FloatFacts FloatBounds DivisorFacts.
Import ValidatorMore.

(** ** Results that are numbers *)

Lemma shr_nonneg mrs e n : 0 <= shr_m mrs -> 0 <= shr_m (fst (shr mrs e n)).
Proof.
  intros Hm. unfold shr. destruct n as [| p | p]; cbn [fst]; try exact Hm.
  rewrite iter_pos_nat. now apply shr_iter_ge.
Qed.

Lemma shr_fexp_nonneg m e l : 0 <= m -> 0 <= shr_m (fst (shr_fexp prec emax m e l)).
Proof.
  intros Hm. unfold shr_fexp. apply shr_nonneg. now rewrite shr_record_of_loc_m.
Qed.

Lemma binary_round_aux_not_nan s mx ex lx :
  0 <= mx -> binary_round_aux prec emax s mx ex lx <> S754_nan.
Proof.
  intros Hmx. unfold binary_round_aux.
  pose proof (shr_fexp_nonneg mx ex lx Hmx) as H1.
  destruct (shr_fexp prec emax mx ex lx) as [mrs' e']. cbn [fst] in H1.
  pose proof (rne_bounds mrs') as Hrne.
  pose proof (shr_fexp_nonneg (round_nearest_even (shr_m mrs') (loc_of_shr_record mrs')) e'
                loc_Exact ltac:(lia)) as H2.
  destruct (shr_fexp prec emax _ e' loc_Exact) as [mrs'' e'']. cbn [fst] in H2.
  destruct (shr_m mrs'') as [| p | p]; [discriminate | | lia].
  destruct (e'' <=? emax - prec); discriminate.
Qed.

Lemma of_uint63_not_nan i : Prim2SF (of_uint63 i) <> S754_nan.
Proof.
  rewrite of_uint63_spec. unfold binary_normalize.
  destruct (Uint63.to_Z i) as [| p | p]; [discriminate | |];
    unfold binary_round; destruct (shl_align p 0 _) as [mz ez];
    apply binary_round_aux_not_nan; lia.
Qed.

Lemma of_int_not_nan z : Prim2SF (PyFloat.of_int z) <> S754_nan.
Proof.
  unfold PyFloat.of_int. destruct (z <? 0).
  - rewrite FloatAxioms.opp_spec. pose proof (of_uint63_not_nan (Uint63.of_Z (- z))) as H.
    destruct (Prim2SF (of_uint63 (Uint63.of_Z (- z)))); cbn; congruence.
  - apply of_uint63_not_nan.
Qed.

(** A number divided by a finite number that is not zero is a number. *)
Lemma div_not_nan a b sb mb eb :
  Prim2SF a <> S754_nan -> Prim2SF b = S754_finite sb mb eb ->
  Prim2SF (a / b)%float <> S754_nan.
Proof.
  intros Ha Eb. rewrite FloatAxioms.div_spec, Eb. unfold SF64div.
  destruct (Prim2SF a) as [sa | sa | | sa ma ea]; try discriminate; [contradiction |].
  cbn [SFdiv].
  pose proof (SFdiv_core_spec ma ea mb eb) as Hcore. cbv zeta in Hcore. rewrite Hcore.
  apply binary_round_aux_not_nan. apply Z.div_pos; [| lia].
  apply Z.mul_nonneg_nonneg; [lia |]. apply Z.pow_nonneg. lia.
Qed.

(** ** A number between two positive finite bounds *)

Lemma within_lo_hi x lo hi mlo elo mhi ehi :
  Prim2SF lo = S754_finite false mlo elo -> Prim2SF hi = S754_finite false mhi ehi ->
  Prim2SF x <> S754_nan ->
  PrimFloat.ltb x lo = false -> PrimFloat.ltb hi x = false ->
  exists m e, Prim2SF x = S754_finite false m e /\
              PrimFloat.leb lo x = true /\ PrimFloat.leb x hi = true.
Proof.
  intros Elo Ehi Hn. rewrite !FloatAxioms.ltb_spec, !FloatAxioms.leb_spec, Elo, Ehi.
  destruct (Prim2SF x) as [s | [|] | | [|] m e]; intros Hlo Hhi;
    try contradiction; try (cbn in Hlo; discriminate Hlo); try (cbn in Hhi; discriminate Hhi).
  exists m, e. split; [reflexivity |].
  assert (Hnlo : ~ (e < elo \/ (e = elo /\ Zpos m < Zpos mlo))).
  { intros Hlt. apply SFltb_finite in Hlt. rewrite Hlt in Hlo. discriminate Hlo. }
  assert (Hnhi : ~ (ehi < e \/ (ehi = e /\ Zpos mhi < Zpos m))).
  { intros Hlt. apply SFltb_finite in Hlt. rewrite Hlt in Hhi. discriminate Hhi. }
  split; apply SFleb_finite; lia.
Qed.

(** ** Rounding to decimals, from below *)

Lemma rhe_ge n d L : 0 < d -> (2 * L - 1) * d < 2 * n -> L <= PyFloat.rhe n d.
Proof.
  intros Hd Hn. unfold PyFloat.rhe.
  pose proof (Z.div_mod n d ltac:(lia)) as Hdm.
  pose proof (Z.mod_pos_bound n d Hd) as Hmod.
  destruct (Z.compare_spec (2 * (n mod d)) d) as [E | E | E];
    [destruct (Z.even (n / d)) | |]; nia.
Qed.

Lemma all_rounded_ge_from_spec w nd count : forall a,
  all_rounded_ge_from w nd a count = true ->
  forall n, a <= n < a + Z.of_nat count ->
  PrimFloat.leb w (PyFloat.of_int n / PyFloat.of_int (10 ^ nd)) = true.
Proof.
  induction count as [| k IH]; intros a Hall n Hn; [lia |].
  cbn [all_rounded_ge_from] in Hall. apply Bool.andb_true_iff in Hall.
  destruct Hall as [Hhere Hrest].
  destruct (Z.eq_dec n a) as [-> | Hne]; [exact Hhere |].
  apply (IH (a + 1) Hrest). lia.
Qed.

(** [lo <= round(x, nd)] when [lo <= x <= hi], for constants for which
    the finitely many candidates have been checked. *)
Lemma round_ge_const x lo hi mlo elo mhi ehi nd L N :
  Prim2SF lo = S754_finite false mlo elo -> Prim2SF hi = S754_finite false mhi ehi ->
  ehi < 0 -> 0 <= nd ->
  (2 * L - 1) * 2 ^ (- elo) < 2 * Zpos mlo * 10 ^ nd ->
  2 * Zpos mhi * 10 ^ nd < (2 * (L + Z.of_nat N) - 1) * 2 ^ (- ehi) ->
  L + Z.of_nat N < 2 ^ 53 ->
  all_rounded_ge_from lo nd L N = true ->
  (exists m e, Prim2SF x = S754_finite false m e) ->
  PrimFloat.leb lo x = true -> PrimFloat.leb x hi = true ->
  PrimFloat.leb lo (PyFloat.round x nd) = true.
Proof.
  intros Elo Ehi Hehi Hnd Hlow Hhigh HN Hall (m & e & Ex) Hge Hle.
  unfold PyFloat.round. rewrite Ex.
  rewrite FloatAxioms.leb_spec, Ex in Hge, Hle. rewrite Elo in Hge. rewrite Ehi in Hle.
  pose proof (Prim2SF_bounded x _ _ _ Ex) as Hbx.
  destruct (SFleb_value _ _ _ _ Hbx (Prim2SF_bounded hi _ _ _ Ehi) Hle) as [He Hval].
  destruct (SFleb_value _ _ _ _ (Prim2SF_bounded lo _ _ _ Elo) Hbx Hge) as [Helo Hvlo].
  assert (Hp : 0 < 2 ^ (- e)) by (apply Z.pow_pos_nonneg; lia).
  assert (H10 : 0 < 10 ^ nd) by (apply Z.pow_pos_nonneg; lia).
  assert (Hbounds : L <= PyFloat.scaled m e nd < L + Z.of_nat N).
  { unfold PyFloat.scaled. destruct (Z.leb_spec 0 e) as [Hbad | _]; [lia |]. split.
    - apply rhe_ge; [exact Hp |].
      assert (Hsplit : 2 ^ (- elo) = 2 ^ (- e) * 2 ^ (e - elo))
        by (rewrite <- Z.pow_add_r by lia; f_equal; lia).
      assert (Hpe : 0 < 2 ^ (e - elo)) by (apply Z.pow_pos_nonneg; lia).
      rewrite Hsplit in Hlow. nia.
    - assert (Hup : PyFloat.rhe (Zpos m * 10 ^ nd) (2 ^ (- e)) <= L + Z.of_nat N - 1).
      { apply rhe_le; [exact Hp |].
        assert (Hsplit : 2 ^ (- e) = 2 ^ (- ehi) * 2 ^ (ehi - e))
          by (rewrite <- Z.pow_add_r by lia; f_equal; lia).
        assert (Hpe : 0 < 2 ^ (ehi - e)) by (apply Z.pow_pos_nonneg; lia).
        rewrite Hsplit. nia. }
      lia. }
  destruct (Z.ltb_spec (PyFloat.scaled m e nd) (2 ^ 53)) as [_ | Hbad]; [| lia].
  apply (all_rounded_ge_from_spec lo nd N L Hall). exact Hbounds.
Qed.

(** ** The duration check of the validator *)

Lemma validate_body_duration zone_ids row row_index t :
  validate_body zone_ids row row_index = Return (true, Some t, None) ->
  exists p d,
    _parse_datetime (row_get row "tpep_pickup_datetime") = Some p /\
    _parse_datetime (row_get row "tpep_dropoff_datetime") = Some d /\
    let minutes := PrimFloat.div (total_seconds d p) (PyFloat.of_int 60) in
    flt_lt_int minutes Config.min_trip_duration_minutes = false /\
    flt_gt_int minutes Config.max_trip_duration_minutes = false /\
    trip_duration_minutes t = PyFloat.round minutes 2.
Proof.
  intros H. unfold validate_body, reject, bind in H.
  repeat first [ discriminate H | injection H as <- | break_hyp H ].
  cbn. do 2 eexists. repeat (split; [first [reflexivity | eassumption] |]). reflexivity.
Qed.

Lemma minutes_between q :
  Prim2SF q <> S754_nan ->
  PrimFloat.ltb q 1 = false -> PrimFloat.ltb 1440 q = false ->
  PrimFloat.leb 1 (PyFloat.round q 2) = true /\ PrimFloat.leb (PyFloat.round q 2) 1440 = true.
Proof.
  intros Hn Hlo Hhi.
  assert (H1440 : Prim2SF 1440%float = S754_finite false 6333186975989760 (-42))
    by (vm_compute; reflexivity).
  destruct (within_lo_hi q 1 1440 _ _ _ _ Prim2SF_one H1440 Hn Hlo Hhi)
    as (m & e & Eq & Hge & Hle).
  assert (Hfn : finite_nonneg (Prim2SF q) = true) by (rewrite Eq; reflexivity).
  split.
  - assert (Hlow : (2 * 100 - 1) * 2 ^ (- (-52)) < 2 * Zpos 4503599627370496 * 10 ^ 2)
      by (vm_compute; reflexivity).
    assert (Hhigh : 2 * Zpos 6333186975989760 * 10 ^ 2
                    < (2 * (100 + Z.of_nat (Z.to_nat 143901)) - 1) * 2 ^ (- (-42)))
      by (vm_compute; reflexivity).
    assert (HN : 100 + Z.of_nat (Z.to_nat 143901) < 2 ^ 53) by (vm_compute; reflexivity).
    assert (Hall : all_rounded_ge_from 1 2 100 (Z.to_nat 143901) = true)
      by (vm_compute; reflexivity).
    apply (round_ge_const q 1 1440 _ _ _ _ 2 100 (Z.to_nat 143901) Prim2SF_one H1440
             ltac:(lia) ltac:(lia) Hlow Hhigh HN Hall); eauto.
  - assert (Hc : 2 * Zpos 6333186975989760 * 10 ^ 2
                 < (2 * Z.of_nat (Z.to_nat 144000) + 1) * 2 ^ (- (-42)))
      by (vm_compute; reflexivity).
    assert (HN : Z.of_nat (Z.to_nat 144000) < 2 ^ 53) by (vm_compute; reflexivity).
    assert (Hall : all_rounded_le 1440 2 (Z.to_nat 144000) = true)
      by (apply all_rounded_le_from_all; vm_compute; reflexivity).
    apply (round_le_const q 1440 _ _ 2 _ H1440 ltac:(lia) ltac:(lia) Hc HN Hall Hfn Hle).
Qed.

End DurationFacts.

Module DurationExtras.

Import DataCleaner PyDatetime ValidatorFacts Views FloatFacts FloatBounds DivisorFacts.
Import ValidatorMore DurationFacts.

(** The duration of a record returned as valid is the time from the
    parsed pickup to the parsed dropoff in minutes, rounded to 2
    decimals, and it lies within [1, 1440]: the duration is always a
    number, so both checks bite, and rounding carries no value below
    the minimum or past the maximum. *)
Theorem valid_record_duration_bounds zone_ids row row_index t :
  snd (fst (_validate_record zone_ids row row_index)) = Some t ->
  (exists p d,
     _parse_datetime (row_get row "tpep_pickup_datetime") = Some p /\
     _parse_datetime (row_get row "tpep_dropoff_datetime") = Some d /\
     trip_duration_minutes t
     = PyFloat.round (PrimFloat.div (total_seconds d p) (PyFloat.of_int 60)) 2) /\
  PrimFloat.leb 1 (trip_duration_minutes t) = true /\
  PrimFloat.leb (trip_duration_minutes t) 1440 = true.
Proof.
  intros Hsome. apply validate_record_some in Hsome.
  destruct (validate_body_duration _ _ _ _ Hsome) as (p & d & Hp & Hd & Hlo & Hhi & Hr).
  split; [eauto |].
  assert (E1 : PyFloat.of_int Config.min_trip_duration_minutes = 1%float)
    by (vm_compute; reflexivity).
  assert (E1440 : PyFloat.of_int Config.max_trip_duration_minutes = 1440%float)
    by (vm_compute; reflexivity).
  assert (E60 : Prim2SF (PyFloat.of_int 60) = S754_finite false 8444249301319680 (-47))
    by (vm_compute; reflexivity).
  unfold flt_lt_int, flt_gt_int in Hlo, Hhi. rewrite E1 in Hlo. rewrite E1440 in Hhi.
  rewrite Hr. apply minutes_between; [| exact Hlo | exact Hhi].
  unfold total_seconds. exact (div_not_nan _ _ _ _ _ (of_int_not_nan _) E60).
Qed.

Lemma valid_record_duration_bounds_witness :
  PrimFloat.leb 1 (trip_duration_minutes Samples.good_cleaned) = true /\
  PrimFloat.leb (trip_duration_minutes Samples.good_cleaned) 1440 = true.
Proof.
  apply (valid_record_duration_bounds standard_zone_ids Samples.good 1 Samples.good_cleaned).
  vm_compute. reflexivity.
Defined.

End DurationExtras.

(* ===================================================================== *)
(** * The zone ids *)
(* ===================================================================== *)

Module ZoneIdExtras.

Import DataCleaner Views.




End ZoneIdExtras.

(* ===================================================================== *)
(** * The engine never faults, and every bucket has its zone *)
(* ===================================================================== *)

Module EngineMore.

Import DataCleaner RiskEngine Views PyDictFacts ExposureFacts RevenueFacts.
Import FloatFacts FloatBounds RiskFacts.

Lemma zone_revenue_metric_returns z fares :
  fares <> [] -> exists zm, zone_revenue_metric z fares = Return zm /\ zr_zone_id zm = z.
Proof.
  intros Hne. rewrite zone_revenue_metric_value by assumption.
  eexists. split; reflexivity.
Qed.


(** The trips behind a key of the exposure aggregation. *)
Lemma zone_hour_trips_has_trip l : forall key data,
  In (key, data) (zone_hour_trips l) -> exists t, In t l /\ key_of t = key.
Proof.
  induction l as [| t l IH] using rev_ind; intros key data; [intros [] |].
  rewrite zone_hour_trips_snoc. cbv zeta. intros Hin. apply in_set in Hin.
  destruct Hin as [[-> _] | Hin].
  - exists t. split; [apply in_or_app; right; now left | reflexivity].
  - destruct (IH _ _ Hin) as (t' & Ht' & Hk). exists t'. split; [| exact Hk].
    apply in_or_app. now left.
Qed.

End EngineMore.

Module EngineExtras.

Import DataCleaner RiskEngine Views PyDictFacts ExposureFacts RevenueFacts.
Import FloatFacts FloatBounds RiskFacts EngineMore.


(** Every zone-hour bucket comes from at least one trip, and its zone
    has revenue metrics: the lookup of the zone in the revenue metrics,
    which the risk score guards with a default of 0.0, never misses. *)
Theorem every_bucket_zone_has_revenue_metrics cleaned m key metrics :
  compute cleaned = Return m ->
  In (key, metrics) (zone_hour_metrics m) ->
  (exists t, In t cleaned /\ key_of t = key) /\
  exists zm, PyDict.get (zone_revenue_metrics m) (fst key) = Some zm /\
             zr_zone_id zm = fst key.
Proof.
  intros Hrun Hin. rewrite compute_eq in Hrun. unfold bind in Hrun.
  destruct (compute_revenue_volatility cleaned) as [zrm |] eqn:Erev; [| discriminate].
  injection Hrun as <-. cbn [zone_hour_metrics zone_revenue_metrics] in *.
  unfold exposure_of in Hin. apply in_map_iff in Hin.
  destruct Hin as ([[z h] data] & E & Hin). injection E as <- _.
  destruct (zone_hour_trips_has_trip _ _ _ Hin) as (t & Ht & Hk).
  split; [eauto |]. cbn [fst].
  assert (Hz : pulocation_id t = z) by (unfold key_of in Hk; congruence).
  pose proof (zone_fares_spec cleaned z) as Hspec.
  destruct (PyDict.get (zone_fares cleaned) z) as [fares |] eqn:Eg.
  - destruct Hspec as [_ Hne].
    destruct (revenue_pass_complete _ _ _ _ Erev Eg Hne) as (zm & Hget & Hzm).
    exists zm. split; [exact Hget |].
    destruct (zone_revenue_metric_returns z fares Hne) as (zm' & Hzm' & Hid). congruence.
  - exfalso. assert (Hin' : In (total_amount t) (fares_of z cleaned)).
    { unfold fares_of. apply in_map. apply filter_In. split; [exact Ht |].
      now apply bool_decide_eq_true_2. }
    rewrite Hspec in Hin'. exact Hin'.
Qed.

Lemma every_bucket_zone_has_revenue_metrics_witness :
  exists zm, PyDict.get [(1, mkZRM 1 10.5 0.25 0.5 0.9762)] 1 = Some zm /\ zr_zone_id zm = 1.
Proof.
  pose (m := match compute Samples.trips_close with
             | Return m => m
             | Raise _ => mkMetrics [] [] []
             end).
  destruct (every_bucket_zone_has_revenue_metrics Samples.trips_close m (1, 8)
              (mkZHM 1 8 2 13.5 2)) as [_ H].
  - vm_compute. reflexivity.
  - vm_compute. left. reflexivity.
  - exact H.
Defined.

End EngineExtras.
Module DivisorExtras.

Import DataCleaner RiskEngine Views PyDictFacts ExposureFacts RevenueFacts.
Import FloatFacts FloatBounds DivisorFacts RiskFacts.

(** No division of the engine meets a zero divisor.  The body of the
    second step would raise [ZeroDivisionError] on a zone without
    fares, but the first pass never stores an empty list, so the body
    returns for every zone it is applied to.  Every zone-hour key has a
    count of at least 1, which converts to a float that is not zero.
    The divisor of the stability score is not zero for any mean, not
    even the smallest positive one: [stability] returns the value of
    the formula for every mean and standard deviation.  And of the two
    denominators of the third step, the largest trip count is at least
    1 and the largest volatility is never equal to zero. *)
Theorem divisors_never_zero cleaned :
  (forall z, zone_revenue_metric z [] = Raise (ZeroDivisionError "float division by zero")) /\
  (forall z fares, PyDict.get (zone_fares cleaned) z = Some fares ->
     fares <> [] /\ exists zm, zone_revenue_metric z fares = Return zm) /\
  (forall key data, In (key, data) (zone_hour_trips cleaned) ->
     1 <= count data /\
     (count data < 2 ^ 53 -> PyFloat.truthy (PyFloat.of_int (count data)) = true) /\
     exists m, zone_hour_metric (fst key) (snd key) data = Return m) /\
  (forall mean_fare std_dev,
     stability mean_fare std_dev = Return (stability_formula mean_fare std_dev)) /\
  stability 0x1p-1074 0 = Return 1%float /\
  (exists zhm zrm,
     compute_exposure_density cleaned = Return zhm /\
     compute_revenue_volatility cleaned = Return zrm /\
     1 <= max_trip_count zhm /\
     PrimFloat.eqb (max_volatility zrm) 0 = false).
Proof.
  split; [intros z; reflexivity |]. split; [| split; [| split; [| split]]].
  - intros z fares Hget. pose proof (zone_fares_spec cleaned z) as Hspec.
    rewrite Hget in Hspec. destruct Hspec as [_ Hne]. split; [exact Hne |].
    rewrite zone_revenue_metric_value by assumption. eauto.
  - intros key data Hin. pose proof (zone_hour_trips_counts _ _ _ Hin) as Hc.
    split; [lia |]. split; [intros Hlt; apply of_int_not_zero; lia |].
    rewrite zone_hour_metric_returns. eauto.
  - exact stability_spec.
  - vm_compute. reflexivity.
  - destruct (revenue_pass_returns (zone_fares cleaned)) as [zrm Hzrm].
    exists (exposure_of cleaned), zrm.
    split; [apply compute_exposure_density_returns |]. split; [exact Hzrm |]. split.
    + destruct (max_trip_count_spec (exposure_of cleaned)) as [_ [[_ ->] | (k & m & Hin & <-)]];
        [lia |].
      pose proof (exposure_counts _ _ _ Hin). lia.
    + unfold max_volatility. cbv zeta.
      destruct (PrimFloat.eqb (PyFloat.max_default 1 _) 0) eqn:E; [reflexivity | exact E].
Qed.

End DivisorExtras.

(* ===================================================================== *)
(** * The stability score *)
(* ===================================================================== *)

Module StabilityFacts.

Import DataCleaner RiskEngine Views FloatFacts FloatBounds RiskFacts EngineMore.

Lemma binary_round_aux_sign_gen s m e l :
  match binary_round_aux prec emax s m e l with
  | S754_zero s' | S754_infinity s' | S754_finite s' _ _ => s' = s
  | S754_nan => True
  end.
Proof.
  unfold binary_round_aux.
  destruct (shr_fexp prec emax m e l) as [mrs' e'].
  destruct (shr_fexp prec emax _ e' loc_Exact) as [mrs'' e''].
  destruct (shr_m mrs''); [reflexivity | | exact I].
  destruct (e'' <=? emax - prec)%Z; reflexivity.
Qed.

Lemma shl_align_value m e e' :
  e' <= e -> Zpos (fst (shl_align m e e')) = Zpos m * 2 ^ (e - e').
Proof.
  intros He. unfold shl_align. destruct (e' - e) as [| d | d] eqn:Ed; cbn [fst].
  - replace (e - e') with 0 by lia. change (2 ^ 0) with 1. lia.
  - lia.
  - change (PosDef.Pos.iter xO m d) with (Pos.iter xO m d).
    rewrite pos_iter_xO. f_equal. f_equal. lia.
Qed.

Lemma digits_shift (m d : positive) :
  Zdigits2 (Zpos (Pos.iter xO m d)) = Zpos (digits2_pos m) + Zpos d.
Proof.
  destruct (digits2_pos_bounds m) as [Hlo Hhi].
  assert (Hp : 0 < 2 ^ Zpos d) by (apply Z.pow_pos_nonneg; lia).
  apply Z.le_antisymm.
  - apply Zdigits2_le; [lia | lia |]. rewrite pos_iter_xO, Z.pow_add_r by lia. nia.
  - apply Zdigits2_ge; [lia |]. rewrite pos_iter_xO.
    replace (Zpos (digits2_pos m) + Zpos d - 1) with (Zpos (digits2_pos m) - 1 + Zpos d) by lia.
    rewrite Z.pow_add_r by lia. nia.
Qed.

(** A positive integer multiple of a power of two that is at most a
    normal number rounds to a number that is at most that. *)
Lemma binary_round_le (M : positive) e (mB : positive) eB :
  e <= eB -> -1074 <= eB <= 971 -> 2 ^ 52 <= Zpos mB < 2 ^ 53 ->
  Zpos M <= Zpos mB * 2 ^ (eB - e) ->
  SFleb (binary_round prec emax false M e) (S754_finite false mB eB) = true.
Proof.
  intros He HeB HmB Hval. unfold binary_round, shl_align.
  set (et := fexp prec emax (Zpos (digits2_pos M) + e)).
  destruct (et - e) as [| d | d] eqn:Ed.
  - apply round_aux_le; try assumption; try lia.
    cbn [Zdigits2]. fold et. lia.
  - apply round_aux_le; try assumption; try lia.
    cbn [Zdigits2]. fold et. lia.
  - change (PosDef.Pos.iter xO M d) with (Pos.iter xO M d).
    assert (Het : et = e - Zpos d) by lia.
    apply round_aux_le; try assumption; try lia.
    + rewrite digits_shift.
      replace (Zpos (digits2_pos M) + Zpos d + et) with (Zpos (digits2_pos M) + e) by lia.
      fold et. lia.
    + cbn [inexact Z.b2z]. rewrite pos_iter_xO.
      replace (eB - et) with (eB - e + Zpos d) by lia. rewrite Z.pow_add_r by lia.
      assert (0 < 2 ^ Zpos d) by (apply Z.pow_pos_nonneg; lia). nia.
Qed.

(** [max(0, 1 - q)] lies between 0 and 1 when [q] is not below zero. *)
Lemma one_minus_clamped q :
  PrimFloat.ltb q 0 = false ->
  finite_nonneg (Prim2SF (PyFloat.max2 0 (1 - q)%float)) = true /\
  PrimFloat.leb (PyFloat.max2 0 (1 - q)%float) 1 = true.
Proof.
  intros Hq. unfold PyFloat.max2.
  destruct (PrimFloat.ltb 0 (1 - q)%float) eqn:Hpos; [| split; reflexivity].
  rewrite FloatAxioms.leb_spec, Prim2SF_one.
  rewrite FloatAxioms.ltb_spec, Prim2SF_zero in Hq, Hpos.
  rewrite FloatAxioms.sub_spec, Prim2SF_one in *. unfold SF64sub in *.
  destruct (Prim2SF q) as [s | [|] | | [|] mq eq]; try discriminate Hq; try discriminate Hpos.
  - split; reflexivity.
  - cbn [SFsub cond_Zopp] in *.
    change IntDef.Z.min with Z.min in *.
    set (ez := Z.min (-52) eq) in *.
    assert (Hez1 : ez <= -52) by (unfold ez; lia).
    assert (Hez2 : ez <= eq) by (unfold ez; lia).
    rewrite (shl_align_value 4503599627370496 (-52) ez Hez1) in *.
    rewrite (shl_align_value mq eq ez Hez2) in *.
    assert (HB : 0 < Zpos mq * 2 ^ (eq - ez)).
    { assert (0 < 2 ^ (eq - ez)) by (apply Z.pow_pos_nonneg; lia). nia. }
    destruct (Zpos 4503599627370496 * 2 ^ (-52 - ez) - Zpos mq * 2 ^ (eq - ez))
      as [| M | M] eqn:EM; cbn [binary_normalize] in *.
    + discriminate Hpos.
    + assert (Hle : SFleb (binary_round prec emax false M ez)
                          (S754_finite false 4503599627370496 (-52)) = true).
      { apply binary_round_le;
          first [lia | split; [apply Z.le_refl | reflexivity]]. }
      split; [| exact Hle].
      refine (finite_nonneg_of_le _ _ _ _ Hle).
      unfold binary_round. destruct (shl_align M ez _) as [mz ez'].
      apply binary_round_aux_sign.
    + exfalso. unfold binary_round in Hpos. destruct (shl_align M ez _) as [mz ez'].
      pose proof (binary_round_aux_sign_gen true (Zpos mz) ez' loc_Exact) as Hs.
      destruct (binary_round_aux prec emax true (Zpos mz) ez' loc_Exact)
        as [s' | s' | | s' m' e']; try subst s'; discriminate Hpos.
Qed.

(** The ratio of a number not below zero and a number without a minus
    sign is not below zero. *)
Lemma div_not_below_zero a b :
  PrimFloat.ltb a 0 = false -> not_negative (Prim2SF b) = true ->
  PrimFloat.ltb (a / b)%float 0 = false.
Proof.
  rewrite !FloatAxioms.ltb_spec, FloatAxioms.div_spec, Prim2SF_zero. unfold SF64div.
  destruct (Prim2SF a) as [sa | [|] | | [|] ma ea]; intros Ha; try discriminate Ha;
  destruct (Prim2SF b) as [[|] | [|] | | [|] mb eb]; intros Hb; try discriminate Hb;
    try reflexivity.
  cbn [SFdiv xorb].
  destruct (SFdiv_core_binary prec emax (Zpos ma) ea (Zpos mb) eb) as [[mz ez] lz].
  pose proof (binary_round_aux_sign mz ez lz) as Hs.
  destruct (binary_round_aux prec emax false mz ez lz) as [[|] | [|] | | [|] m' e'];
    first [reflexivity | discriminate Hs].
Qed.

Lemma max_possible_std_sign mean :
  not_negative (Prim2SF (if PrimFloat.ltb 0 mean then (mean * 2)%float else 1%float)) = true.
Proof.
  destruct (PrimFloat.ltb 0 mean) eqn:Hpos; [| reflexivity].
  rewrite FloatAxioms.ltb_spec, Prim2SF_zero in Hpos.
  rewrite FloatAxioms.mul_spec. unfold SF64mul.
  change (Prim2SF 2) with (S754_finite false 4503599627370496 (-51)).
  destruct (Prim2SF mean) as [s | [|] | | [|] m e]; try discriminate Hpos; try reflexivity.
  cbn [SFmul xorb]. apply binary_round_aux_sign.
Qed.

Lemma stability_between mean std_dev :
  PrimFloat.ltb std_dev 0 = false ->
  between (PyFloat.round (stability_formula mean std_dev) 4) 1 = true.
Proof.
  intros Hstd. unfold stability_formula. cbv zeta.
  destruct (one_minus_clamped _ (div_not_below_zero _ _ Hstd (max_possible_std_sign mean)))
    as [Hf Hle].
  now apply round4_le_one.
Qed.

End StabilityFacts.

Module StabilityExtras.

Import DataCleaner RiskEngine Views FloatFacts FloatBounds RiskFacts EngineMore StabilityFacts.

(** The stability score of every zone lies within [0, 1], whatever the
    totals of the zone are (a score that cannot be computed as a number
    is stored as 0), and the stored standard deviation is never below
    zero. *)
Theorem stability_score_within_unit_interval cleaned m z zm :
  compute cleaned = Return m ->
  In (z, zm) (zone_revenue_metrics m) ->
  between (stability_score zm) 1 = true /\
  PrimFloat.ltb (revenue_std_dev zm) 0 = false.
Proof.
  intros Hrun Hin. rewrite compute_eq in Hrun. unfold bind in Hrun.
  destruct (compute_revenue_volatility cleaned) as [zrm |] eqn:Erev; [| discriminate].
  injection Hrun as <-. cbn [zone_revenue_metrics] in Hin.
  destruct (revenue_pass_In _ _ _ _ Erev Hin) as [fares Hfares].
  split; [| exact (std_dev_not_below_zero _ _ _ Hfares)].
  destruct fares as [| f fs]; [discriminate Hfares |].
  rewrite RevenueFacts.zone_revenue_metric_value in Hfares by discriminate.
  injection Hfares as <-. cbn [stability_score].
  apply stability_between. apply sqrt_not_below_zero.
Qed.

Lemma stability_score_within_unit_interval_witness :
  between (stability_score (mkZRM 1 10.5 0.25 0.5 0.9762)) 1 = true.
Proof.
  pose (m := match compute Samples.trips_close with
             | Return m => m
             | Raise _ => mkMetrics [] [] []
             end).
  destruct (stability_score_within_unit_interval Samples.trips_close m 1
              (mkZRM 1 10.5 0.25 0.5 0.9762)) as [H _].
  - vm_compute. reflexivity.
  - vm_compute. left. reflexivity.
  - exact H.
Defined.

End StabilityExtras.

(* ===================================================================== *)
(** * The order of the rows of the three outputs *)
(* ===================================================================== *)

Module OrderFacts.

Import DataCleaner RiskEngine Views PyDictFacts ExposureFacts RevenueFacts.

(** A dictionary filled by one assignment for each element of a list
    has the keys of the elements, each once, in the order in which they
    first appear. *)
Lemma keys_fold {T K V : Type} `{EqDecision K} (k : T -> K) (v : list (K * V) -> T -> V) l :
  PyDict.keys (fold_left (fun d t => PyDict.set d (k t) (v d t)) l [])
  = rev (remove_dups (rev (map k l))).
Proof.
  induction l as [| t l IH] using rev_ind; [reflexivity |].
  rewrite fold_left_app, map_app, rev_app_distr. cbn [fold_left map rev app remove_dups].
  set (d := fold_left _ l []) in *.
  assert (Hmem : In (k t) (PyDict.keys d) <-> k t ∈ rev (map k l)).
  { rewrite IH, <- in_rev, <- list_elem_of_In. apply elem_of_remove_dups. }
  destruct (decide_rel elem_of (k t) (rev (map k l))) as [Hin | Hnin].
  - rewrite keys_set_present by (now apply Hmem). exact IH.
  - rewrite keys_set_absent by (now rewrite Hmem). cbn [rev]. now rewrite IH.
Qed.

Lemma zone_fares_not_empty l z fares : In (z, fares) (zone_fares l) -> fares <> [].
Proof.
  intros Hin. apply (dict_In_get _ _ _ (zone_fares_nodup l)) in Hin.
  pose proof (zone_fares_spec l z) as Hspec. rewrite Hin in Hspec. tauto.
Qed.

Lemma revenue_pass_keys zf : forall zrm,
  (forall z fares, In (z, fares) zf -> fares <> []) ->
  revenue_pass zf = Return zrm -> PyDict.keys zrm = PyDict.keys zf.
Proof.
  induction zf as [| [z fares] zf IH]; intros zrm Hne Hpass; cbn [revenue_pass] in Hpass.
  - injection Hpass as <-. reflexivity.
  - destruct fares as [| f fs]; [exfalso; apply (Hne z []); [now left | reflexivity] |].
    unfold bind in Hpass.
    destruct (zone_revenue_metric z (f :: fs)) as [zm |]; [| discriminate].
    destruct (revenue_pass zf) as [ms |] eqn:Ems; [| discriminate].
    injection Hpass as <-. cbn. f_equal. apply IH; [| reflexivity].
    intros z' fares' Hin. apply (Hne z'). now right.
Qed.

End OrderFacts.

Module OrderExtras.

Import DataCleaner RiskEngine Views PyDictFacts ExposureFacts RevenueFacts OrderFacts.

(** The three outputs have one row for each key, in the order in which
    the keys first appear among the cleaned trips: the exposure metrics
    and the risk scores one for each (zone, hour), with the same keys in
    the same order, and the revenue metrics one for each zone. *)
Theorem output_rows_in_order_of_first_appearance cleaned m :
  compute cleaned = Return m ->
  PyDict.keys (zone_hour_metrics m) = rev (remove_dups (rev (map key_of cleaned))) /\
  PyDict.keys (zone_risk_scores m) = PyDict.keys (zone_hour_metrics m) /\
  PyDict.keys (zone_revenue_metrics m)
  = rev (remove_dups (rev (map pulocation_id cleaned))).
Proof.
  intros Hrun. rewrite RiskFacts.compute_eq in Hrun. unfold bind in Hrun.
  destruct (compute_revenue_volatility cleaned) as [zrm |] eqn:Erev; [| discriminate].
  injection Hrun as <-. cbn [zone_hour_metrics zone_risk_scores zone_revenue_metrics].
  split; [| split].
  - rewrite exposure_keys. unfold zone_hour_trips.
    apply (keys_fold key_of
             (fun d trip =>
                let cur := default (mkZHT 0 0 []) (PyDict.get d (key_of trip)) in
                mkZHT (count cur + 1)
                      (total_duration cur + trip_duration_minutes trip)%float
                      (trips cur ++ [trip]))).
  - unfold risk_scores_of, PyDict.keys. rewrite map_map.
    apply map_ext. intros [[z h] metrics]. reflexivity.
  - rewrite (revenue_pass_keys _ _ (zone_fares_not_empty cleaned) Erev).
    unfold zone_fares.
    apply (keys_fold pulocation_id
             (fun d trip =>
                default [] (PyDict.get d (pulocation_id trip)) ++ [total_amount trip])).
Qed.

Lemma output_rows_in_order_of_first_appearance_witness :
  exists zhm,
    compute_exposure_density Samples.trips_with_nan = Return zhm /\
    PyDict.keys zhm = rev (remove_dups (rev (map key_of Samples.trips_with_nan))).
Proof.
  pose (m := match compute Samples.trips_with_nan with
             | Return m => m
             | Raise _ => mkMetrics [] [] []
             end).
  destruct (output_rows_in_order_of_first_appearance Samples.trips_with_nan m) as [H _].
  - vm_compute. reflexivity.
  - exists (zone_hour_metrics m). split; [vm_compute; reflexivity | exact H].
Defined.

End OrderExtras.

(* ===================================================================== *)
(** * The keys of the JSON files *)
(* ===================================================================== *)

Module JsonFacts.

Import DataCleaner RiskEngine Views PyDictFacts ExposureFacts RevenueFacts OrderFacts.

Lemma to_string_inj a b : PyInt.to_string a = PyInt.to_string b -> a = b.
Proof.
  unfold PyInt.to_string. intros E. apply DecimalZ.to_int_inj.
  pose proof (DecimalString.NilEmpty.isi (Z.to_int a)) as Ha.
  rewrite E, DecimalString.NilEmpty.isi in Ha. now injection Ha.
Qed.

Lemma uint_no_underscore d : no_underscore (DecimalString.NilEmpty.string_of_uint d) = true.
Proof. induction d; cbn; auto. Qed.

Lemma to_string_no_underscore n : no_underscore (PyInt.to_string n) = true.
Proof.
  unfold PyInt.to_string. destruct (Z.to_int n); cbn; apply uint_no_underscore.
Qed.

Lemma split_at_underscore s1 : forall s2 t1 t2,
  no_underscore s1 = true -> no_underscore s2 = true ->
  (s1 ++ "_" ++ t1 = s2 ++ "_" ++ t2)%string -> s1 = s2 /\ t1 = t2.
Proof.
  induction s1 as [| c s1 IH]; intros [| c2 s2] t1 t2 H1 H2 E; cbn in *.
  - injection E as E. auto.
  - injection E as Ec _. subst c2. discriminate H2.
  - injection E as Ec _. subst c. discriminate H1.
  - injection E as Ec E. subst c2.
    apply Bool.andb_true_iff in H1, H2.
    destruct (IH s2 t1 t2 (proj2 H1) (proj2 H2) E) as [-> ->]. auto.
Qed.

Lemma json_key_inj k1 k2 : json_key k1 = json_key k2 -> k1 = k2.
Proof.
  destruct k1 as [z1 h1], k2 as [z2 h2]. unfold json_key. cbn [fst snd]. intros E.
  apply split_at_underscore in E; try apply to_string_no_underscore.
  destruct E as [Ez Eh]. apply to_string_inj in Ez, Eh. congruence.
Qed.

Section Dict.
Context {K V : Type} `{EqDecision K}.

Lemma set_absent (d : list (K * V)) k v :
  ~ In k (PyDict.keys d) -> PyDict.set d k v = d ++ [(k, v)].
Proof.
  induction d as [| [k' v'] d IH]; cbn; [reflexivity |].
  intros Hin. destruct (decide (k = k')) as [-> | Hne]; [tauto |].
  f_equal. apply IH. tauto.
Qed.

End Dict.

(** With distinct keys no assignment of the loop overwrites another. *)
Lemma serialized_map {V : Type} (d : list ((Z * Z) * V)) :
  List.NoDup (PyDict.keys d) ->
  serialized d = map (fun '(key, metrics) => (json_key key, metrics)) d.
Proof.
  unfold serialized.
  induction d as [| [key v] d IH] using rev_ind; intros Hnd; [reflexivity |].
  unfold PyDict.keys in Hnd. rewrite map_app in Hnd. cbn [map fst] in Hnd.
  apply NoDup_remove in Hnd. rewrite app_nil_r in Hnd. destruct Hnd as [Hnd Hnin].
  rewrite fold_left_app, map_app. cbn [fold_left map]. rewrite (IH Hnd).
  apply set_absent. unfold PyDict.keys. rewrite map_map. intros Hin.
  apply in_map_iff in Hin. destruct Hin as ([key' v'] & Ek & Hin). cbn [fst] in Ek.
  apply json_key_inj in Ek. subst key'. apply Hnin.
  apply in_map_iff. exists (key, v'). auto.
Qed.

Lemma NoDup_map_inj {A B : Type} (f : A -> B) l :
  (forall a b, f a = f b -> a = b) -> List.NoDup l -> List.NoDup (map f l).
Proof.
  intros Hinj Hnd. induction Hnd as [| a l Hnin Hnd IH]; cbn; constructor; [| exact IH].
  intros Hin. apply in_map_iff in Hin. destruct Hin as (b & E & Hb).
  apply Hinj in E. now subst.
Qed.

End JsonFacts.

Module JsonExtras.

Import DataCleaner RiskEngine Views PyDictFacts ExposureFacts RevenueFacts OrderFacts JsonFacts.

(** The JSON files lose no row. The text [f"{zone_id}_{hour}"] is
    different for different (zone, hour) pairs, so in the files of the
    exposure metrics and of the risk scores every bucket has a member of
    its own, in the order of the dictionaries, and the file of the
    revenue metrics has one member for each zone; within each file the
    member names are distinct. *)
Theorem json_files_keep_every_row cleaned m :
  compute cleaned = Return m ->
  let files := write_metrics_to_json m in
  (forall k1 k2, json_key k1 = json_key k2 -> k1 = k2) /\
  ZONE_HOUR_METRICS_JSON files
  = map (fun '(key, metrics) => (json_key key, metrics)) (zone_hour_metrics m) /\
  ZONE_RISK_SCORES_JSON files
  = map (fun '(key, score) => (json_key key, score)) (zone_risk_scores m) /\
  List.NoDup (PyDict.keys (ZONE_HOUR_METRICS_JSON files)) /\
  List.NoDup (PyDict.keys (ZONE_REVENUE_METRICS_JSON files)) /\
  List.NoDup (PyDict.keys (ZONE_RISK_SCORES_JSON files)).
Proof.
  intros Hrun. cbv zeta.
  assert (Hzh : List.NoDup (PyDict.keys (zone_hour_metrics m))).
  { rewrite RiskFacts.compute_eq in Hrun. unfold bind in Hrun.
    destruct (compute_revenue_volatility cleaned); [| discriminate].
    injection Hrun as <-. cbn [zone_hour_metrics]. rewrite exposure_keys.
    apply zone_hour_trips_spec. }
  assert (Hrs : List.NoDup (PyDict.keys (zone_risk_scores m))).
  { rewrite RiskFacts.compute_eq in Hrun. unfold bind in Hrun.
    destruct (compute_revenue_volatility cleaned) as [zrm |]; [| discriminate].
    injection Hrun as <-. cbn [zone_risk_scores zone_hour_metrics] in *.
    replace (PyDict.keys (risk_scores_of (exposure_of cleaned) zrm))
      with (PyDict.keys (exposure_of cleaned)); [exact Hzh |].
    unfold risk_scores_of, PyDict.keys. rewrite map_map.
    apply map_ext. intros [[z h] metrics]. reflexivity. }
  assert (Hrev : List.NoDup (PyDict.keys (zone_revenue_metrics m))).
  { rewrite RiskFacts.compute_eq in Hrun. unfold bind in Hrun.
    destruct (compute_revenue_volatility cleaned) as [zrm |] eqn:Erev; [| discriminate].
    injection Hrun as <-. cbn [zone_revenue_metrics].
    rewrite (revenue_pass_keys _ _ (zone_fares_not_empty cleaned) Erev).
    apply zone_fares_nodup. }
  assert (Hkeys : forall V (d : list ((Z * Z) * V)),
             PyDict.keys (map (fun '(key, v) => (json_key key, v)) d)
             = map json_key (PyDict.keys d)).
  { intros V d. unfold PyDict.keys. rewrite !map_map. apply map_ext. now intros [k v]. }
  unfold write_metrics_to_json.
  cbn [ZONE_HOUR_METRICS_JSON ZONE_REVENUE_METRICS_JSON ZONE_RISK_SCORES_JSON].
  rewrite (serialized_map _ Hzh), (serialized_map _ Hrs), !Hkeys.
  split; [exact json_key_inj |]. split; [reflexivity |]. split; [reflexivity |].
  split; [apply NoDup_map_inj; [exact json_key_inj | exact Hzh] |].
  split; [| apply NoDup_map_inj; [exact json_key_inj | exact Hrs]].
  replace (PyDict.keys (map (fun '(zone_id, metrics) => (PyInt.to_string zone_id, metrics))
                            (zone_revenue_metrics m)))
    with (map PyInt.to_string (PyDict.keys (zone_revenue_metrics m))).
  - apply NoDup_map_inj; [exact to_string_inj | exact Hrev].
  - unfold PyDict.keys. rewrite !map_map. apply map_ext. now intros [k v].
Qed.

Lemma json_files_keep_every_row_witness :
  exists zhm,
    compute_exposure_density Samples.trips_with_nan = Return zhm /\
    PyDict.keys (serialized zhm) = ["1_8"; "2_9"].
Proof.
  pose (m := match compute Samples.trips_with_nan with
             | Return m => m
             | Raise _ => mkMetrics [] [] []
             end).
  destruct (json_files_keep_every_row Samples.trips_with_nan m) as (_ & H & _).
  - vm_compute. reflexivity.
  - exists (zone_hour_metrics m). split; [vm_compute; reflexivity |].
    change (serialized (zone_hour_metrics m))
      with (ZONE_HOUR_METRICS_JSON (write_metrics_to_json m)).
    rewrite H. vm_compute. reflexivity.
Defined.

End JsonExtras.

(* ===================================================================== *)
(** * A run that retains no trip *)
(* ===================================================================== *)

Module StaleFacts.

Import DataCleaner RiskEngine Views IngestionClosed.

Lemma no_valid_row_no_trip zone_ids cs max_rows input :
  Forall (fun p => fst (fst (_validate_record zone_ids (snd p) (fst p))) = false)
         (enumerate_from 1 (rows_read max_rows (default [] input))) ->
  cleaned_trips (process_csv_chunks zone_ids cs max_rows input init) = [].
Proof.
  intros Hall. destruct input as [rows |]; [| reflexivity].
  pose proof (process_closed zone_ids cs max_rows rows) as H. cbv zeta in H.
  destruct H as (Ht & _ & _). rewrite Ht. clear Ht.
  change (default [] (Some rows)) with rows in Hall. revert Hall.
  generalize (enumerate_from 1 (rows_read max_rows rows)). intros l Hall.
  induction Hall as [| p l' Hp _ IH]; [reflexivity |].
  cbn [flat_map]. rewrite IH, app_nil_r. unfold valid_of.
  destruct (_validate_record zone_ids (snd p) (fst p)) as [[v r] reason].
  cbn [fst] in Hp. now rewrite Hp.
Qed.

End StaleFacts.

Module PipelineExtras.

Import DataCleaner RiskEngine Views IngestionClosed RiskFacts PipelineClaims StaleFacts.

(** A run that retains no trip (the input file is missing, or none of
    the rows read is valid) does not touch the cleaned file: the file an
    earlier run left stays as it is, the engine loads it, and the
    metrics written and returned are those of the earlier trips, while
    the cleaner itself hands back no trip and the exclusion log is that
    of the present run. *)
Theorem run_without_valid_row_reports_earlier_trips
    zone_ids chunk_size max_rows input old log mf :
  Forall (fun p => fst (fst (_validate_record zone_ids (snd p) (fst p))) = false)
         (enumerate_from 1 (rows_read max_rows (default [] input))) ->
  old <> [] ->
  exists m,
    compute old = Return m /\
    Pipeline.run zone_ids chunk_size max_rows input
      (Pipeline.mkFiles (mkCleanerFiles (Some old) log) mf)
    = (Pipeline.mkFiles
         (mkCleanerFiles (Some old)
            (Some (excluded_records (process_csv_chunks zone_ids chunk_size max_rows input init))))
         (Some m),
       Pipeline.mkResult (process_csv_chunks zone_ids chunk_size max_rows input init)
         (Return (Some m))) /\
    cleaned_trips (process_csv_chunks zone_ids chunk_size max_rows input init) = [].
Proof.
  intros Hall Hold.
  pose proof (no_valid_row_no_trip zone_ids chunk_size max_rows input Hall) as Hnil.
  destruct (compute_returns old) as (zrm & _ & Hm). eexists.
  split; [exact Hm |]. split; [| exact Hnil].
  rewrite pipeline_run_eq. unfold files_after, write_exclusion_log, write_cleaned_data.
  rewrite Hnil. cbn [CLEANED_TRIPS_CSV EXCLUDED_RECORDS_LOG].
  unfold engine_part. cbn [CLEANED_TRIPS_CSV]. unfold RiskEngine.run, load_cleaned_data.
  cbn [default]. destruct old as [| t ts]; [contradiction |].
  unfold id. cbv beta iota. rewrite Hm. reflexivity.
Qed.

Lemma run_without_valid_row_reports_earlier_trips_witness :
  exists m,
    compute Samples.trips_close = Return m /\
    Pipeline.metric_files
      (fst (Pipeline.run standard_zone_ids 2 None (Some [Samples.faulty; Samples.short_line])
              (Pipeline.mkFiles (mkCleanerFiles (Some Samples.trips_close) None) None)))
    = Some m.
Proof.
  destruct (run_without_valid_row_reports_earlier_trips standard_zone_ids 2 None
              (Some [Samples.faulty; Samples.short_line]) Samples.trips_close None None)
    as (m & Hm & Hrun & _).
  - constructor; [vm_compute; reflexivity |].
    constructor; [vm_compute; reflexivity |]. constructor.
  - discriminate.
  - exists m. split; [exact Hm |]. rewrite Hrun. reflexivity.
Defined.

End PipelineExtras.

(* ===================================================================== *)
(** * From the raw rows to the risk scores *)
(* ===================================================================== *)

Module EndToEndFacts.

Import DataCleaner PyDatetime RiskEngine Views ValidatorFacts IngestionClosed.
Import ValidatorMore EngineMore.

(** A cleaned trip is the record of some row that was read. *)
Lemma cleaned_trip_origin zone_ids cs max_rows input t :
  In t (cleaned_trips (process_csv_chunks zone_ids cs max_rows input init)) ->
  exists row row_index, snd (fst (_validate_record zone_ids row row_index)) = Some t.
Proof.
  destruct input as [rows |]; [| intros []].
  pose proof (process_closed zone_ids cs max_rows rows) as H. cbv zeta in H.
  destruct H as (Ht & _ & _). rewrite Ht. clear Ht. intros Hin.
  apply in_flat_map in Hin. destruct Hin as ([i row] & _ & Hin).
  exists row, i. unfold valid_of in Hin. cbn [fst snd] in *.
  destruct (_validate_record zone_ids row i) as [[[|] [r |]] reason];
    cbn in Hin; try contradiction.
  destruct Hin as [-> | []]. reflexivity.
Qed.

Lemma cleaned_trip_zone_and_hour zone_ids row row_index t :
  snd (fst (_validate_record zone_ids row row_index)) = Some t ->
  pulocation_id t ∈ zone_ids /\ 0 <= hour_of_day t <= 23.
Proof.
  intros Hsome. apply validate_record_some in Hsome.
  destruct (validate_body_fields _ _ _ _ Hsome)
    as (_ & (p & d & Hp & _ & _ & _ & Hh & _) & _ & _ & Hpu & _).
  apply bool_decide_eq_true_1 in Hpu. split; [exact Hpu |].
  destruct (valid_ranges _ (parse_datetime_valid _ _ Hp)) as (_ & _ & _ & Hhour & _).
  now rewrite Hh.
Qed.

Lemma late_night_values :
  PyFloat.round (Config.w_late_night * 1) 4 = 0.3%float /\
  PyFloat.round (Config.w_late_night * 0) 4 = 0%float.
Proof. split; vm_compute; reflexivity. Qed.

End EndToEndFacts.

Module EndToEndExtras.

Import DataCleaner PyDatetime RiskEngine Views ValidatorFacts IngestionClosed.
Import ValidatorMore EngineMore EndToEndFacts.

(** From the raw rows to the risk scores: when the engine computes on
    the trips the cleaner retained, every row of the risk scores carries
    the zone and the hour of its key, the zone is one of the known zone
    ids, the hour lies within 0..23, and the late-night component is
    0.3 for the hours 22, 23 and 0 to 5 and 0.0 for every other hour. *)
Theorem risk_rows_have_known_zone_and_hour zone_ids chunk_size max_rows input m key r :
  compute (cleaned_trips (process_csv_chunks zone_ids chunk_size max_rows input init))
  = Return m ->
  In (key, r) (zone_risk_scores m) ->
  rs_zone_id r = fst key /\ rs_hour r = snd key /\
  fst key ∈ zone_ids /\ 0 <= snd key <= 23 /\
  late_night_component r
  = if in_ints (snd key) [22; 23; 0; 1; 2; 3; 4; 5] then 0.3%float else 0%float.
Proof.
  intros Hrun Hin. rewrite RiskFacts.compute_eq in Hrun. unfold bind in Hrun.
  set (cleaned := cleaned_trips _) in *.
  destruct (compute_revenue_volatility cleaned) as [zrm |]; [| discriminate].
  injection Hrun as <-. cbn [zone_risk_scores] in Hin.
  unfold risk_scores_of in Hin. apply in_map_iff in Hin.
  destruct Hin as ([[z h] metrics] & E & Hin). injection E as <- <-. cbn [fst snd].
  unfold exposure_of in Hin. apply in_map_iff in Hin.
  destruct Hin as ([[z' h'] data] & E & Hin). injection E as -> -> _.
  destruct (zone_hour_trips_has_trip _ _ _ Hin) as (t & Ht & Hk).
  destruct (cleaned_trip_origin _ _ _ _ _ Ht) as (row & i & Hsome).
  destruct (cleaned_trip_zone_and_hour _ _ _ _ Hsome) as [Hz Hh].
  unfold key_of in Hk. injection Hk as <- <-.
  split; [reflexivity |]. split; [reflexivity |]. split; [exact Hz |]. split; [exact Hh |].
  unfold risk_entry_of. cbn [late_night_component].
  change Config.LATE_NIGHT_HOURS with [22; 23; 0; 1; 2; 3; 4; 5].
  destruct (in_ints (hour_of_day t) [22; 23; 0; 1; 2; 3; 4; 5]); apply late_night_values.
Qed.

Lemma risk_rows_have_known_zone_and_hour_witness :
  pulocation_id Samples.good_cleaned ∈ standard_zone_ids /\
  0 <= hour_of_day Samples.good_cleaned <= 23.
Proof.
  pose (m := match compute [Samples.good_cleaned] with
             | Return m => m
             | Raise _ => mkMetrics [] [] []
             end).
  pose (r := match zone_risk_scores m with
             | (_, r) :: _ => r
             | [] => mkRisk 0 0 0 0 0 0 0
             end).
  destruct (risk_rows_have_known_zone_and_hour standard_zone_ids 2 None
              (Some [Samples.good]) m (key_of Samples.good_cleaned) r)
    as (_ & _ & Hz & Hh & _).
  - vm_compute. reflexivity.
  - vm_compute. left. reflexivity.
  - split; assumption.
Defined.

End EndToEndExtras.

(* ===================================================================== *)
(** * The reasons of the exclusion log *)
(* ===================================================================== *)

Module ReasonFacts.

Import DataCleaner PyDatetime Views ValidatorFacts IngestionClosed.

Lemma parse_int_raise v e :
  _parse_int v = Raise e -> e = OverflowError "cannot convert float infinity to integer".
Proof.
  unfold _parse_int, int_of_float. intros H.
  repeat first [ discriminate H | injection H as <- | break_hyp H ]. reflexivity.
Qed.

Lemma strip_val_raise v e :
  strip_val v = Raise e -> e = AttributeError "'NoneType' object has no attribute 'strip'".
Proof. destruct v; cbn; intros H; [discriminate H | now injection H as <-]. Qed.

(** The body faults in two ways only. *)
Lemma validate_body_raise zone_ids row row_index e :
  validate_body zone_ids row row_index = Raise e ->
  e = OverflowError "cannot convert float infinity to integer" \/
  e = AttributeError "'NoneType' object has no attribute 'strip'".
Proof.
  intros H. unfold validate_body, reject, bind in H.
  repeat first [ discriminate H | injection H as <- | break_hyp H ];
    match goal with
    | Hx : _parse_int _ = Raise _ |- _ => left; exact (parse_int_raise _ _ Hx)
    | Hx : strip_val _ = Raise _ |- _ => right; exact (strip_val_raise _ _ Hx)
    end.
Qed.

Lemma validate_body_reasons zone_ids row row_index v rec reason :
  validate_body zone_ids row row_index = Return (v, rec, Some reason) ->
  In reason
     ["invalid_datetime_format"; "dropoff_before_or_equal_pickup"; "date_out_of_range";
      "negative_or_null_distance"; "distance_exceeds_max";
      "negative_or_null_fare"; "fare_exceeds_max";
      "invalid_passenger_count"; "passenger_count_exceeds_max";
      "invalid_pulocation_id"; "invalid_dolocation_id";
      "trip_duration_too_short"; "trip_duration_exceeds_max";
      "invalid_ratecode"; "invalid_payment_type"; "invalid_store_fwd_flag"].
Proof.
  intros H. unfold validate_body, reject, bind in H.
  repeat first [ discriminate H | injection H as <- <- <- | break_hyp H ];
    cbn [In]; tauto.
Qed.

Lemma validate_record_reasons zone_ids row row_index reason :
  snd (_validate_record zone_ids row row_index) = Some reason ->
  In reason
     ["invalid_datetime_format"; "dropoff_before_or_equal_pickup"; "date_out_of_range";
      "negative_or_null_distance"; "distance_exceeds_max";
      "negative_or_null_fare"; "fare_exceeds_max";
      "invalid_passenger_count"; "passenger_count_exceeds_max";
      "invalid_pulocation_id"; "invalid_dolocation_id";
      "trip_duration_too_short"; "trip_duration_exceeds_max";
      "invalid_ratecode"; "invalid_payment_type"; "invalid_store_fwd_flag";
      "processing_error_cannot convert float infinity ";
      "processing_error_'NoneType' object has no attri"].
Proof.
  unfold _validate_record.
  destruct (validate_body zone_ids row row_index) as [[[v rec] r] | e] eqn:E; cbn [snd].
  - intros ->. apply validate_body_reasons in E. cbn [In] in *. tauto.
  - intros H. injection H as <-.
    destruct (validate_body_raise _ _ _ _ E) as [-> | ->]; vm_compute; tauto.
Qed.

End ReasonFacts.

Module ReasonExtras.

Import DataCleaner PyDatetime Views ValidatorFacts IngestionClosed ReasonFacts.

(** The reasons form a closed set. Whatever the row holds, a reason
    returned by the validator is one of the sixteen rule reasons or one
    of two processing errors: the body faults only when an integer field
    reads as an infinite number, or when the store-and-forward flag is
    missing from a short line. Hence every line of the exclusion log
    carries one of these eighteen texts. *)
Theorem exclusion_reasons_closed_set zone_ids chunk_size max_rows input :
  let reasons :=
    ["invalid_datetime_format"; "dropoff_before_or_equal_pickup"; "date_out_of_range";
     "negative_or_null_distance"; "distance_exceeds_max";
     "negative_or_null_fare"; "fare_exceeds_max";
     "invalid_passenger_count"; "passenger_count_exceeds_max";
     "invalid_pulocation_id"; "invalid_dolocation_id";
     "trip_duration_too_short"; "trip_duration_exceeds_max";
     "invalid_ratecode"; "invalid_payment_type"; "invalid_store_fwd_flag";
     "processing_error_cannot convert float infinity ";
     "processing_error_'NoneType' object has no attri"] in
  (forall row row_index reason,
     snd (_validate_record zone_ids row row_index) = Some reason -> In reason reasons) /\
  (forall row row_index,
     fst (fst (_validate_record zone_ids row row_index)) = false ->
     exists reason, snd (_validate_record zone_ids row row_index) = Some reason) /\
  (forall row_index reason,
     In (row_index, reason)
        (excluded_records (process_csv_chunks zone_ids chunk_size max_rows input init)) ->
     exists r, reason = Some r /\ In r reasons).
Proof.
  cbv zeta.
  assert (Hsome : forall row row_index,
             fst (fst (_validate_record zone_ids row row_index)) = false ->
             exists reason, snd (_validate_record zone_ids row row_index) = Some reason).
  { intros row row_index.
    destruct (validate_record_shape zone_ids row row_index) as [[t H] | [r H]];
      rewrite H; cbn; [discriminate | eauto]. }
  split; [exact (validate_record_reasons zone_ids) |]. split; [exact Hsome |].
  intros row_index reason Hin.
  destruct input as [rows |]; [| destruct Hin].
  pose proof (process_closed zone_ids chunk_size max_rows rows) as H. cbv zeta in H.
  destruct H as (_ & Hx & _). rewrite Hx in Hin. clear Hx.
  apply in_flat_map in Hin. destruct Hin as ([i row] & _ & Hin).
  unfold excluded_of in Hin. cbn [fst snd] in Hin.
  destruct (_validate_record zone_ids row i) as [[v rec] reason'] eqn:E.
  destruct v; [destruct Hin |]. destruct Hin as [Eq | []]. injection Eq as <- <-.
  destruct (Hsome row i) as [r Hr]; [now rewrite E |].
  exists r. rewrite E in Hr. cbn [snd] in Hr. split; [exact Hr |].
  apply (validate_record_reasons zone_ids row i). now rewrite E.
Qed.

End ReasonExtras.
(* ===================================================================== *)
(** * When the first failing rule wins *)
(* ===================================================================== *)

Module PrecedenceFacts.

Import DataCleaner ValidatorFacts Views.

Ltac no_fault :=
  match goal with
  | Hf : match ?x with Return _ => false | Raise _ => true end = false,
    E : ?x = Raise _ |- _ => rewrite E in Hf; discriminate Hf
  | Hm : match ?x with Some _ => false | None => true end = false,
    E : ?x = None |- _ => rewrite E in Hm; discriminate Hm
  end.

(** With no integer field that faults and the flag present, the body
    raises only when it builds the record, after every check: on a
    record whose distance and fare are numbers every rule has passed. *)
Lemma validate_body_raise_passes zone_ids row row_index e :
  int_faults row "passenger_count" = false ->
  int_faults row "PULocationID" = false ->
  int_faults row "DOLocationID" = false ->
  int_faults row "RatecodeID" = false ->
  int_faults row "payment_type" = false ->
  is_missing row "store_and_fwd_flag" = false ->
  reads_nan row "trip_distance" = false ->
  reads_nan row "fare_amount" = false ->
  validate_body zone_ids row row_index = Raise e ->
  Rules.first_failure (Rules.rules zone_ids) row = Return None.
Proof.
  unfold int_faults, is_missing, reads_nan. intros H1 H2 H3 H4 H5 H6 Hd Hf H.
  unfold_rules.
  unfold validate_body, reject, strip_val in H. unfold bind in *.
  repeat first [ congruence | no_fault | use_number | break_hyp H ].
Qed.

(** The first three rules are looked at before any field is parsed. *)
Lemma early_rule_wins zone_ids row row_index i reason :
  Rules.first_failing (Rules.rules zone_ids) row i reason -> (i < 3)%nat ->
  validate_body zone_ids row row_index = Return (false, None, Some reason).
Proof.
  intros [Hbefore (r & Hnth & Hfail)] Hi.
  assert (H0 : (0 < i)%nat -> Rules.timestamp_parse row = Return None)
    by (intros Hlt; apply (Hbefore 0%nat); [exact Hlt | reflexivity]).
  assert (H1 : (1 < i)%nat -> Rules.ordering row = Return None)
    by (intros Hlt; apply (Hbefore 1%nat); [exact Hlt | reflexivity]).
  unfold Rules.timestamp_parse, Rules.ordering, Rules.pickup, Rules.dropoff,
    Rules.pass, Rules.fail in H0, H1.
  unfold validate_body, reject.
  destruct i as [| [| [| i]]]; [| | | lia]; cbn in Hnth; injection Hnth as <-;
    unfold Rules.timestamp_parse, Rules.ordering, Rules.temporal_window, Rules.pickup,
      Rules.dropoff, Rules.pass, Rules.fail in Hfail.
  - destruct (_parse_datetime (row_get row "tpep_pickup_datetime"));
      destruct (_parse_datetime (row_get row "tpep_dropoff_datetime"));
      congruence.
  - specialize (H0 ltac:(lia)).
    destruct (_parse_datetime (row_get row "tpep_pickup_datetime")) as [p |];
      destruct (_parse_datetime (row_get row "tpep_dropoff_datetime")) as [d |];
      try discriminate H0.
    destruct (PyDatetime.leb d p); congruence.
  - specialize (H0 ltac:(lia)). specialize (H1 ltac:(lia)).
    destruct (_parse_datetime (row_get row "tpep_pickup_datetime")) as [p |];
      destruct (_parse_datetime (row_get row "tpep_dropoff_datetime")) as [d |];
      try discriminate H0.
    destruct (PyDatetime.leb d p); [discriminate H1 |].
    destruct ((PyDatetime.year p =? 2019) && (PyDatetime.month p =? 1)) eqn:E.
    + discriminate Hfail.
    + apply Bool.andb_false_iff in E.
      destruct E as [-> | ->]; cbn; rewrite ?Bool.orb_true_r; congruence.
Qed.

End PrecedenceFacts.

Module PrecedenceExtras.

Import DataCleaner ValidatorFacts Views PrecedenceFacts.

(** When the first failing rule wins. A record that fails rule 1 is
    reported as [invalid_datetime_format] whatever its other fields
    hold.  For a record whose first failing rule, in the order of the
    list, is rule [i + 1] and fails with [reason]: when that rule is
    one of the first three, the record is reported with that reason;
    and so it is for every rule when none of the five integer fields
    faults on parsing, the store-and-forward flag is present, and
    distance and fare read as numbers.  So a record reported with
    anything else has a first failing rule from the fourth on and one
    of these defects. *)
Theorem first_failing_rule_wins_without_fault zone_ids row row_index i reason :
  Rules.first_failing (Rules.rules zone_ids) row i reason ->
  (Rules.timestamp_parse row = Return (Some "invalid_datetime_format") ->
   _validate_record zone_ids row row_index = (false, None, Some "invalid_datetime_format")) /\
  ((i < 3)%nat -> _validate_record zone_ids row row_index = (false, None, Some reason)) /\
  (int_faults row "passenger_count" = false ->
   int_faults row "PULocationID" = false ->
   int_faults row "DOLocationID" = false ->
   int_faults row "RatecodeID" = false ->
   int_faults row "payment_type" = false ->
   is_missing row "store_and_fwd_flag" = false ->
   reads_nan row "trip_distance" = false ->
   reads_nan row "fare_amount" = false ->
   _validate_record zone_ids row row_index = (false, None, Some reason)) /\
  (_validate_record zone_ids row row_index <> (false, None, Some reason) ->
   (3 <= i)%nat /\
   (int_faults row "passenger_count" || int_faults row "PULocationID"
    || int_faults row "DOLocationID" || int_faults row "RatecodeID"
    || int_faults row "payment_type" || is_missing row "store_and_fwd_flag"
    || reads_nan row "trip_distance" || reads_nan row "fare_amount") = true).
Proof.
  intros Hfirst.
  assert (Hearly : (i < 3)%nat ->
            _validate_record zone_ids row row_index = (false, None, Some reason)).
  { intros Hi. apply validate_record_return. now apply early_rule_wins with (i := i). }
  assert (Hclean : int_faults row "passenger_count" = false ->
            int_faults row "PULocationID" = false ->
            int_faults row "DOLocationID" = false ->
            int_faults row "RatecodeID" = false ->
            int_faults row "payment_type" = false ->
            is_missing row "store_and_fwd_flag" = false ->
            reads_nan row "trip_distance" = false ->
            reads_nan row "fare_amount" = false ->
            _validate_record zone_ids row row_index = (false, None, Some reason)).
  { intros H1 H2 H3 H4 H5 H6 Hd Hf.
    pose proof (first_failing_first_failure _ _ _ _ Hfirst) as Hff.
    destruct (validate_body_cases zone_ids row row_index) as [[t H] | [[r H] | [e H]]].
    - apply (validate_body_first_failure _ _ _ _ _ _ Hd Hf) in H. congruence.
    - rewrite (validate_record_return _ _ _ _ H).
      apply (validate_body_first_failure _ _ _ _ _ _ Hd Hf) in H. congruence.
    - pose proof (validate_body_raise_passes _ _ _ _ H1 H2 H3 H4 H5 H6 Hd Hf H). congruence. }
  split; [| split; [exact Hearly | split; [exact Hclean |]]].
  - unfold Rules.timestamp_parse, Rules.pickup, Rules.dropoff, Rules.pass, Rules.fail.
    intros H. apply validate_record_return. unfold validate_body, reject.
    destruct (_parse_datetime (row_get row "tpep_pickup_datetime"));
      destruct (_parse_datetime (row_get row "tpep_dropoff_datetime"));
      first [discriminate H | reflexivity].
  - intros Hne. split.
    + destruct (Nat.lt_ge_cases i 3) as [Hi | Hi]; [| exact Hi].
      exfalso. exact (Hne (Hearly Hi)).
    + destruct (int_faults row "passenger_count") eqn:E1; [reflexivity |].
      destruct (int_faults row "PULocationID") eqn:E2; [reflexivity |].
      destruct (int_faults row "DOLocationID") eqn:E3; [reflexivity |].
      destruct (int_faults row "RatecodeID") eqn:E4; [reflexivity |].
      destruct (int_faults row "payment_type") eqn:E5; [reflexivity |].
      destruct (is_missing row "store_and_fwd_flag") eqn:E6; [reflexivity |].
      destruct (reads_nan row "trip_distance") eqn:E7; [reflexivity |].
      destruct (reads_nan row "fare_amount") eqn:E8; [reflexivity |].
      exfalso. apply Hne. now apply Hclean.
Qed.

Lemma first_failing_rule_wins_without_fault_witness :
  _validate_record standard_zone_ids
    (<["fare_amount" := Some "-5"]> (<["tpep_pickup_datetime" := Some "yesterday"]> Samples.good)) 3
  = (false, None, Some "invalid_datetime_format") /\
  _validate_record standard_zone_ids
    (<["fare_amount" := Some "-5"]> (<["RatecodeID" := Some "9"]> Samples.good)) 3
  = (false, None, Some "negative_or_null_fare").
Proof.
  split.
  - assert (Hff : Rules.first_failing (Rules.rules standard_zone_ids)
      (<["fare_amount" := Some "-5"]>
         (<["tpep_pickup_datetime" := Some "yesterday"]> Samples.good))
      0 "invalid_datetime_format").
    { split.
      - intros j r Hj. lia.
      - eexists. split; [reflexivity | vm_compute; reflexivity]. }
    destruct (first_failing_rule_wins_without_fault standard_zone_ids _ 3 _ _ Hff)
      as (_ & Hearly & _).
    apply Hearly. lia.
  - assert (Hff : Rules.first_failing (Rules.rules standard_zone_ids)
      (<["fare_amount" := Some "-5"]> (<["RatecodeID" := Some "9"]> Samples.good))
      4 "negative_or_null_fare").
    { split.
      - intros j r Hj Hr.
        do 4 (destruct j as [| j]; [injection Hr as <-; vm_compute; reflexivity |]).
        lia.
      - eexists. split; [reflexivity | vm_compute; reflexivity]. }
    destruct (first_failing_rule_wins_without_fault standard_zone_ids _ 3 _ _ Hff)
      as (_ & _ & Hclean & _).
    apply Hclean; vm_compute; reflexivity.
Defined.

End PrecedenceExtras.
